(** * NetLog: a character-stream log multiplexer

    Shallow embedding of [PlatformIO/lib/RdNetLog/NetLog.h] (class [NetLog])
    and verification of its line assembly, severity gating, sink fan-out,
    pause buffering and configuration setters.

    Conventions of the embedding
    - [uint8_t]/[char] is [ascii]; an Arduino [String] is a [string], the
      sequence of the characters it counts.  The line buffer is filled
      byte by byte, NUL included; where the code reads it through a C
      string ([String(char)], [c_str()], [replace]) the text ends at the
      first NUL: [Str.from_char], [Str.c_str], [Str.replace].  The other
      texts come from [const char*] arguments and configuration values,
      which hold no NUL in the code.
    - [int] is [Z] (the values handled here are far from the overflow
      range); [uint32_t] millisecond stamps are [Z] with the wrap-around of
      the subtraction written out in [elapsedMs].
    - Calls into collaborators ([Serial], the MQTT manager, the command
      serial, the TCP client, the configuration store) are recorded, in
      program order, in a list of [Event]s returned next to the new state.
    - The value returned by [write] (what [Serial.write] reported) is not
      part of the model. *)

From Stdlib Require Import ZArith Lia Bool Ascii String List.
From stdpp Require Import base list strings.

Import ListNotations.

(** ** Characters and strings *)

Module Str.

Definition nl : ascii := "010"%char.
Definition cr : ascii := "013"%char.
Definition dq : ascii := "034"%char.

(** The one-character text appended by [s += c]. *)
Definition of_char (c : ascii) : string := String c EmptyString.

(** [s.c_str()] read as a C string: the characters before the first NUL. *)
Fixpoint c_str (s : string) : string :=
  match s with
  | EmptyString => EmptyString
  | String a s' =>
      if Ascii.eqb a "000" then EmptyString else String a (c_str s')
  end.

(** [String(char c)], also behind [s = c]: a copy of the C string
    [{c, 0}], hence empty when [c] is NUL. *)
Definition from_char (c : ascii) : string := c_str (of_char c).

(** Every occurrence of [c] taken out. *)
Fixpoint remove (c : ascii) (s : string) : string :=
  match s with
  | EmptyString => EmptyString
  | String a s' => if Ascii.eqb a c then remove c s' else String a (remove c s')
  end.

(** [s.replace(c, empty)] for a one-character pattern: the search and
    the copy are those of the C string functions, so they stop at the
    first NUL, and so does the text that is left. *)
Definition replace (c : ascii) (s : string) : string := remove c (c_str s).

(** [*str] of a C string: its first character, NUL when empty. *)
Definition first_char (s : string) : ascii :=
  match s with
  | EmptyString => "000"%char
  | String c _ => c
  end.

Definition code (c : ascii) : Z := Z.of_N (N_of_ascii c).

(** [toupper] in the C locale. *)
Definition toupper (c : ascii) : ascii :=
  if ((97 <=? code c) && (code c <=? 122))%Z
  then ascii_of_N (Z.to_N (code c - 32))
  else c.

Definition digit_char (d : Z) : ascii := ascii_of_N (Z.to_N (48 + d)).

Definition is_digit (c : ascii) : bool := ((48 <=? code c) && (code c <=? 57))%Z.

Definition digit_val (c : ascii) : Z := (code c - 48)%Z.

(** [isspace] in the C locale: space, and the controls 9..13. *)
Definition is_space (c : ascii) : bool :=
  ((code c =? 32) || ((9 <=? code c) && (code c <=? 13)))%Z.

(** Decimal digits of a non-negative number, most significant first,
    pushed in front of [acc]. *)
Fixpoint utoa (fuel : nat) (n : Z) (acc : string) : string :=
  let acc' := String (digit_char (n mod 10)) acc in
  match fuel with
  | O => acc'
  | S fuel' => if (n <? 10)%Z then acc' else utoa fuel' (n / 10) acc'
  end.

(** [String(int)]: the decimal text of an [int]. *)
Definition itoa (n : Z) : string :=
  if (n <? 0)%Z
  then String "-" (utoa (Z.to_nat (Z.log2 (- n))) (- n) EmptyString)
  else utoa (Z.to_nat (Z.log2 n)) n EmptyString.

Fixpoint parse_digits (acc : Z) (s : string) : Z :=
  match s with
  | EmptyString => acc
  | String c s' =>
      if is_digit c then parse_digits (10 * acc + digit_val c) s' else acc
  end.

Definition parse_signed (s : string) : Z :=
  match s with
  | String "-" s' => (- parse_digits 0 s')%Z
  | String "+" s' => parse_digits 0 s'
  | _ => parse_digits 0 s
  end.

Fixpoint skip_space (s : string) : string :=
  match s with
  | String c s' => if is_space c then skip_space s' else s
  | EmptyString => EmptyString
  end.

(** [atoi] / [String::toInt]: optional white space, optional sign, then
    the longest run of decimal digits; 0 when there is none.  The value
    is the mathematical one: it is the code's as long as it fits an
    [int], beyond which the C functions leave the result undefined. *)
Definition atoi (s : string) : Z := parse_signed (skip_space s).

End Str.

(** ** Collaborators *)

(** Modelled from the spec: the severity codes of the logging facility
    ([ArduinoLog.h] is not part of the sources at hand); the spec fixes
    SILENT=0 < FATAL < ERROR < WARNING < NOTICE < TRACE < VERBOSE=6. *)
Definition LOG_LEVEL_SILENT : Z := 0.
Definition LOG_LEVEL_FATAL : Z := 1.
Definition LOG_LEVEL_ERROR : Z := 2.
Definition LOG_LEVEL_WARNING : Z := 3.
Definition LOG_LEVEL_NOTICE : Z := 4.
Definition LOG_LEVEL_TRACE : Z := 5.
Definition LOG_LEVEL_VERBOSE : Z := 6.

Definition ASCII_XOFF : ascii := "019"%char.
Definition ASCII_XON : ascii := "017"%char.
Definition LOG_LINE_MAXLEN : nat := 250.
Definition MAX_RX_BUFFER_SIZE : nat := 100.

(** Calls made to the outside world, in program order. *)
Inductive Event : Type :=
| OutputWrite (ch : ascii)                 (* _output.write(ch) *)
| SerialWrite (ch : ascii)                 (* Serial.write(ch) *)
| SerialPrintf (text : string)             (* Serial.printf(...) *)
| MqttReportSilent (payload : string)      (* _mqttManager.reportSilent *)
| CmdSerialLogMessage (payload : string)   (* _commandSerial.logMessage *)
| WifiStop                                 (* _wifiClient.stop() *)
| WifiConnect (host : string) (port : Z) (ok : bool)
| WifiPrint (request : string)             (* _wifiClient.print(...) *)
| WifiRead (numToRead : nat)               (* _wifiClient.read(...) *)
| LogVerbose (text : string)               (* Log.verbose(...) *)
| CfgSetConfigData (data : string)         (* _pConfigBase->setConfigData *)
| CfgWriteConfig.                          (* _pConfigBase->writeConfig *)

(** Modelled from the spec: the persistence collaborator ([ConfigBase] is
    not part of the sources at hand) exposes [getString(key, default)],
    [getLong(key, default)], [setConfigData] and [writeConfig]; the two
    getters and the stored text are what [setup] reads, the two mutators
    are recorded as events. *)
Record ConfigBase : Type := mkConfigBase {
  getConfigData : string;
  getLong : string -> Z -> Z;
  getString : string -> string -> string
}.

(** The TCP client, as far as [NetLog] observes it: whether it is
    connected, how many received bytes are pending, and what the network
    will answer to the next connection attempts (none left: refused). *)
Record WiFiClient : Type := mkWiFiClient {
  wc_connected : bool;
  wc_available : nat;
  wc_connectOk : list bool
}.

(** Modelled from the spec: the circular-buffer position tracker
    ([RdRingBufferPosn.h] is not part of the sources at hand) holds a
    capacity fixed at construction, a write cursor, a read cursor and a
    count, with 0 <= count <= capacity; a put is possible while count is
    below capacity and a get while count is above zero; the cursors wrap. *)
Record RingBufferPosn : Type := mkRingBufferPosn {
  capacity : nat;
  writeCursor : nat;
  readCursor : nat;
  count : nat
}.

Module Ring.

Definition init (maxLen : nat) : RingBufferPosn := mkRingBufferPosn maxLen 0 0 0.

Definition canPut (r : RingBufferPosn) : bool := count r <? capacity r.
Definition canGet (r : RingBufferPosn) : bool := 0 <? count r.
Definition posToPut (r : RingBufferPosn) : nat := writeCursor r.
Definition posToGet (r : RingBufferPosn) : nat := readCursor r.

Definition advance (cap pos : nat) : nat :=
  if cap <=? S pos then 0 else S pos.

Definition hasPut (r : RingBufferPosn) : RingBufferPosn :=
  mkRingBufferPosn (capacity r) (advance (capacity r) (writeCursor r))
    (readCursor r) (S (count r)).

Definition hasGot (r : RingBufferPosn) : RingBufferPosn :=
  mkRingBufferPosn (capacity r) (writeCursor r)
    (advance (capacity r) (readCursor r)) (Nat.pred (count r)).

End Ring.

(** ** The state of a [NetLog] object *)

Record NetLog : Type := mkNetLog {
  _msgToLog : string;
  _firstChOnLine : bool;
  _collectLineForLog : bool;
  _curMsgLogLevel : Z;
  _logToMQTT : bool;
  _mqttLogTopic : string;
  _logToHTTP : bool;
  _httpIpAddr : string;
  _httpPort : Z;
  _httpLogUrl : string;
  _logToSerial : Z;
  _serialPort : Z;
  _logToCommandSerial : Z;
  _loggingThreshold : Z;
  _pConfigBase : option ConfigBase;
  _wifiClient : WiFiClient;
  _systemName : string;
  _isPaused : bool;
  _pauseTimeMs : Z;
  _pauseStartedMs : Z;
  _pChBuffer : list ascii;
  _chBufferPosn : RingBufferPosn
}.

Definition set_msgToLog (v : string) (s : NetLog) : NetLog :=
  mkNetLog v (_firstChOnLine s) (_collectLineForLog s) (_curMsgLogLevel s)
  (_logToMQTT s) (_mqttLogTopic s) (_logToHTTP s) (_httpIpAddr s) (_httpPort
  s) (_httpLogUrl s) (_logToSerial s) (_serialPort s) (_logToCommandSerial s)
  (_loggingThreshold s) (_pConfigBase s) (_wifiClient s) (_systemName s)
  (_isPaused s) (_pauseTimeMs s) (_pauseStartedMs s) (_pChBuffer s)
  (_chBufferPosn s).
Definition set_firstChOnLine (v : bool) (s : NetLog) : NetLog :=
  mkNetLog (_msgToLog s) v (_collectLineForLog s) (_curMsgLogLevel s)
  (_logToMQTT s) (_mqttLogTopic s) (_logToHTTP s) (_httpIpAddr s) (_httpPort
  s) (_httpLogUrl s) (_logToSerial s) (_serialPort s) (_logToCommandSerial s)
  (_loggingThreshold s) (_pConfigBase s) (_wifiClient s) (_systemName s)
  (_isPaused s) (_pauseTimeMs s) (_pauseStartedMs s) (_pChBuffer s)
  (_chBufferPosn s).
Definition set_collectLineForLog (v : bool) (s : NetLog) : NetLog :=
  mkNetLog (_msgToLog s) (_firstChOnLine s) v (_curMsgLogLevel s) (_logToMQTT
  s) (_mqttLogTopic s) (_logToHTTP s) (_httpIpAddr s) (_httpPort s)
  (_httpLogUrl s) (_logToSerial s) (_serialPort s) (_logToCommandSerial s)
  (_loggingThreshold s) (_pConfigBase s) (_wifiClient s) (_systemName s)
  (_isPaused s) (_pauseTimeMs s) (_pauseStartedMs s) (_pChBuffer s)
  (_chBufferPosn s).
Definition set_curMsgLogLevel (v : Z) (s : NetLog) : NetLog :=
  mkNetLog (_msgToLog s) (_firstChOnLine s) (_collectLineForLog s) v
  (_logToMQTT s) (_mqttLogTopic s) (_logToHTTP s) (_httpIpAddr s) (_httpPort
  s) (_httpLogUrl s) (_logToSerial s) (_serialPort s) (_logToCommandSerial s)
  (_loggingThreshold s) (_pConfigBase s) (_wifiClient s) (_systemName s)
  (_isPaused s) (_pauseTimeMs s) (_pauseStartedMs s) (_pChBuffer s)
  (_chBufferPosn s).
Definition set_logToMQTT (v : bool) (s : NetLog) : NetLog :=
  mkNetLog (_msgToLog s) (_firstChOnLine s) (_collectLineForLog s)
  (_curMsgLogLevel s) v (_mqttLogTopic s) (_logToHTTP s) (_httpIpAddr s)
  (_httpPort s) (_httpLogUrl s) (_logToSerial s) (_serialPort s)
  (_logToCommandSerial s) (_loggingThreshold s) (_pConfigBase s) (_wifiClient
  s) (_systemName s) (_isPaused s) (_pauseTimeMs s) (_pauseStartedMs s)
  (_pChBuffer s) (_chBufferPosn s).
Definition set_mqttLogTopic (v : string) (s : NetLog) : NetLog :=
  mkNetLog (_msgToLog s) (_firstChOnLine s) (_collectLineForLog s)
  (_curMsgLogLevel s) (_logToMQTT s) v (_logToHTTP s) (_httpIpAddr s)
  (_httpPort s) (_httpLogUrl s) (_logToSerial s) (_serialPort s)
  (_logToCommandSerial s) (_loggingThreshold s) (_pConfigBase s) (_wifiClient
  s) (_systemName s) (_isPaused s) (_pauseTimeMs s) (_pauseStartedMs s)
  (_pChBuffer s) (_chBufferPosn s).
Definition set_logToHTTP (v : bool) (s : NetLog) : NetLog :=
  mkNetLog (_msgToLog s) (_firstChOnLine s) (_collectLineForLog s)
  (_curMsgLogLevel s) (_logToMQTT s) (_mqttLogTopic s) v (_httpIpAddr s)
  (_httpPort s) (_httpLogUrl s) (_logToSerial s) (_serialPort s)
  (_logToCommandSerial s) (_loggingThreshold s) (_pConfigBase s) (_wifiClient
  s) (_systemName s) (_isPaused s) (_pauseTimeMs s) (_pauseStartedMs s)
  (_pChBuffer s) (_chBufferPosn s).
Definition set_httpIpAddr (v : string) (s : NetLog) : NetLog :=
  mkNetLog (_msgToLog s) (_firstChOnLine s) (_collectLineForLog s)
  (_curMsgLogLevel s) (_logToMQTT s) (_mqttLogTopic s) (_logToHTTP s) v
  (_httpPort s) (_httpLogUrl s) (_logToSerial s) (_serialPort s)
  (_logToCommandSerial s) (_loggingThreshold s) (_pConfigBase s) (_wifiClient
  s) (_systemName s) (_isPaused s) (_pauseTimeMs s) (_pauseStartedMs s)
  (_pChBuffer s) (_chBufferPosn s).
Definition set_httpPort (v : Z) (s : NetLog) : NetLog :=
  mkNetLog (_msgToLog s) (_firstChOnLine s) (_collectLineForLog s)
  (_curMsgLogLevel s) (_logToMQTT s) (_mqttLogTopic s) (_logToHTTP s)
  (_httpIpAddr s) v (_httpLogUrl s) (_logToSerial s) (_serialPort s)
  (_logToCommandSerial s) (_loggingThreshold s) (_pConfigBase s) (_wifiClient
  s) (_systemName s) (_isPaused s) (_pauseTimeMs s) (_pauseStartedMs s)
  (_pChBuffer s) (_chBufferPosn s).
Definition set_httpLogUrl (v : string) (s : NetLog) : NetLog :=
  mkNetLog (_msgToLog s) (_firstChOnLine s) (_collectLineForLog s)
  (_curMsgLogLevel s) (_logToMQTT s) (_mqttLogTopic s) (_logToHTTP s)
  (_httpIpAddr s) (_httpPort s) v (_logToSerial s) (_serialPort s)
  (_logToCommandSerial s) (_loggingThreshold s) (_pConfigBase s) (_wifiClient
  s) (_systemName s) (_isPaused s) (_pauseTimeMs s) (_pauseStartedMs s)
  (_pChBuffer s) (_chBufferPosn s).
Definition set_logToSerial (v : Z) (s : NetLog) : NetLog :=
  mkNetLog (_msgToLog s) (_firstChOnLine s) (_collectLineForLog s)
  (_curMsgLogLevel s) (_logToMQTT s) (_mqttLogTopic s) (_logToHTTP s)
  (_httpIpAddr s) (_httpPort s) (_httpLogUrl s) v (_serialPort s)
  (_logToCommandSerial s) (_loggingThreshold s) (_pConfigBase s) (_wifiClient
  s) (_systemName s) (_isPaused s) (_pauseTimeMs s) (_pauseStartedMs s)
  (_pChBuffer s) (_chBufferPosn s).
Definition set_serialPort (v : Z) (s : NetLog) : NetLog :=
  mkNetLog (_msgToLog s) (_firstChOnLine s) (_collectLineForLog s)
  (_curMsgLogLevel s) (_logToMQTT s) (_mqttLogTopic s) (_logToHTTP s)
  (_httpIpAddr s) (_httpPort s) (_httpLogUrl s) (_logToSerial s) v
  (_logToCommandSerial s) (_loggingThreshold s) (_pConfigBase s) (_wifiClient
  s) (_systemName s) (_isPaused s) (_pauseTimeMs s) (_pauseStartedMs s)
  (_pChBuffer s) (_chBufferPosn s).
Definition set_logToCommandSerial (v : Z) (s : NetLog) : NetLog :=
  mkNetLog (_msgToLog s) (_firstChOnLine s) (_collectLineForLog s)
  (_curMsgLogLevel s) (_logToMQTT s) (_mqttLogTopic s) (_logToHTTP s)
  (_httpIpAddr s) (_httpPort s) (_httpLogUrl s) (_logToSerial s) (_serialPort
  s) v (_loggingThreshold s) (_pConfigBase s) (_wifiClient s) (_systemName s)
  (_isPaused s) (_pauseTimeMs s) (_pauseStartedMs s) (_pChBuffer s)
  (_chBufferPosn s).
Definition set_loggingThreshold (v : Z) (s : NetLog) : NetLog :=
  mkNetLog (_msgToLog s) (_firstChOnLine s) (_collectLineForLog s)
  (_curMsgLogLevel s) (_logToMQTT s) (_mqttLogTopic s) (_logToHTTP s)
  (_httpIpAddr s) (_httpPort s) (_httpLogUrl s) (_logToSerial s) (_serialPort
  s) (_logToCommandSerial s) v (_pConfigBase s) (_wifiClient s) (_systemName
  s) (_isPaused s) (_pauseTimeMs s) (_pauseStartedMs s) (_pChBuffer s)
  (_chBufferPosn s).
Definition set_pConfigBase (v : option ConfigBase) (s : NetLog) : NetLog :=
  mkNetLog (_msgToLog s) (_firstChOnLine s) (_collectLineForLog s)
  (_curMsgLogLevel s) (_logToMQTT s) (_mqttLogTopic s) (_logToHTTP s)
  (_httpIpAddr s) (_httpPort s) (_httpLogUrl s) (_logToSerial s) (_serialPort
  s) (_logToCommandSerial s) (_loggingThreshold s) v (_wifiClient s)
  (_systemName s) (_isPaused s) (_pauseTimeMs s) (_pauseStartedMs s)
  (_pChBuffer s) (_chBufferPosn s).
Definition set_wifiClient (v : WiFiClient) (s : NetLog) : NetLog :=
  mkNetLog (_msgToLog s) (_firstChOnLine s) (_collectLineForLog s)
  (_curMsgLogLevel s) (_logToMQTT s) (_mqttLogTopic s) (_logToHTTP s)
  (_httpIpAddr s) (_httpPort s) (_httpLogUrl s) (_logToSerial s) (_serialPort
  s) (_logToCommandSerial s) (_loggingThreshold s) (_pConfigBase s) v
  (_systemName s) (_isPaused s) (_pauseTimeMs s) (_pauseStartedMs s)
  (_pChBuffer s) (_chBufferPosn s).
Definition set_systemName (v : string) (s : NetLog) : NetLog :=
  mkNetLog (_msgToLog s) (_firstChOnLine s) (_collectLineForLog s)
  (_curMsgLogLevel s) (_logToMQTT s) (_mqttLogTopic s) (_logToHTTP s)
  (_httpIpAddr s) (_httpPort s) (_httpLogUrl s) (_logToSerial s) (_serialPort
  s) (_logToCommandSerial s) (_loggingThreshold s) (_pConfigBase s)
  (_wifiClient s) v (_isPaused s) (_pauseTimeMs s) (_pauseStartedMs s)
  (_pChBuffer s) (_chBufferPosn s).
Definition set_isPaused (v : bool) (s : NetLog) : NetLog :=
  mkNetLog (_msgToLog s) (_firstChOnLine s) (_collectLineForLog s)
  (_curMsgLogLevel s) (_logToMQTT s) (_mqttLogTopic s) (_logToHTTP s)
  (_httpIpAddr s) (_httpPort s) (_httpLogUrl s) (_logToSerial s) (_serialPort
  s) (_logToCommandSerial s) (_loggingThreshold s) (_pConfigBase s)
  (_wifiClient s) (_systemName s) v (_pauseTimeMs s) (_pauseStartedMs s)
  (_pChBuffer s) (_chBufferPosn s).
Definition set_pauseStartedMs (v : Z) (s : NetLog) : NetLog :=
  mkNetLog (_msgToLog s) (_firstChOnLine s) (_collectLineForLog s)
  (_curMsgLogLevel s) (_logToMQTT s) (_mqttLogTopic s) (_logToHTTP s)
  (_httpIpAddr s) (_httpPort s) (_httpLogUrl s) (_logToSerial s) (_serialPort
  s) (_logToCommandSerial s) (_loggingThreshold s) (_pConfigBase s)
  (_wifiClient s) (_systemName s) (_isPaused s) (_pauseTimeMs s) v (_pChBuffer
  s) (_chBufferPosn s).
Definition set_pChBuffer (v : list ascii) (s : NetLog) : NetLog :=
  mkNetLog (_msgToLog s) (_firstChOnLine s) (_collectLineForLog s)
  (_curMsgLogLevel s) (_logToMQTT s) (_mqttLogTopic s) (_logToHTTP s)
  (_httpIpAddr s) (_httpPort s) (_httpLogUrl s) (_logToSerial s) (_serialPort
  s) (_logToCommandSerial s) (_loggingThreshold s) (_pConfigBase s)
  (_wifiClient s) (_systemName s) (_isPaused s) (_pauseTimeMs s)
  (_pauseStartedMs s) v (_chBufferPosn s).
Definition set_chBufferPosn (v : RingBufferPosn) (s : NetLog) : NetLog :=
  mkNetLog (_msgToLog s) (_firstChOnLine s) (_collectLineForLog s)
  (_curMsgLogLevel s) (_logToMQTT s) (_mqttLogTopic s) (_logToHTTP s)
  (_httpIpAddr s) (_httpPort s) (_httpLogUrl s) (_logToSerial s) (_serialPort
  s) (_logToCommandSerial s) (_loggingThreshold s) (_pConfigBase s)
  (_wifiClient s) (_systemName s) (_isPaused s) (_pauseTimeMs s)
  (_pauseStartedMs s) (_pChBuffer s) v.

(** The constructor. [net] is the environment's answer to the successive
    TCP connection attempts. *)
Definition NetLog_new (net : list bool) (pauseBufferMaxChars : nat)
    (pauseTimeMs : Z) : NetLog :=
  {| _msgToLog := EmptyString;
     _firstChOnLine := true;
     _collectLineForLog := false;
     _curMsgLogLevel := LOG_LEVEL_SILENT;
     _logToMQTT := false;
     _mqttLogTopic := EmptyString;
     _logToHTTP := false;
     _httpIpAddr := EmptyString;
     _httpPort := 5076;
     _httpLogUrl := EmptyString;
     _logToSerial := 1;
     _serialPort := 0;
     _logToCommandSerial := 0;
     _loggingThreshold := LOG_LEVEL_SILENT;
     _pConfigBase := None;
     _wifiClient := mkWiFiClient false 0 net;
     _systemName := EmptyString;
     _isPaused := false;
     _pauseTimeMs := pauseTimeMs;
     _pauseStartedMs := 0;
     _pChBuffer := replicate pauseBufferMaxChars "000"%char;
     _chBufferPosn := Ring.init pauseBufferMaxChars |}.

(** [bool] to [int] and [int] to [bool], as C++ converts them. *)
Definition int_of_bool (b : bool) : Z := if b then 1 else 0.
Definition bool_of_int (n : Z) : bool := negb (n =? 0)%Z.

(** The guard [_logToSerial && _serialPort == 0]. *)
Definition serialEnabled (s : NetLog) : bool :=
  bool_of_int (_logToSerial s) && (_serialPort s =? 0)%Z.

(** The guard [_logToMQTT || _logToHTTP || _logToCommandSerial]. *)
Definition anyNetSink (s : NetLog) : bool :=
  _logToMQTT s || _logToHTTP s || bool_of_int (_logToCommandSerial s).

(** ** Severity of a line, from its first character *)

Definition levelOfChar (ch : ascii) : Z :=
  if Ascii.eqb ch "F" || Ascii.eqb ch "001" then LOG_LEVEL_FATAL
  else if Ascii.eqb ch "E" || Ascii.eqb ch "002" then LOG_LEVEL_ERROR
  else if Ascii.eqb ch "W" || Ascii.eqb ch "003" then LOG_LEVEL_WARNING
  else if Ascii.eqb ch "N" || Ascii.eqb ch "004" then LOG_LEVEL_NOTICE
  else if Ascii.eqb ch "T" || Ascii.eqb ch "005" then LOG_LEVEL_TRACE
  else if Ascii.eqb ch "V" || Ascii.eqb ch "006" then LOG_LEVEL_VERBOSE
  else LOG_LEVEL_SILENT.

(** ** Payloads *)

Definition q : string := Str.of_char Str.dq.
Definition crlf : string := String Str.cr (String Str.nl EmptyString).

(** The record sent to the MQTT and command-serial sinks. *)
Definition logStr (level : Z) (msg : string) : string :=
  Str.replace Str.nl
    ("{" +:+ q +:+ "logLevel" +:+ q +:+ ":" +:+ Str.itoa level +:+ ","
       +:+ q +:+ "logMsg" +:+ q +:+ ":" +:+ q +:+ msg +:+ q +:+ "}").

(** The body and the request sent to the HTTP sink. *)
Definition httpBody (level : Z) (msg : string) : string :=
  "[{" +:+ q +:+ "logCat" +:+ q +:+ ":" +:+ Str.itoa level +:+ ","
    +:+ q +:+ "eventText" +:+ q +:+ ":" +:+ q +:+ msg +:+ q +:+ "}]" +:+ crlf.

Definition httpHeaders : string :=
  "Content-Type: application/json" +:+ crlf +:+ "Accept: application/json"
    +:+ crlf +:+ "Host: NetLogger" +:+ crlf +:+ "Connection: close"
    +:+ crlf +:+ crlf.

Definition httpRequest (s : NetLog) : string :=
  let body := httpBody (_curMsgLogLevel s) (_msgToLog s) in
  ("POST /" +:+ _httpLogUrl s +:+ "/" +:+ _systemName s +:+ "/ HTTP/1.1"
     +:+ crlf +:+ "Content-Length:"
     +:+ Str.itoa (Z.of_nat (String.length body)) +:+ crlf)
    +:+ httpHeaders +:+ body.

(** [formConfigStr]: the text kept in non-volatile storage. *)
Definition formConfigStr (s : NetLog) : string :=
  "{" +:+ q +:+ "LogLevel" +:+ q +:+ ":" +:+ q +:+ Str.itoa (_loggingThreshold s)
  +:+ q +:+ "," +:+ q +:+ "MQTTFlag" +:+ q +:+ ":" +:+ q
  +:+ Str.itoa (if _logToMQTT s then 1 else 0)
  +:+ q +:+ "," +:+ q +:+ "MQTTTopic" +:+ q +:+ ":" +:+ q +:+ _mqttLogTopic s
  +:+ q +:+ "," +:+ q +:+ "HTTPFlag" +:+ q +:+ ":" +:+ q
  +:+ Str.itoa (if _logToHTTP s then 1 else 0)
  +:+ q +:+ "," +:+ q +:+ "HTTPAddr" +:+ q +:+ ":" +:+ q +:+ _httpIpAddr s
  +:+ q +:+ "," +:+ q +:+ "HTTPPort" +:+ q +:+ ":" +:+ q +:+ Str.itoa (_httpPort s)
  +:+ q +:+ "," +:+ q +:+ "HTTPUrl" +:+ q +:+ ":" +:+ q +:+ _httpLogUrl s
  +:+ q +:+ "," +:+ q +:+ "SerialFlag" +:+ q +:+ ":" +:+ q +:+ Str.itoa (_logToSerial s)
  +:+ q +:+ "," +:+ q +:+ "SerialPort" +:+ q +:+ ":" +:+ q +:+ Str.itoa (_serialPort s)
  +:+ q +:+ "," +:+ q +:+ "CmdSerial" +:+ q +:+ ":" +:+ q
  +:+ Str.itoa (_logToCommandSerial s)
  +:+ q +:+ "}".

(** ** [write]: ingestion of one byte *)

(** "Check for first char on line": classification of the first byte and
    accumulation of the following ones, up to [LOG_LINE_MAXLEN]. *)
Definition write_collect (ch : ascii) (s : NetLog) : NetLog :=
  if _firstChOnLine s then
    let s1 := set_firstChOnLine false s in
    let msgLevel := levelOfChar ch in
    if (msgLevel <=? _loggingThreshold s1)%Z then
      set_msgToLog (Str.from_char ch)
        (set_curMsgLogLevel msgLevel (set_collectLineForLog true s1))
    else s1
  else if _collectLineForLog s then
    if (String.length (_msgToLog s) <? LOG_LINE_MAXLEN)%nat
    then set_msgToLog (_msgToLog s +:+ Str.of_char ch) s
    else s
  else s.

(** The MQTT / command-serial part of the dispatch. *)
Definition write_structured (s : NetLog) : list Event :=
  if _logToMQTT s || bool_of_int (_logToCommandSerial s) then
    let payload := logStr (_curMsgLogLevel s) (Str.c_str (_msgToLog s)) in
    ((if _logToMQTT s then [MqttReportSilent (Str.c_str payload)] else [])
       ++ (if bool_of_int (_logToCommandSerial s)
           then [CmdSerialLogMessage payload] else []))%list
  else [].

(** The HTTP part of the dispatch: drop any connection, connect, post. *)
Definition write_http (s : NetLog) : NetLog * list Event :=
  if _logToHTTP s then
    let w := _wifiClient s in
    let evStop := if wc_connected w then [WifiStop] else [] in
    let connOk := hd false (wc_connectOk w) in
    let w' := mkWiFiClient connOk
                (if wc_connected w then 0 else wc_available w)
                (tl (wc_connectOk w)) in
    let evConn := [WifiConnect (_httpIpAddr s) (_httpPort s) connOk] in
    let evSend :=
      if connOk then [WifiPrint (httpRequest s)]
      else if serialEnabled s
           then [SerialPrintf ("NetLog: Couldn't connect to " +:+ _httpIpAddr s
                                 +:+ ":" +:+ Str.itoa (_httpPort s)
                                 +:+ Str.of_char Str.nl)]
           else [] in
    (set_wifiClient w' s, (evStop ++ evConn ++ evSend)%list)
  else (s, []).

(** "Check for EOL": what happens once the byte just consumed is the
    line feed. *)
Definition write_eol (s : NetLog) : NetLog * list Event :=
  let s1 := set_firstChOnLine true s in
  let '(s2, ev) :=
    if _collectLineForLog s1 then
      let '(s3, ev3) :=
        if (0 <? String.length (_msgToLog s1))%nat then
          let s4 := set_msgToLog
                      (Str.replace Str.cr (Str.replace Str.nl (_msgToLog s1))) s1 in
          let '(s5, evHttp) := write_http s4 in
          (s5, (write_structured s4 ++ evHttp)%list)
        else (s1, []) in
      (set_msgToLog EmptyString s3, ev3)
    else (s1, []) in
  (set_collectLineForLog false s2, ev).

Definition write (ch : ascii) (s : NetLog) : NetLog * list Event :=
  if _isPaused s then
    (* the array is allocated by the constructor, so never NULL *)
    if Ring.canPut (_chBufferPosn s) then
      (set_chBufferPosn (Ring.hasPut (_chBufferPosn s))
         (set_pChBuffer
            (<[Ring.posToPut (_chBufferPosn s) := ch]> (_pChBuffer s)) s),
       [])
    else (s, [])
  else
    let evSerial := if serialEnabled s then [SerialWrite ch] else [] in
    if negb (anyNetSink s) then (s, evSerial)
    else
      let s1 := write_collect ch s in
      if Ascii.eqb ch Str.nl then
        let '(s2, ev) := write_eol s1 in (s2, (evSerial ++ ev)%list)
      else (s1, evSerial).

(** Feeding a sequence of bytes, one [write] each. *)
Fixpoint writes (bytes : list ascii) (s : NetLog) : NetLog * list Event :=
  match bytes with
  | [] => (s, [])
  | ch :: rest =>
      let '(s1, ev1) := write ch s in
      let '(s2, ev2) := writes rest s1 in
      (s2, (ev1 ++ ev2)%list)
  end.

(** ** Pause and resume *)

(** [pause()]; [now] is what [millis()] returns. *)
Definition pause (now : Z) (s : NetLog) : NetLog :=
  set_pauseStartedMs now (set_isPaused true s).

(** The loop of [handleLoggedDuringPause], with a bound on the number of
    iterations; [None] when the bound is reached with bytes left. *)
Fixpoint handleLoggedDuringPause_loop (fuel : nat) (s : NetLog)
    : option (NetLog * list Event) :=
  if Ring.canGet (_chBufferPosn s) then
    match fuel with
    | O => None
    | S fuel' =>
        let ch := default "000"%char
                    (_pChBuffer s !! Ring.posToGet (_chBufferPosn s)) in
        let '(s1, ev1) := write ch s in
        let s2 := set_chBufferPosn (Ring.hasGot (_chBufferPosn s1)) s1 in
        match handleLoggedDuringPause_loop fuel' s2 with
        | Some (s3, ev3) => Some (s3, (ev1 ++ ev3)%list)
        | None => None
        end
    end
  else Some (s, []).

(** "Empty the circular buffer". The bound is the number of buffered
    bytes, which is enough whenever the object is not paused
    ([handleLoggedDuringPause_fuel] below). *)
Definition handleLoggedDuringPause (s : NetLog) : option (NetLog * list Event) :=
  handleLoggedDuringPause_loop (count (_chBufferPosn s)) s.

Definition resume (s : NetLog) : option (NetLog * list Event) :=
  if _isPaused s then handleLoggedDuringPause (set_isPaused false s)
  else Some (s, []).

(** Modelled from the spec: [Utils::isTimeout] is not part of the sources
    at hand; the spec has the tick compare the time elapsed since the
    pause started against the pause duration, and resume when it is
    exceeded. Time stamps are [uint32_t], so the difference wraps. *)
Definition elapsedMs (now start : Z) : Z := (now - start) mod 2 ^ 32.
Definition isTimeout (now start duration : Z) : bool :=
  (duration <? elapsedMs now start)%Z.

(** ** [service]: the periodic tick *)

(** "Handle WiFi connected - pump any data": received bytes are read, at
    most [MAX_RX_BUFFER_SIZE] per tick, and discarded. *)
Definition service_pump (s : NetLog) : NetLog * list Event :=
  let w := _wifiClient s in
  if wc_connected w then
    let numAvail := wc_available w in
    let numToRead :=
      if (MAX_RX_BUFFER_SIZE <? numAvail)%nat then MAX_RX_BUFFER_SIZE else numAvail in
    if (0 <? numToRead)%nat then
      (set_wifiClient
         (mkWiFiClient (wc_connected w) (numAvail - numToRead)%nat (wc_connectOk w)) s,
       [WifiRead numToRead;
        LogVerbose ("OTAUpdate: wifiClient reading "
                      +:+ Str.itoa (Z.of_nat numToRead) +:+ " available "
                      +:+ Str.itoa (Z.of_nat numAvail) +:+ " read "
                      +:+ Str.itoa (Z.of_nat numToRead) +:+ Str.of_char Str.nl)])
    else (s, [])
  else (s, []).

(** [service(xonXoffChar)]; [nowPause] is the clock as read by [pause()]
    when the control byte is XOFF, [now] the clock as read by the timeout
    check. *)
Definition service (xonXoffChar : ascii) (nowPause now : Z) (s : NetLog)
    : option (NetLog * list Event) :=
  let '(s1, ev1) := service_pump s in
  match
    (if Ascii.eqb xonXoffChar ASCII_XOFF then Some (pause nowPause s1, [])
     else if Ascii.eqb xonXoffChar ASCII_XON then resume s1
     else Some (s1, []))
  with
  | None => None
  | Some (s2, ev2) =>
      if _isPaused s2 && isTimeout now (_pauseStartedMs s2) (_pauseTimeMs s2) then
        match handleLoggedDuringPause (set_isPaused false s2) with
        | Some (s3, ev3) => Some (s3, (ev1 ++ ev2 ++ ev3)%list)
        | None => None
        end
      else Some (s2, (ev1 ++ ev2)%list)
  end.

(** Ticks without a control byte ([service()] with its default argument)
    at the given clock readings. *)
Fixpoint service_ticks (times : list Z) (s : NetLog)
    : option (NetLog * list Event) :=
  match times with
  | [] => Some (s, [])
  | now :: rest =>
      match service "000" now now s with
      | None => None
      | Some (s1, ev1) =>
          match service_ticks rest s1 with
          | Some (s2, ev2) => Some (s2, (ev1 ++ ev2)%list)
          | None => None
          end
      end
  end.

(** ** Configuration setters *)

(** "Persist if changed": the write-back, done only when a configuration
    object has been attached by [setup]. *)
Definition persist (s : NetLog) : list Event :=
  match _pConfigBase s with
  | Some _ => [CfgSetConfigData (formConfigStr s); CfgWriteConfig]
  | None => []
  end.

Definition serialNote (s : NetLog) (text : string) : list Event :=
  if serialEnabled s then [SerialPrintf text] else [].

Definition setLogLevel (logLevelStr : string) (s : NetLog) : NetLog * list Event :=
  let logLevel := levelOfChar (Str.toupper (Str.first_char logLevelStr)) in
  let logLevelChanged := negb (_loggingThreshold s =? logLevel)%Z in
  let s1 := set_loggingThreshold logLevel s in
  if logLevelChanged then
    (s1, (persist s1
            ++ serialNote s1 ("NetLog: LogLevel set to "
                                +:+ Str.itoa (_loggingThreshold s1)
                                +:+ Str.of_char Str.nl))%list)
  else
    (s1, serialNote s1 ("NetLog: LogLevel unchanged at "
                          +:+ Str.itoa (_loggingThreshold s1)
                          +:+ Str.of_char Str.nl)).

Definition setMQTT (mqttFlag : bool) (mqttLogTopic : string) (s : NetLog)
    : NetLog * list Event :=
  let dataChanged :=
    negb (Bool.eqb (_logToMQTT s) mqttFlag)
    || negb (String.eqb (_mqttLogTopic s) mqttLogTopic) in
  let s1 := set_mqttLogTopic mqttLogTopic (set_logToMQTT mqttFlag s) in
  if dataChanged then (s1, persist s1) else (s1, []).

Definition setSerial (onOffFlag : bool) (serialPortStr : string) (s : NetLog)
    : NetLog * list Event :=
  let dataChanged :=
    negb (_logToSerial s =? int_of_bool onOffFlag)%Z
    || negb (String.eqb (Str.itoa (_serialPort s)) serialPortStr) in
  let s1 := set_serialPort (Str.atoi serialPortStr)
              (set_logToSerial (int_of_bool onOffFlag) s) in
  if dataChanged then (s1, persist s1) else (s1, []).

Definition setCmdSerial (onOffFlag : bool) (s : NetLog) : NetLog * list Event :=
  let dataChanged := negb (_logToCommandSerial s =? int_of_bool onOffFlag)%Z in
  let s1 := set_logToCommandSerial (int_of_bool onOffFlag) s in
  if dataChanged then (s1, persist s1) else (s1, []).

(** The values [setHTTP] takes as effective: an empty address, port or
    URL stands for the current one. *)
Definition ipAddrValidated (ipAddr : string) (s : NetLog) : string :=
  if (String.length ipAddr =? 0)%nat then _httpIpAddr s else ipAddr.
Definition portValidated (portStr : string) (s : NetLog) : Z :=
  if (String.length portStr =? 0)%nat then _httpPort s else Str.atoi portStr.
Definition httpLogUrlValidated (httpLogUrl : string) (s : NetLog) : string :=
  if (String.length httpLogUrl =? 0)%nat then _httpLogUrl s else httpLogUrl.

Definition setHTTP (httpFlag : bool) (ipAddr portStr httpLogUrl : string)
    (s : NetLog) : NetLog * list Event :=
  let ip := ipAddrValidated ipAddr s in
  let port := portValidated portStr s in
  let url := httpLogUrlValidated httpLogUrl s in
  let dataChanged :=
    negb (Bool.eqb (_logToHTTP s) httpFlag)
    || negb (String.eqb (_httpLogUrl s) url)
    || negb (String.eqb (_httpIpAddr s) ip)
    || negb (_httpPort s =? port)%Z in
  let s1 := set_httpLogUrl url
              (set_httpPort port (set_httpIpAddr ip (set_logToHTTP httpFlag s))) in
  if dataChanged then (s1, persist s1)
  else (s1, serialNote s1 ("NetLog: Config data unchanged" +:+ Str.of_char Str.nl)).

(** [setup]: attach the configuration object and read every field back. *)
Definition setup (pConfig : option ConfigBase) (systemName : string)
    (s : NetLog) : NetLog * list Event :=
  let s0 := set_pConfigBase pConfig (set_systemName systemName s) in
  match pConfig with
  | None => (s0, [])
  | Some cfg =>
      let ev1 := serialNote s0 ("NetLog: Setup from " +:+ getConfigData cfg
                                  +:+ Str.of_char Str.nl) in
      let s1 := set_loggingThreshold (getLong cfg "LogLevel" LOG_LEVEL_SILENT) s0 in
      let s2 := set_logToMQTT (bool_of_int (getLong cfg "MQTTFlag" 0)) s1 in
      let s3 := set_mqttLogTopic (getString cfg "MQTTTopic" "") s2 in
      let s4 := set_logToHTTP (bool_of_int (getLong cfg "HTTPFlag" 0)) s3 in
      let s5 := set_httpIpAddr (getString cfg "HTTPAddr" "") s4 in
      let s6 := set_httpPort (getLong cfg "HTTPPort" 5076) s5 in
      let s7 := set_httpLogUrl (getString cfg "HTTPUrl" "") s6 in
      let s8 := set_logToSerial
                  (int_of_bool (bool_of_int (getLong cfg "SerialFlag" 1))) s7 in
      let s9 := set_serialPort (getLong cfg "SerialPort" 0) s8 in
      let s10 := set_logToCommandSerial
                   (int_of_bool (bool_of_int (getLong cfg "CmdSerial" 0))) s9 in
      let ev2 :=
        serialNote s10
          ("NetLog: logLevel " +:+ Str.itoa (_loggingThreshold s10)
             +:+ ", mqttFlag " +:+ Str.itoa (int_of_bool (_logToMQTT s10))
             +:+ " topic " +:+ _mqttLogTopic s10
             +:+ ", httpFlag " +:+ Str.itoa (int_of_bool (_logToHTTP s10))
             +:+ ", ip " +:+ _httpIpAddr s10
             +:+ ", port " +:+ Str.itoa (_httpPort s10)
             +:+ ", url " +:+ _httpLogUrl s10
             +:+ ", serialFlag " +:+ Str.itoa (_logToSerial s10)
             +:+ ", serialPort " +:+ Str.itoa (_serialPort s10)
             +:+ ", cmdSerial " +:+ Str.itoa (_logToCommandSerial s10)
             +:+ Str.of_char Str.nl) in
      (s10, (ev1 ++ ev2)%list)
  end.

(** ** Observations on traces *)

Definition isMqtt (e : Event) : bool :=
  match e with MqttReportSilent _ => true | _ => false end.
Definition isCmdSerial (e : Event) : bool :=
  match e with CmdSerialLogMessage _ => true | _ => false end.
Definition isStructured (e : Event) : bool := isMqtt e || isCmdSerial e.
Definition isPersist (e : Event) : bool :=
  match e with CfgSetConfigData _ | CfgWriteConfig => true | _ => false end.
Definition isOutput (e : Event) : bool :=
  match e with OutputWrite _ => true | _ => false end.

Definition mqttEvents (tr : list Event) : list Event := List.filter isMqtt tr.
Definition cmdSerialEvents (tr : list Event) : list Event := List.filter isCmdSerial tr.
Definition structuredEvents (tr : list Event) : list Event := List.filter isStructured tr.
Definition persistEvents (tr : list Event) : list Event := List.filter isPersist tr.
Definition outputEvents (tr : list Event) : list Event := List.filter isOutput tr.

Definition bytes (s : string) : list ascii := list_ascii_of_string s.

(** ** Notions used to state the properties *)

(** The copy of the accepted bytes that goes to [Serial]. *)
Definition serialEcho (s : NetLog) (l : list ascii) : list Event :=
  if serialEnabled s then map SerialWrite l else [].

Arguments LOG_LINE_MAXLEN : simpl never.

(** What the line buffer holds after more bytes are offered to it. *)
Fixpoint accumulate (txt : string) (l : list ascii) : string :=
  match l with
  | [] => txt
  | c :: l' =>
      accumulate (if String.length txt <? LOG_LINE_MAXLEN
                  then txt +:+ Str.of_char c else txt) l'
  end.

(** What the line buffer holds once a whole line went in: the first
    byte as [String(char)], then the others while there is room. *)
Definition lineBuffer (line : list ascii) : string :=
  match line with
  | [] => EmptyString
  | c :: rest => accumulate (Str.from_char c) rest
  end.

(** The text of a line as it is handed to the sinks: the line buffer
    with line feeds and carriage returns replaced away. *)
Definition lineText (line : list ascii) : string :=
  Str.replace Str.cr (Str.replace Str.nl (lineBuffer line)).

(** The state right after the first byte [c] of a collected line. *)
Definition collectingState (c : ascii) (s : NetLog) : NetLog :=
  set_msgToLog (Str.from_char c)
    (set_curMsgLogLevel (levelOfChar c)
       (set_collectLineForLog true (set_firstChOnLine false s))).

(** The state in which a collected line is handed to the sinks. *)
Definition dispatchState (level : Z) (text : string) (s : NetLog) : NetLog :=
  set_msgToLog text (set_curMsgLogLevel level (set_collectLineForLog true s)).


(** The [k]-th buffered byte lives in this cell of the array. *)
Definition slot (cap rc k : nat) : nat :=
  if rc + k <? cap then rc + k else rc + k - cap.

(** Consistency of the pause buffer: the array has [capacity] cells, the
    count is within the capacity, the read cursor is a cell of the array
    and the write cursor is [count] cells further, cyclically. *)
Definition ring_wf (s : NetLog) : Prop :=
  let r := _chBufferPosn s in
  length (_pChBuffer s) = capacity r
  /\ count r <= capacity r
  /\ readCursor r <= capacity r - 1
  /\ writeCursor r = slot (capacity r) (readCursor r) (count r).

(** The bytes held in the pause buffer, oldest first. *)
Definition buffered (s : NetLog) : list ascii :=
  let r := _chBufferPosn s in
  map (fun k => default "000"%char
                  (_pChBuffer s !! slot (capacity r) (readCursor r) k))
      (seq 0 (count r)).

(** The position tracker once everything has been taken out. *)
Definition drained (r : RingBufferPosn) : RingBufferPosn :=
  mkRingBufferPosn (capacity r) (writeCursor r) (writeCursor r) 0.

(** The fields that only the pause machinery uses. *)
Definition with_pause_data (started : Z) (buf : list ascii)
    (r : RingBufferPosn) (s : NetLog) : NetLog :=
  set_chBufferPosn r (set_pChBuffer buf (set_pauseStartedMs started s)).

(** [pause()], a burst of bytes while paused, then [resume()]. *)
Definition pausedBurst (now : Z) (burst : list ascii) (s : NetLog)
    : option (NetLog * list Event) :=
  let '(s1, ev1) := writes burst (pause now s) in
  match resume s1 with
  | Some (s2, ev2) => Some (s2, ev1 ++ ev2)
  | None => None
  end.

(** One write-back of the configuration [s']. *)
Definition writeBack (s' : NetLog) : list Event :=
  [CfgSetConfigData (formConfigStr s'); CfgWriteConfig].

(** A setter that took [s] to [fst r] with the calls [snd r] persists
    exactly when it changed the configuration: nothing if the state is
    the same, one write-back of the new state if it differs and a
    configuration object is attached. *)
Definition persistsIffChanged (s : NetLog) (r : NetLog * list Event) : Prop :=
  (fst r = s -> persistEvents (snd r) = [])
  /\ (fst r <> s ->
      persistEvents (snd r)
      = match _pConfigBase s with
        | Some _ => writeBack (fst r)
        | None => []
        end).

(** A freshly constructed device switched to MQTT logging at NOTICE,
    with a pause buffer of 16 bytes: the state used in the examples. *)
Definition mqttAtNotice : NetLog :=
  fst (setLogLevel "N" (fst (setMQTT true "log" (NetLog_new [] 16 15000)))).

(** The state of the line assembler is coherent: at a line start nothing
    is being collected, the line buffer is empty unless a line is being
    collected, it never holds more than [LOG_LINE_MAXLEN] characters, and
    the severity on record is one of the seven levels. *)
Definition line_inv (s : NetLog) : Prop :=
  (_firstChOnLine s = true -> _collectLineForLog s = false)
  /\ (_collectLineForLog s = false -> _msgToLog s = EmptyString)
  /\ String.length (_msgToLog s) <= LOG_LINE_MAXLEN
  /\ (LOG_LEVEL_SILENT <= _curMsgLogLevel s <= LOG_LEVEL_VERBOSE)%Z.

(** The pause buffer is consistent, and empty whenever the object is not
    paused. *)
Definition buffer_idle (s : NetLog) : Prop :=
  ring_wf s /\ (_isPaused s = false -> count (_chBufferPosn s) = 0).

(** The two [int] flags hold 0 or 1. *)
Definition flags_01 (s : NetLog) : Prop :=
  (_logToSerial s = 0 \/ _logToSerial s = 1)%Z
  /\ (_logToCommandSerial s = 0 \/ _logToCommandSerial s = 1)%Z.

Definition isSerialWrite (e : Event) : bool :=
  match e with SerialWrite _ => true | _ => false end.

(** The bytes of several lines, each followed by its line feed. *)
Definition stream (lines : list (list ascii)) : list ascii :=
  flat_map (fun body => body ++ [Str.nl]) lines.

(** The record a line yields for the MQTT sink, if any. *)
Definition mqttRecord (s : NetLog) (body : list ascii) : list Event :=
  let line := body ++ [Str.nl] in
  if (levelOfChar (hd Str.nl line) <=? _loggingThreshold s)%Z && _logToMQTT s
  then [MqttReportSilent (logStr (levelOfChar (hd Str.nl line)) (lineText line))]
  else [].

(** A configuration store that answers every key with the default. *)
Definition emptyStore : ConfigBase :=
  mkConfigBase EmptyString (fun _ d => d) (fun _ d => d).

(** A store that answers each of the ten keys of the canonical record
    with the value [s] holds for it, and any other key with the
    default. *)
Definition storeOf (s : NetLog) : ConfigBase :=
  mkConfigBase (formConfigStr s)
    (fun key d =>
       if String.eqb key "LogLevel" then _loggingThreshold s
       else if String.eqb key "MQTTFlag" then int_of_bool (_logToMQTT s)
       else if String.eqb key "HTTPFlag" then int_of_bool (_logToHTTP s)
       else if String.eqb key "HTTPPort" then _httpPort s
       else if String.eqb key "SerialFlag" then _logToSerial s
       else if String.eqb key "SerialPort" then _serialPort s
       else if String.eqb key "CmdSerial" then _logToCommandSerial s
       else d)
    (fun key d =>
       if String.eqb key "MQTTTopic" then _mqttLogTopic s
       else if String.eqb key "HTTPAddr" then _httpIpAddr s
       else if String.eqb key "HTTPUrl" then _httpLogUrl s
       else d).

(** Two states have the same configuration. *)
Definition same_config (s s' : NetLog) : Prop :=
  _loggingThreshold s' = _loggingThreshold s
  /\ _logToMQTT s' = _logToMQTT s /\ _mqttLogTopic s' = _mqttLogTopic s
  /\ _logToHTTP s' = _logToHTTP s /\ _httpIpAddr s' = _httpIpAddr s
  /\ _httpPort s' = _httpPort s /\ _httpLogUrl s' = _httpLogUrl s
  /\ _logToSerial s' = _logToSerial s /\ _serialPort s' = _serialPort s
  /\ _logToCommandSerial s' = _logToCommandSerial s
  /\ _pConfigBase s' = _pConfigBase s /\ _systemName s' = _systemName s
  /\ _pauseTimeMs s' = _pauseTimeMs s.

Definition isWifiRead (e : Event) : bool :=
  match e with WifiRead _ => true | _ => false end.

(** * Verification *)

(** Normalisation of field reads and field updates. *)
Ltac st_simpl :=
  cbn [
       _msgToLog _firstChOnLine _collectLineForLog _curMsgLogLevel
       _logToMQTT _mqttLogTopic _logToHTTP _httpIpAddr _httpPort
       _httpLogUrl _logToSerial _serialPort _logToCommandSerial
       _loggingThreshold _pConfigBase _wifiClient _systemName _isPaused
       _pauseTimeMs _pauseStartedMs _pChBuffer _chBufferPosn
       set_msgToLog set_firstChOnLine set_collectLineForLog
       set_curMsgLogLevel set_logToMQTT set_mqttLogTopic set_logToHTTP
       set_httpIpAddr set_httpPort set_httpLogUrl set_logToSerial
       set_serialPort set_logToCommandSerial set_loggingThreshold
       set_pConfigBase set_wifiClient set_systemName set_isPaused
       set_pauseStartedMs set_pChBuffer set_chBufferPosn fst snd].
Ltac st_simpl_in H :=
  cbn [
       _msgToLog _firstChOnLine _collectLineForLog _curMsgLogLevel
       _logToMQTT _mqttLogTopic _logToHTTP _httpIpAddr _httpPort
       _httpLogUrl _logToSerial _serialPort _logToCommandSerial
       _loggingThreshold _pConfigBase _wifiClient _systemName _isPaused
       _pauseTimeMs _pauseStartedMs _pChBuffer _chBufferPosn
       set_msgToLog set_firstChOnLine set_collectLineForLog
       set_curMsgLogLevel set_logToMQTT set_mqttLogTopic set_logToHTTP
       set_httpIpAddr set_httpPort set_httpLogUrl set_logToSerial
       set_serialPort set_logToCommandSerial set_loggingThreshold
       set_pConfigBase set_wifiClient set_systemName set_isPaused
       set_pauseStartedMs set_pChBuffer set_chBufferPosn fst snd] in H.

(** ** Small facts on characters and strings *)

Lemma ascii_eqb_eq (a b : ascii) : Ascii.eqb a b = true <-> a = b.
Proof. apply Ascii.eqb_eq. Qed.

Lemma ascii_eqb_neq (a b : ascii) : Ascii.eqb a b = false <-> a <> b.
Proof. apply Ascii.eqb_neq. Qed.

Lemma string_app_cons (c : ascii) (a b : string) :
  String c a +:+ b = String c (a +:+ b).
Proof. reflexivity. Qed.

Lemma string_app_nil_l (a : string) : EmptyString +:+ a = a.
Proof. reflexivity. Qed.

Lemma string_length_app (a b : string) :
  String.length (a +:+ b) = String.length a + String.length b.
Proof.
  induction a as [|c a IH]; [reflexivity|].
  rewrite string_app_cons. cbn. now rewrite IH.
Qed.

Lemma string_app_nil_r (a : string) : a +:+ EmptyString = a.
Proof.
  induction a as [|c a IH]; [reflexivity|].
  rewrite string_app_cons. cbn. now rewrite IH.
Qed.

Lemma string_app_assoc (a b c : string) : (a +:+ b) +:+ c = a +:+ (b +:+ c).
Proof.
  induction a as [|x a IH]; [reflexivity|].
  rewrite !string_app_cons. now rewrite IH.
Qed.

Lemma string_of_list_app (l1 l2 : list ascii) :
  string_of_list_ascii (l1 ++ l2)
  = string_of_list_ascii l1 +:+ string_of_list_ascii l2.
Proof.
  induction l1 as [|c l1 IH]; [reflexivity|].
  cbn. rewrite string_app_cons. now rewrite IH.
Qed.

Lemma string_of_list_length (l : list ascii) :
  String.length (string_of_list_ascii l) = length l.
Proof. induction l as [|c l IH]; cbn; [reflexivity | now rewrite IH]. Qed.

Lemma remove_app (c : ascii) (a b : string) :
  Str.remove c (a +:+ b) = Str.remove c a +:+ Str.remove c b.
Proof.
  induction a as [|x a IH]; [reflexivity|].
  rewrite string_app_cons. cbn.
  destruct (Ascii.eqb x c); [|rewrite string_app_cons]; now rewrite IH.
Qed.

Lemma remove_absent (c : ascii) (l : list ascii) :
  c ∉ l -> Str.remove c (string_of_list_ascii l) = string_of_list_ascii l.
Proof.
  induction l as [|x l IH]; cbn; intros Hn; [reflexivity|].
  apply not_elem_of_cons in Hn as [Hx Hl].
  destruct (Ascii.eqb x c) eqn:E.
  - apply ascii_eqb_eq in E. congruence.
  - now rewrite IH.
Qed.

Lemma chars_remove c s :
  list_ascii_of_string (Str.remove c s)
  = List.filter (fun a => negb (Ascii.eqb a c)) (list_ascii_of_string s).
Proof.
  induction s as [|a s IH]; [reflexivity|].
  cbn [Str.remove list_ascii_of_string List.filter].
  destruct (Ascii.eqb a c); cbn [negb list_ascii_of_string]; now rewrite IH.
Qed.

Lemma remove_gone c s : c ∉ list_ascii_of_string (Str.remove c s).
Proof.
  rewrite chars_remove. intros H. apply list_elem_of_In, List.filter_In in H.
  destruct H as [_ H]. now rewrite Ascii.eqb_refl in H.
Qed.

Lemma remove_keeps_absent c d s :
  d ∉ list_ascii_of_string s -> d ∉ list_ascii_of_string (Str.remove c s).
Proof.
  rewrite chars_remove. intros Hd H. apply Hd.
  apply list_elem_of_In, List.filter_In in H. apply list_elem_of_In. tauto.
Qed.

Lemma remove_length c s : String.length (Str.remove c s) <= String.length s.
Proof.
  induction s as [|a s IH]; [reflexivity|].
  cbn [Str.remove]. destruct (Ascii.eqb a c); cbn [String.length]; lia.
Qed.

Lemma c_str_nul_free s : "000"%char ∉ list_ascii_of_string (Str.c_str s).
Proof.
  induction s as [|a s IH]; cbn [Str.c_str list_ascii_of_string].
  - apply not_elem_of_nil.
  - destruct (Ascii.eqb a "000") eqn:E; cbn [list_ascii_of_string].
    + apply not_elem_of_nil.
    + apply not_elem_of_cons. split; [|exact IH].
      intros Ha. subst a. now rewrite Ascii.eqb_refl in E.
Qed.

Lemma c_str_absent s :
  "000"%char ∉ list_ascii_of_string s -> Str.c_str s = s.
Proof.
  induction s as [|a s IH]; cbn [Str.c_str list_ascii_of_string]; intros H;
    [reflexivity|].
  apply not_elem_of_cons in H as [Ha Hs].
  destruct (Ascii.eqb a "000") eqn:E.
  - apply ascii_eqb_eq in E. congruence.
  - now rewrite IH.
Qed.

Lemma c_str_length s : String.length (Str.c_str s) <= String.length s.
Proof.
  induction s as [|a s IH]; cbn [Str.c_str String.length]; [lia|].
  destruct (Ascii.eqb a "000"); cbn [String.length]; lia.
Qed.

Lemma c_str_keeps_absent d s :
  d ∉ list_ascii_of_string s -> d ∉ list_ascii_of_string (Str.c_str s).
Proof.
  induction s as [|a s IH]; cbn [Str.c_str list_ascii_of_string]; intros H;
    [exact H|].
  apply not_elem_of_cons in H as [Ha Hs].
  destruct (Ascii.eqb a "000"); cbn [list_ascii_of_string].
  - apply not_elem_of_nil.
  - apply not_elem_of_cons. auto.
Qed.

(** What [replace] leaves is a C string already. *)
Lemma c_str_replace c s : Str.c_str (Str.replace c s) = Str.replace c s.
Proof.
  apply c_str_absent. unfold Str.replace.
  apply remove_keeps_absent, c_str_nul_free.
Qed.

Lemma replace_gone c s : c ∉ list_ascii_of_string (Str.replace c s).
Proof. apply remove_gone. Qed.

Lemma replace_keeps_absent c d s :
  d ∉ list_ascii_of_string s -> d ∉ list_ascii_of_string (Str.replace c s).
Proof. intros H. now apply remove_keeps_absent, c_str_keeps_absent. Qed.

Lemma replace_length c s : String.length (Str.replace c s) <= String.length s.
Proof.
  unfold Str.replace. etransitivity; [apply remove_length | apply c_str_length].
Qed.

Lemma chars_of_list l : list_ascii_of_string (string_of_list_ascii l) = l.
Proof. apply list_ascii_of_string_of_list_ascii. Qed.

(** Replacing away a character that does not occur, in a text without
    NUL, changes nothing. *)
Lemma replace_absent (c : ascii) (l : list ascii) :
  "000"%char ∉ l -> c ∉ l ->
  Str.replace c (string_of_list_ascii l) = string_of_list_ascii l.
Proof.
  intros H0 Hc. unfold Str.replace.
  rewrite c_str_absent by (now rewrite chars_of_list).
  now apply remove_absent.
Qed.

Lemma from_char_not_nul c : c <> "000"%char -> Str.from_char c = Str.of_char c.
Proof.
  intros H. unfold Str.from_char, Str.of_char. cbn [Str.c_str].
  destruct (Ascii.eqb c "000") eqn:E; [|reflexivity].
  apply ascii_eqb_eq in E. congruence.
Qed.

Lemma from_char_length c : String.length (Str.from_char c) <= 1.
Proof. apply (c_str_length (Str.of_char c)). Qed.

Lemma c_str_logStr level msg : Str.c_str (logStr level msg) = logStr level msg.
Proof. apply c_str_replace. Qed.

(** ** Severity mapping *)

Lemma levelOfChar_range (ch : ascii) :
  (LOG_LEVEL_SILENT <= levelOfChar ch <= LOG_LEVEL_VERBOSE)%Z.
Proof.
  unfold levelOfChar, LOG_LEVEL_SILENT, LOG_LEVEL_FATAL, LOG_LEVEL_ERROR,
    LOG_LEVEL_WARNING, LOG_LEVEL_NOTICE, LOG_LEVEL_TRACE, LOG_LEVEL_VERBOSE.
  repeat match goal with |- context [if ?b then _ else _] => destruct b end; lia.
Qed.

(** ** One byte, not paused *)

Lemma serialEcho_app s l1 l2 :
  serialEcho s (l1 ++ l2) = serialEcho s l1 ++ serialEcho s l2.
Proof. unfold serialEcho. destruct (serialEnabled s); [apply map_app | reflexivity]. Qed.

Lemma write_unpaused_no_sink ch s :
  _isPaused s = false -> anyNetSink s = false ->
  write ch s = (s, serialEcho s [ch]).
Proof.
  intros Hp Hn. unfold write, serialEcho. rewrite Hp, Hn. simpl. reflexivity.
Qed.

(** ** Line assembly *)

Lemma accumulate_app txt l1 l2 :
  accumulate txt (l1 ++ l2) = accumulate (accumulate txt l1) l2.
Proof. revert txt. induction l1 as [|c l1 IH]; intros txt; cbn; [reflexivity | apply IH]. Qed.

Lemma accumulate_take txt l :
  accumulate txt l
  = txt +:+ string_of_list_ascii (take (LOG_LINE_MAXLEN - String.length txt) l).
Proof.
  revert txt. induction l as [|c l IH]; intros txt.
  - cbn. rewrite take_nil. cbn. now rewrite string_app_nil_r.
  - cbn [accumulate]. rewrite IH.
    destruct (Nat.ltb_spec (String.length txt) LOG_LINE_MAXLEN) as [Hlt|Hge].
    + rewrite string_length_app. cbn [String.length Str.of_char].
      replace (LOG_LINE_MAXLEN - String.length txt)
        with (S (LOG_LINE_MAXLEN - (String.length txt + 1))) by lia.
      cbn [take string_of_list_ascii].
      rewrite string_app_assoc. reflexivity.
    + replace (LOG_LINE_MAXLEN - String.length txt) with 0 by lia.
      rewrite !take_0. reflexivity.
Qed.

Lemma accumulate_first c l :
  accumulate (Str.of_char c) l
  = string_of_list_ascii (take LOG_LINE_MAXLEN (c :: l)).
Proof.
  rewrite accumulate_take. cbn [String.length Str.of_char].
  change LOG_LINE_MAXLEN with (S (LOG_LINE_MAXLEN - 1)) at 2.
  reflexivity.
Qed.

Lemma write_unpaused ch s :
  _isPaused s = false -> anyNetSink s = true ->
  write ch s =
    if Ascii.eqb ch Str.nl
    then (fst (write_eol (write_collect ch s)),
          serialEcho s [ch] ++ snd (write_eol (write_collect ch s)))
    else (write_collect ch s, serialEcho s [ch]).
Proof.
  intros Hp Hn. unfold write. rewrite Hp, Hn. cbn [negb].
  destruct (Ascii.eqb ch Str.nl); [|reflexivity].
  destruct (write_eol (write_collect ch s)). reflexivity.
Qed.

Lemma write_collect_frame ch s :
  _isPaused (write_collect ch s) = _isPaused s
  /\ anyNetSink (write_collect ch s) = anyNetSink s
  /\ serialEnabled (write_collect ch s) = serialEnabled s
  /\ _loggingThreshold (write_collect ch s) = _loggingThreshold s.
Proof.
  unfold write_collect.
  repeat match goal with |- context [if ?b then _ else _] => destruct b end;
    repeat split; reflexivity.
Qed.

Lemma writes_app l1 l2 s :
  writes (l1 ++ l2) s
  = (fst (writes l2 (fst (writes l1 s))),
     snd (writes l1 s) ++ snd (writes l2 (fst (writes l1 s)))).
Proof.
  revert s. induction l1 as [|c l1 IH]; intros s.
  - cbn. now destruct (writes l2 s).
  - cbn [writes app]. destruct (write c s) as [s1 e1].
    rewrite IH. destruct (writes l1 s1) as [s2 e2]. cbn [fst snd].
    destruct (writes l2 s2) as [s3 e3]. cbn [fst snd].
    now rewrite app_assoc.
Qed.

(** Bytes of a collected line, before its line feed. *)
Lemma writes_collecting body :
  forall s,
    _isPaused s = false -> anyNetSink s = true ->
    _firstChOnLine s = false -> _collectLineForLog s = true ->
    Str.nl ∉ body ->
    writes body s
    = (set_msgToLog (accumulate (_msgToLog s) body) s, serialEcho s body).
Proof.
  induction body as [|c body IH]; intros s Hp Hn Hf Hc Hnl.
  - unfold serialEcho. destruct (serialEnabled s); destruct s; reflexivity.
  - apply not_elem_of_cons in Hnl as [Hc0 Hnl].
    cbn [writes]. rewrite write_unpaused by assumption.
    apply not_eq_sym, ascii_eqb_neq in Hc0. rewrite Hc0.
    unfold write_collect. rewrite Hf, Hc.
    cbn [accumulate].
    destruct (String.length (_msgToLog s) <? LOG_LINE_MAXLEN).
    + rewrite IH by assumption. unfold serialEcho.
      change (serialEnabled (set_msgToLog _ s)) with (serialEnabled s).
      destruct (serialEnabled s); reflexivity.
    + rewrite IH by assumption. unfold serialEcho.
      destruct (serialEnabled s); reflexivity.
Qed.

(** Bytes of a line that is not collected, before its line feed. *)
Lemma writes_discarding body :
  forall s,
    _isPaused s = false -> anyNetSink s = true ->
    _firstChOnLine s = false -> _collectLineForLog s = false ->
    Str.nl ∉ body ->
    writes body s = (s, serialEcho s body).
Proof.
  induction body as [|c body IH]; intros s Hp Hn Hf Hc Hnl.
  - cbn. unfold serialEcho. destruct (serialEnabled s); reflexivity.
  - apply not_elem_of_cons in Hnl as [Hc0 Hnl].
    cbn [writes]. rewrite write_unpaused by assumption.
    apply not_eq_sym, ascii_eqb_neq in Hc0. rewrite Hc0.
    unfold write_collect. rewrite Hf, Hc.
    rewrite IH by assumption. unfold serialEcho.
    destruct (serialEnabled s); reflexivity.
Qed.

Lemma c_str_lineText line : Str.c_str (lineText line) = lineText line.
Proof. apply c_str_replace. Qed.

(** A line that does not start with NUL fills the buffer with its first
    [LOG_LINE_MAXLEN] bytes. *)
Lemma lineBuffer_take c rest :
  c <> "000"%char ->
  lineBuffer (c :: rest) = string_of_list_ascii (take LOG_LINE_MAXLEN (c :: rest)).
Proof.
  intros H. cbn [lineBuffer]. rewrite from_char_not_nul by exact H.
  apply accumulate_first.
Qed.

(** For a line without NUL the text handed to the sinks is made of its
    first [LOG_LINE_MAXLEN] bytes, line feeds and carriage returns
    removed. *)
Lemma lineText_no_nul line :
  "000"%char ∉ line ->
  lineText line
  = Str.remove Str.cr
      (Str.remove Str.nl (string_of_list_ascii (take LOG_LINE_MAXLEN line))).
Proof.
  intros H. unfold lineText. destruct line as [|c rest]; [reflexivity|].
  rewrite lineBuffer_take by (intros ->; apply H, list_elem_of_here).
  assert (H1 : "000"%char
               ∉ list_ascii_of_string
                   (string_of_list_ascii (take LOG_LINE_MAXLEN (c :: rest)))).
  { rewrite chars_of_list. intros Hin. apply H.
    apply elem_of_take in Hin as (i & Hi & _).
    apply list_elem_of_lookup. eauto. }
  unfold Str.replace. rewrite (c_str_absent _ H1).
  now rewrite c_str_absent by (now apply remove_keeps_absent).
Qed.

Lemma write_eol_collecting s :
  _collectLineForLog s = true -> String.length (_msgToLog s) <> 0 ->
  write_eol s =
    let sd := set_msgToLog
                (Str.replace Str.cr (Str.replace Str.nl (_msgToLog s)))
                (set_firstChOnLine true s) in
    (set_collectLineForLog false (set_msgToLog EmptyString (fst (write_http sd))),
     write_structured sd ++ snd (write_http sd)).
Proof.
  intros Hc Hlen. unfold write_eol.
  change (_collectLineForLog (set_firstChOnLine true s)) with (_collectLineForLog s).
  change (_msgToLog (set_firstChOnLine true s)) with (_msgToLog s).
  rewrite Hc.
  destruct (Nat.ltb_spec 0 (String.length (_msgToLog s))) as [_|Hz]; [|lia].
  cbn zeta. destruct (write_http _) as [s5 ev5]. reflexivity.
Qed.

Lemma write_eol_discarding s :
  _collectLineForLog s = false ->
  write_eol s = (set_collectLineForLog false (set_firstChOnLine true s), []).
Proof.
  intros Hc. unfold write_eol.
  change (_collectLineForLog (set_firstChOnLine true s)) with (_collectLineForLog s).
  now rewrite Hc.
Qed.

Lemma accumulate_nonempty txt l :
  l <> [] -> String.length (accumulate txt l) <> 0.
Proof.
  destruct l as [|x l]; [congruence|]. intros _.
  rewrite accumulate_take, string_length_app.
  destruct (String.length txt) eqn:E; [|lia].
  rewrite Nat.sub_0_r. change LOG_LINE_MAXLEN with (S (LOG_LINE_MAXLEN - 1)).
  cbn. lia.
Qed.

Lemma last_byte_collected s :
  _isPaused s = false -> anyNetSink s = true ->
  _firstChOnLine s = false -> _collectLineForLog s = true ->
  write Str.nl s =
    (fst (write_eol (set_msgToLog (accumulate (_msgToLog s) [Str.nl]) s)),
     serialEcho s [Str.nl]
       ++ snd (write_eol (set_msgToLog (accumulate (_msgToLog s) [Str.nl]) s))).
Proof.
  intros Hp Hn Hf Hc. rewrite write_unpaused by assumption.
  change (Ascii.eqb Str.nl Str.nl) with true. cbv iota.
  unfold write_collect. rewrite Hf, Hc. cbn [accumulate].
  destruct (String.length (_msgToLog s) <? LOG_LINE_MAXLEN); [reflexivity|].
  destruct s; reflexivity.
Qed.

Lemma dispatch_state_eq s c text :
  _firstChOnLine s = true ->
  set_msgToLog text (set_firstChOnLine true (collectingState c s))
  = dispatchState (levelOfChar c) text s.
Proof.
  intros Hf. unfold collectingState, dispatchState.
  destruct s; cbn in Hf; subst. reflexivity.
Qed.

Lemma set_msgToLog_twice a b s :
  set_msgToLog a (set_msgToLog b s) = set_msgToLog a s.
Proof. reflexivity. Qed.

Lemma set_firstChOnLine_msg a b s :
  set_firstChOnLine a (set_msgToLog b s) = set_msgToLog b (set_firstChOnLine a s).
Proof. reflexivity. Qed.

Lemma line_start_again s :
  _firstChOnLine s = true -> _collectLineForLog s = false ->
  set_collectLineForLog false (set_firstChOnLine true (set_firstChOnLine false s)) = s.
Proof. intros Hf Hc. destruct s; cbn in Hf, Hc; subst. reflexivity. Qed.

(** The rest of a line that is being collected, line feed included. *)
Lemma collected_tail rest sc :
  _isPaused sc = false -> anyNetSink sc = true ->
  _firstChOnLine sc = false -> _collectLineForLog sc = true ->
  Str.nl ∉ rest ->
  String.length (accumulate (_msgToLog sc) (rest ++ [Str.nl])) <> 0 ->
  writes (rest ++ [Str.nl]) sc =
    let sd := set_msgToLog
                (Str.replace Str.cr
                   (Str.replace Str.nl (accumulate (_msgToLog sc) (rest ++ [Str.nl]))))
                (set_firstChOnLine true sc) in
    (set_collectLineForLog false (set_msgToLog EmptyString (fst (write_http sd))),
     serialEcho sc (rest ++ [Str.nl]) ++ write_structured sd ++ snd (write_http sd)).
Proof.
  intros Hp Hn Hf Hc Hnl Hlen. cbv zeta.
  rewrite writes_app.
  rewrite (writes_collecting rest sc) by assumption.
  cbn [fst snd writes].
  rewrite (last_byte_collected (set_msgToLog (accumulate (_msgToLog sc) rest) sc))
    by assumption.
  change (_msgToLog (set_msgToLog (accumulate (_msgToLog sc) rest) sc))
    with (accumulate (_msgToLog sc) rest).
  rewrite <- accumulate_app.
  rewrite set_msgToLog_twice.
  rewrite write_eol_collecting; [|exact Hc|exact Hlen].
  cbv zeta.
  change (_msgToLog (set_msgToLog ?x sc)) with x.
  rewrite set_firstChOnLine_msg, set_msgToLog_twice.
  cbn [fst snd]. rewrite app_nil_r.
  change (serialEcho (set_msgToLog ?x sc) ?l) with (serialEcho sc l).
  rewrite serialEcho_app, <- app_assoc. reflexivity.
Qed.

(** The rest of a line that is not collected, line feed included. *)
Lemma discarded_tail rest sc :
  _isPaused sc = false -> anyNetSink sc = true ->
  _firstChOnLine sc = false -> _collectLineForLog sc = false ->
  Str.nl ∉ rest ->
  writes (rest ++ [Str.nl]) sc
  = (set_collectLineForLog false (set_firstChOnLine true sc),
     serialEcho sc (rest ++ [Str.nl])).
Proof.
  intros Hp Hn Hf Hc Hnl.
  rewrite writes_app.
  rewrite (writes_discarding rest sc) by assumption.
  cbn [fst snd writes].
  rewrite write_unpaused by assumption.
  change (Ascii.eqb Str.nl Str.nl) with true. cbv iota.
  unfold write_collect. rewrite Hf, Hc.
  rewrite write_eol_discarding by exact Hc.
  cbn [fst snd]. rewrite !app_nil_r.
  now rewrite serialEcho_app.
Qed.

(** A whole line, fed from the start of a line while some network sink
    is enabled. *)
Lemma writes_line s body :
  _isPaused s = false -> anyNetSink s = true ->
  _firstChOnLine s = true -> _collectLineForLog s = false ->
  Str.nl ∉ body ->
  writes (body ++ [Str.nl]) s =
    let line := body ++ [Str.nl] in
    let level := levelOfChar (hd Str.nl line) in
    if (level <=? _loggingThreshold s)%Z then
      let sd := dispatchState level (lineText line) s in
      (set_collectLineForLog false (set_msgToLog EmptyString (fst (write_http sd))),
       serialEcho s line ++ write_structured sd ++ snd (write_http sd))
    else (s, serialEcho s line).
Proof.
  intros Hp Hn Hf Hc Hnl. cbv zeta.
  destruct body as [|c rest].
  - (* the line feed is the first byte *)
    cbn [app writes hd].
    rewrite write_unpaused by assumption.
    change (Ascii.eqb Str.nl Str.nl) with true. cbv iota.
    unfold write_collect. rewrite Hf.
    change (_loggingThreshold (set_firstChOnLine false s)) with (_loggingThreshold s).
    destruct (levelOfChar Str.nl <=? _loggingThreshold s)%Z.
    + fold (collectingState Str.nl s).
      rewrite write_eol_collecting; [|reflexivity|vm_compute; discriminate].
      cbv zeta. cbn [fst snd]. rewrite app_nil_r.
      change (_msgToLog (collectingState Str.nl s)) with (Str.from_char Str.nl).
      rewrite dispatch_state_eq by exact Hf.
      reflexivity.
    + rewrite write_eol_discarding by exact Hc.
      cbn [fst snd]. rewrite !app_nil_r.
      now rewrite line_start_again.
  - apply not_elem_of_cons in Hnl as [Hc0 Hnl].
    apply not_eq_sym, ascii_eqb_neq in Hc0.
    change ((c :: rest) ++ [Str.nl]) with (c :: (rest ++ [Str.nl])).
    cbn [writes hd].
    rewrite write_unpaused by assumption. rewrite Hc0.
    unfold write_collect. rewrite Hf.
    change (_loggingThreshold (set_firstChOnLine false s)) with (_loggingThreshold s).
    change (serialEcho s (c :: rest ++ [Str.nl]))
      with (serialEcho s ([c] ++ (rest ++ [Str.nl]))).
    rewrite (serialEcho_app s [c]).
    destruct (levelOfChar c <=? _loggingThreshold s)%Z.
    + fold (collectingState c s).
      rewrite (collected_tail rest (collectingState c s));
        [| exact Hp | exact Hn | reflexivity | reflexivity | exact Hnl
         | apply accumulate_nonempty; now destruct rest ].
      cbv zeta. cbn [fst snd].
      change (_msgToLog (collectingState c s)) with (Str.from_char c).
      rewrite dispatch_state_eq by exact Hf.
      change (Str.replace Str.cr
                (Str.replace Str.nl
                   (accumulate (Str.from_char c) (rest ++ [Str.nl]))))
        with (lineText (c :: rest ++ [Str.nl])).
      change (serialEcho (collectingState c s) ?l) with (serialEcho s l).
      rewrite <- app_assoc. reflexivity.
    + rewrite (discarded_tail rest (set_firstChOnLine false s));
        [| exact Hp | exact Hn | reflexivity | exact Hc | exact Hnl ].
      cbn [fst snd].
      change (serialEcho (set_firstChOnLine false s) ?l) with (serialEcho s l).
      now rewrite line_start_again.
Qed.

Lemma writes_no_sink l :
  forall s, _isPaused s = false -> anyNetSink s = false ->
            writes l s = (s, serialEcho s l).
Proof.
  induction l as [|c l IH]; intros s Hp Hn.
  - unfold serialEcho. destruct (serialEnabled s); reflexivity.
  - cbn [writes]. rewrite write_unpaused_no_sink by assumption.
    rewrite IH by assumption. unfold serialEcho.
    destruct (serialEnabled s); reflexivity.
Qed.

(** ** What reaches the structured sinks *)

Section Filters.

Variable keep : Event -> bool.
Hypothesis keep_serial : forall c, keep (SerialWrite c) = false.
Hypothesis keep_printf : forall t, keep (SerialPrintf t) = false.
Hypothesis keep_stop : keep WifiStop = false.
Hypothesis keep_connect : forall h p ok, keep (WifiConnect h p ok) = false.
Hypothesis keep_print : forall r, keep (WifiPrint r) = false.

Lemma filter_serialEcho s l : List.filter keep (serialEcho s l) = [].
Proof.
  unfold serialEcho. destruct (serialEnabled s); [|reflexivity].
  induction l as [|c l IH]; cbn; [reflexivity|]. now rewrite keep_serial.
Qed.

Lemma filter_write_http s : List.filter keep (snd (write_http s)) = [].
Proof.
  unfold write_http. destruct (_logToHTTP s); [|reflexivity].
  cbn [snd]. rewrite !List.filter_app.
  destruct (wc_connected (_wifiClient s));
    destruct (hd false (wc_connectOk (_wifiClient s)));
    destruct (serialEnabled s); cbn;
    rewrite ?keep_stop, ?keep_connect, ?keep_print, ?keep_printf; reflexivity.
Qed.

(** Of a whole line, only the structured dispatch can pass the filter. *)
Lemma filter_line s body :
  _isPaused s = false ->
  _firstChOnLine s = true -> _collectLineForLog s = false ->
  Str.nl ∉ body ->
  List.filter keep (snd (writes (body ++ [Str.nl]) s))
  = if anyNetSink s
       && (levelOfChar (hd Str.nl (body ++ [Str.nl])) <=? _loggingThreshold s)%Z
    then List.filter keep
           (write_structured
              (dispatchState (levelOfChar (hd Str.nl (body ++ [Str.nl])))
                 (lineText (body ++ [Str.nl])) s))
    else [].
Proof.
  intros Hp Hf Hc Hnl. destruct (anyNetSink s) eqn:Hn.
  - rewrite writes_line by assumption. cbv zeta. cbn [andb].
    destruct (_ <=? _)%Z; cbn [snd].
    + rewrite !List.filter_app, filter_serialEcho, filter_write_http.
      now rewrite app_nil_r.
    + apply filter_serialEcho.
  - rewrite writes_no_sink by assumption. cbn [snd andb].
    apply filter_serialEcho.
Qed.

End Filters.

Lemma write_http_flags s :
  _logToMQTT (fst (write_http s)) = _logToMQTT s
  /\ _logToCommandSerial (fst (write_http s)) = _logToCommandSerial s
  /\ _logToHTTP (fst (write_http s)) = _logToHTTP s
  /\ _loggingThreshold (fst (write_http s)) = _loggingThreshold s
  /\ _isPaused (fst (write_http s)) = _isPaused s
  /\ _logToSerial (fst (write_http s)) = _logToSerial s
  /\ _serialPort (fst (write_http s)) = _serialPort s.
Proof.
  unfold write_http. destruct (_logToHTTP s) eqn:E;
    repeat split; st_simpl; auto.
Qed.

Lemma line_mqttEvents s body :
  _isPaused s = false ->
  _firstChOnLine s = true -> _collectLineForLog s = false ->
  Str.nl ∉ body ->
  mqttEvents (snd (writes (body ++ [Str.nl]) s))
  = if (levelOfChar (hd Str.nl (body ++ [Str.nl])) <=? _loggingThreshold s)%Z
       && _logToMQTT s
    then [MqttReportSilent
            (logStr (levelOfChar (hd Str.nl (body ++ [Str.nl])))
               (lineText (body ++ [Str.nl])))]
    else [].
Proof.
  intros Hp Hf Hc Hnl. unfold mqttEvents.
  rewrite filter_line by (assumption || reflexivity).
  unfold anyNetSink, write_structured, dispatchState. st_simpl.
  rewrite ?c_str_logStr, c_str_lineText.
  destruct (_ <=? _)%Z, (_logToMQTT s), (_logToHTTP s),
    (bool_of_int (_logToCommandSerial s)); reflexivity.
Qed.

Lemma line_cmdSerialEvents s body :
  _isPaused s = false ->
  _firstChOnLine s = true -> _collectLineForLog s = false ->
  Str.nl ∉ body ->
  cmdSerialEvents (snd (writes (body ++ [Str.nl]) s))
  = if (levelOfChar (hd Str.nl (body ++ [Str.nl])) <=? _loggingThreshold s)%Z
       && bool_of_int (_logToCommandSerial s)
    then [CmdSerialLogMessage
            (logStr (levelOfChar (hd Str.nl (body ++ [Str.nl])))
               (lineText (body ++ [Str.nl])))]
    else [].
Proof.
  intros Hp Hf Hc Hnl. unfold cmdSerialEvents.
  rewrite filter_line by (assumption || reflexivity).
  unfold anyNetSink, write_structured, dispatchState. st_simpl.
  rewrite ?c_str_logStr, c_str_lineText.
  destruct (_ <=? _)%Z, (_logToMQTT s), (_logToHTTP s),
    (bool_of_int (_logToCommandSerial s)); reflexivity.
Qed.

Lemma in_mqttEvents p tr :
  In (MqttReportSilent p) tr <-> In (MqttReportSilent p) (mqttEvents tr).
Proof. unfold mqttEvents. rewrite List.filter_In. cbn. tauto. Qed.

Lemma in_cmdSerialEvents p tr :
  In (CmdSerialLogMessage p) tr <-> In (CmdSerialLogMessage p) (cmdSerialEvents tr).
Proof. unfold cmdSerialEvents. rewrite List.filter_In. cbn. tauto. Qed.

(** ** The pause buffer *)

Lemma slot_lt cap rc k : rc <= cap - 1 -> k < cap -> slot cap rc k < cap.
Proof. unfold slot. intros. destruct (Nat.ltb_spec (rc + k) cap); lia. Qed.

Lemma slot_inj cap rc k1 k2 :
  rc <= cap - 1 -> k1 < cap -> k2 < cap ->
  slot cap rc k1 = slot cap rc k2 -> k1 = k2.
Proof.
  unfold slot. intros.
  destruct (Nat.ltb_spec (rc + k1) cap), (Nat.ltb_spec (rc + k2) cap); lia.
Qed.

Lemma slot_advance cap rc k :
  rc <= cap - 1 -> k < cap ->
  slot cap (Ring.advance cap rc) k = slot cap rc (S k).
Proof.
  unfold slot, Ring.advance. intros.
  destruct (Nat.leb_spec cap (S rc));
    repeat match goal with |- context [?a <? ?b] => destruct (Nat.ltb_spec a b) end;
    lia.
Qed.

Lemma advance_slot cap rc k :
  rc <= cap - 1 -> k < cap ->
  Ring.advance cap (slot cap rc k) = slot cap rc (S k).
Proof.
  unfold slot, Ring.advance. intros.
  repeat match goal with |- context [?a <? ?b] => destruct (Nat.ltb_spec a b) end;
    destruct (Nat.leb_spec cap (S (rc + k)));
    try destruct (Nat.leb_spec cap (S (rc + k - cap))); lia.
Qed.

Lemma ring_wf_new net n t : ring_wf (NetLog_new net n t).
Proof.
  unfold ring_wf, NetLog_new, Ring.init, slot. st_simpl. cbn [capacity count readCursor writeCursor].
  rewrite length_replicate. repeat split; try lia.
  destruct (Nat.ltb_spec (0 + 0) n); lia.
Qed.

(** A byte written while paused, when there is room. *)
Lemma write_paused_room ch s :
  _isPaused s = true -> ring_wf s ->
  count (_chBufferPosn s) < capacity (_chBufferPosn s) ->
  let s' := set_chBufferPosn (Ring.hasPut (_chBufferPosn s))
              (set_pChBuffer (<[writeCursor (_chBufferPosn s) := ch]> (_pChBuffer s)) s) in
  write ch s = (s', [])
  /\ ring_wf s'
  /\ buffered s' = buffered s ++ [ch].
Proof.
  intros Hp (Hlen & Hcnt & Hrc & Hwc) Hroom s'.
  assert (Hput : Ring.canPut (_chBufferPosn s) = true).
  { unfold Ring.canPut. apply Nat.ltb_lt. exact Hroom. }
  split; [|split].
  - unfold write. rewrite Hp, Hput. reflexivity.
  - unfold ring_wf, s'. st_simpl. unfold Ring.hasPut.
    cbn [capacity count readCursor writeCursor].
    rewrite length_insert. repeat split; try lia.
    rewrite Hwc. apply advance_slot; lia.
  - unfold buffered, s'. st_simpl. unfold Ring.hasPut.
    cbn [capacity count readCursor writeCursor].
    rewrite seq_S, map_app. cbn [map Nat.add].
    f_equal.
    + apply map_ext_in. intros k Hk. apply in_seq in Hk.
      rewrite list_lookup_insert_ne; [reflexivity|].
      rewrite Hwc. intros E. apply slot_inj in E; lia.
    + rewrite Hwc. rewrite list_lookup_insert_eq; [reflexivity|].
      rewrite Hlen. apply slot_lt; lia.
Qed.

(** A byte written while paused, when the buffer is full: dropped. *)
Lemma write_paused_full ch s :
  _isPaused s = true ->
  capacity (_chBufferPosn s) <= count (_chBufferPosn s) ->
  write ch s = (s, []).
Proof.
  intros Hp Hfull. unfold write. rewrite Hp.
  unfold Ring.canPut. destruct (Nat.ltb_spec (count (_chBufferPosn s)) (capacity (_chBufferPosn s))); [lia|reflexivity].
Qed.

(** A burst written while paused: the buffer takes what it has room for,
    in order, and nothing else changes. *)
Lemma writes_paused l :
  forall s,
    _isPaused s = true -> ring_wf s ->
    exists buf r,
      writes l s = (set_chBufferPosn r (set_pChBuffer buf s), [])
      /\ ring_wf (set_chBufferPosn r (set_pChBuffer buf s))
      /\ capacity r = capacity (_chBufferPosn s)
      /\ buffered (set_chBufferPosn r (set_pChBuffer buf s))
         = buffered s
             ++ take (capacity (_chBufferPosn s) - count (_chBufferPosn s)) l.
Proof.
  induction l as [|c l IH]; intros s Hp Hwf.
  - exists (_pChBuffer s), (_chBufferPosn s).
    replace (set_chBufferPosn (_chBufferPosn s) (set_pChBuffer (_pChBuffer s) s))
      with s by (destruct s; reflexivity).
    rewrite take_nil, app_nil_r. auto.
  - cbn [writes].
    destruct (Nat.lt_ge_cases (count (_chBufferPosn s)) (capacity (_chBufferPosn s)))
      as [Hroom|Hfull].
    + destruct (write_paused_room c s Hp Hwf Hroom) as (Hw & Hwf' & Hbuf).
      rewrite Hw.
      pose proof (fun H => IH _ H Hwf') as IH'.
      destruct (IH' Hp) as (buf & r & Hws & Hwf'' & Hcap & Hb).
      exists buf, r. rewrite Hws. split; [reflexivity|].
      split; [exact Hwf''|]. split; [exact Hcap|].
      change (buffered (set_chBufferPosn r (set_pChBuffer buf s)))
        with (buffered (set_chBufferPosn r (set_pChBuffer buf
               (set_chBufferPosn (Ring.hasPut (_chBufferPosn s))
                  (set_pChBuffer (<[writeCursor (_chBufferPosn s):=c]> (_pChBuffer s)) s))))).
      rewrite Hb, Hbuf. st_simpl. unfold Ring.hasPut. cbn [capacity count].
      replace (capacity (_chBufferPosn s) - count (_chBufferPosn s))
        with (S (capacity (_chBufferPosn s) - S (count (_chBufferPosn s)))) by lia.
      cbn [take]. now rewrite <- app_assoc.
    + rewrite write_paused_full by assumption.
      destruct (IH s Hp Hwf) as (buf & r & Hws & Hwf'' & Hcap & Hb).
      exists buf, r. rewrite Hws. split; [reflexivity|].
      split; [exact Hwf''|]. split; [exact Hcap|].
      rewrite Hb.
      replace (capacity (_chBufferPosn s) - count (_chBufferPosn s)) with 0 by lia.
      now rewrite !take_0.
Qed.

(** ** Bytes accepted while not paused leave the pause machinery alone *)

Lemma write_http_frame t b r s :
  write_http (with_pause_data t b r s)
  = (with_pause_data t b r (fst (write_http s)), snd (write_http s)).
Proof.
  unfold write_http, with_pause_data, serialEnabled, httpRequest. st_simpl.
  destruct (_logToHTTP s); reflexivity.
Qed.

Lemma write_collect_pause_frame ch t b r s :
  write_collect ch (with_pause_data t b r s)
  = with_pause_data t b r (write_collect ch s).
Proof.
  unfold write_collect, with_pause_data. st_simpl.
  repeat match goal with |- context [if ?c then _ else _] => destruct c end;
    reflexivity.
Qed.

Lemma write_eol_frame t b r s :
  write_eol (with_pause_data t b r s)
  = (with_pause_data t b r (fst (write_eol s)), snd (write_eol s)).
Proof.
  unfold write_eol.
  change (set_firstChOnLine true (with_pause_data t b r s))
    with (with_pause_data t b r (set_firstChOnLine true s)).
  change (_collectLineForLog (with_pause_data t b r ?x)) with (_collectLineForLog x).
  change (_msgToLog (with_pause_data t b r ?x)) with (_msgToLog x).
  destruct (_collectLineForLog (set_firstChOnLine true s)); [|reflexivity].
  destruct (0 <? String.length (_msgToLog (set_firstChOnLine true s))); [|reflexivity].
  change (set_msgToLog ?v (with_pause_data t b r ?x))
    with (with_pause_data t b r (set_msgToLog v x)).
  rewrite write_http_frame.
  unfold write_structured. 
  change (_logToMQTT (with_pause_data t b r ?x)) with (_logToMQTT x).
  change (_logToCommandSerial (with_pause_data t b r ?x)) with (_logToCommandSerial x).
  change (_curMsgLogLevel (with_pause_data t b r ?x)) with (_curMsgLogLevel x).
  change (_msgToLog (with_pause_data t b r ?x)) with (_msgToLog x).
  destruct (write_http _) as [s5 e5]. reflexivity.
Qed.

Lemma write_frame ch t b r s :
  _isPaused s = false ->
  write ch (with_pause_data t b r s)
  = (with_pause_data t b r (fst (write ch s)), snd (write ch s)).
Proof.
  intros Hp. unfold write.
  change (_isPaused (with_pause_data t b r s)) with (_isPaused s).
  change (serialEnabled (with_pause_data t b r s)) with (serialEnabled s).
  change (anyNetSink (with_pause_data t b r s)) with (anyNetSink s).
  rewrite Hp. destruct (anyNetSink s); [|reflexivity]. cbn [negb].
  rewrite write_collect_pause_frame, write_eol_frame.
  destruct (Ascii.eqb ch Str.nl); [|reflexivity].
  destruct (write_eol (write_collect ch s)). reflexivity.
Qed.

(** The pause flag and the pause machinery survive an accepted byte. *)
Lemma write_unpaused_pause_fields ch s :
  _isPaused s = false ->
  _isPaused (fst (write ch s)) = false
  /\ _pChBuffer (fst (write ch s)) = _pChBuffer s
  /\ _chBufferPosn (fst (write ch s)) = _chBufferPosn s
  /\ _pauseStartedMs (fst (write ch s)) = _pauseStartedMs s
  /\ _pauseTimeMs (fst (write ch s)) = _pauseTimeMs s.
Proof.
  intros Hp. unfold write. rewrite Hp.
  destruct (anyNetSink s); cbn [negb]; [|cbn [fst]; auto].
  assert (Hc : _isPaused (write_collect ch s) = _isPaused s
               /\ _pChBuffer (write_collect ch s) = _pChBuffer s
               /\ _chBufferPosn (write_collect ch s) = _chBufferPosn s
               /\ _pauseStartedMs (write_collect ch s) = _pauseStartedMs s
               /\ _pauseTimeMs (write_collect ch s) = _pauseTimeMs s).
  { unfold write_collect.
    repeat match goal with |- context [if ?c then _ else _] => destruct c end;
      repeat split; reflexivity. }
  destruct (Ascii.eqb ch Str.nl).
  - generalize dependent (write_collect ch s). intros s1 Hc.
    unfold write_eol. st_simpl.
    destruct (_collectLineForLog s1).
    + destruct (0 <? String.length (_msgToLog s1)).
      * unfold write_http. st_simpl.
        destruct (_logToHTTP s1); st_simpl; intuition congruence.
      * st_simpl. intuition congruence.
    + st_simpl. intuition congruence.
  - cbn [fst]. intuition congruence.
Qed.

Lemma writes_frame l :
  forall t b r s,
    _isPaused s = false ->
    writes l (with_pause_data t b r s)
    = (with_pause_data t b r (fst (writes l s)), snd (writes l s)).
Proof.
  induction l as [|c l IH]; intros t b r s Hp; [reflexivity|].
  cbn [writes]. rewrite write_frame by assumption.
  destruct (write_unpaused_pause_fields c s Hp) as (Hp1 & _).
  destruct (write c s) as [s1 e1]. cbn [fst snd] in *.
  rewrite IH by assumption.
  destruct (writes l s1) as [s2 e2]. reflexivity.
Qed.

Lemma writes_unpaused_pause_fields l :
  forall s,
    _isPaused s = false ->
    _isPaused (fst (writes l s)) = false
    /\ _pChBuffer (fst (writes l s)) = _pChBuffer s
    /\ _chBufferPosn (fst (writes l s)) = _chBufferPosn s
    /\ _pauseStartedMs (fst (writes l s)) = _pauseStartedMs s
    /\ _pauseTimeMs (fst (writes l s)) = _pauseTimeMs s.
Proof.
  induction l as [|c l IH]; intros s Hp; [cbn; auto|].
  cbn [writes].
  destruct (write_unpaused_pause_fields c s Hp) as (Hp1 & Hb1 & Hr1 & Ht1 & Hd1).
  destruct (write c s) as [s1 e1]. cbn [fst] in *.
  destruct (IH s1 Hp1) as (Hp2 & Hb2 & Hr2 & Ht2 & Hd2).
  destruct (writes l s1) as [s2 e2]. cbn [fst] in *.
  intuition congruence.
Qed.

(** ** Draining the pause buffer *)

Lemma buffered_nil s : count (_chBufferPosn s) = 0 -> buffered s = [].
Proof. unfold buffered. intros ->. reflexivity. Qed.

Lemma buffered_length s : length (buffered s) = count (_chBufferPosn s).
Proof. unfold buffered. now rewrite length_map, length_seq. Qed.

Lemma buffered_cons s n :
  ring_wf s -> count (_chBufferPosn s) = S n ->
  buffered s
  = default "000"%char (_pChBuffer s !! readCursor (_chBufferPosn s))
      :: buffered (set_chBufferPosn (Ring.hasGot (_chBufferPosn s)) s).
Proof.
  intros (Hlen & Hcnt & Hrc & Hwc) Hn. unfold buffered. st_simpl.
  unfold Ring.hasGot. cbn [capacity count readCursor writeCursor].
  rewrite Hn. cbn [Nat.pred seq map]. f_equal.
  - unfold slot. rewrite Nat.add_0_r.
    destruct (Nat.ltb_spec (readCursor (_chBufferPosn s)) (capacity (_chBufferPosn s)));
      [reflexivity | do 2 f_equal; lia].
  - rewrite <- seq_shift, map_map. apply map_ext_in.
    intros k Hk. apply in_seq in Hk.
    rewrite slot_advance by lia. reflexivity.
Qed.

Lemma hasGot_wf s n :
  ring_wf s -> count (_chBufferPosn s) = S n ->
  ring_wf (set_chBufferPosn (Ring.hasGot (_chBufferPosn s)) s).
Proof.
  intros (Hlen & Hcnt & Hrc & Hwc) Hn. unfold ring_wf. st_simpl.
  unfold Ring.hasGot. cbn [capacity count readCursor writeCursor].
  rewrite Hn in *. cbn [Nat.pred].
  repeat split; try lia.
  - unfold Ring.advance.
    destruct (Nat.leb_spec (capacity (_chBufferPosn s)) (S (readCursor (_chBufferPosn s)))); lia.
  - rewrite Hwc. symmetry. apply slot_advance; lia.
Qed.

Lemma set_ring_as_pause_data r s :
  set_chBufferPosn r s
  = with_pause_data (_pauseStartedMs s) (_pChBuffer s) r s.
Proof. destruct s; reflexivity. Qed.

Lemma drained_empty s :
  ring_wf s -> count (_chBufferPosn s) = 0 ->
  set_chBufferPosn (drained (_chBufferPosn s)) s = s.
Proof.
  intros (_ & _ & Hrc & Hwc) Hn.
  assert (E : writeCursor (_chBufferPosn s) = readCursor (_chBufferPosn s)).
  { rewrite Hwc, Hn. unfold slot. rewrite Nat.add_0_r.
    destruct (Nat.ltb_spec (readCursor (_chBufferPosn s)) (capacity (_chBufferPosn s))); lia. }
  destruct s as [? ? ? ? ? ? ? ? ? ? ? ? ? ? ? ? ? ? ? ? ? [cap wc rc cnt]].
  cbn in E, Hn. subst. reflexivity.
Qed.

(** With enough iterations allowed, the loop replays the buffered bytes,
    oldest first, through [write], and leaves the buffer empty. *)
Lemma drain_unpaused n :
  forall s fuel,
    count (_chBufferPosn s) = n -> n <= fuel ->
    _isPaused s = false -> ring_wf s ->
    handleLoggedDuringPause_loop fuel s
    = Some (set_chBufferPosn (drained (_chBufferPosn s))
              (fst (writes (buffered s) s)),
            snd (writes (buffered s) s)).
Proof.
  induction n as [|n IH]; intros s fuel Hn Hfuel Hp Hwf.
  - assert (Hget : Ring.canGet (_chBufferPosn s) = false).
    { unfold Ring.canGet. now rewrite Hn. }
    rewrite (buffered_nil s Hn). cbn [writes fst snd].
    rewrite (drained_empty s Hwf Hn).
    destruct fuel; cbn [handleLoggedDuringPause_loop]; rewrite Hget; reflexivity.
  - destruct fuel as [|fuel]; [lia|].
    assert (Hget : Ring.canGet (_chBufferPosn s) = true).
    { unfold Ring.canGet. now rewrite Hn. }
    cbn [handleLoggedDuringPause_loop]. rewrite Hget.
    rewrite (buffered_cons s n Hwf Hn). unfold Ring.posToGet.
    set (ch := default "000"%char (_pChBuffer s !! readCursor (_chBufferPosn s))).
    cbn [writes].
    destruct (write_unpaused_pause_fields ch s Hp) as (Hp1 & Hb1 & Hr1 & Ht1 & Hd1).
    pose proof (writes_frame
                  (buffered (set_chBufferPosn (Ring.hasGot (_chBufferPosn s)) s))
                  (_pauseStartedMs (fst (write ch s))) (_pChBuffer (fst (write ch s)))
                  (Ring.hasGot (_chBufferPosn s)) (fst (write ch s)) Hp1) as Hfr.
    rewrite <- set_ring_as_pause_data in Hfr.
    destruct (write ch s) as [s1 e1]. cbn [fst snd] in *.
    assert (Hwf2 : ring_wf (set_chBufferPosn (Ring.hasGot (_chBufferPosn s1)) s1)).
    { pose proof (hasGot_wf s n Hwf Hn) as H.
      unfold ring_wf in *. st_simpl. st_simpl_in H. rewrite Hr1, Hb1. exact H. }
    assert (Hb2 : buffered (set_chBufferPosn (Ring.hasGot (_chBufferPosn s1)) s1)
                  = buffered (set_chBufferPosn (Ring.hasGot (_chBufferPosn s)) s)).
    { unfold buffered. st_simpl. now rewrite Hr1, Hb1. }
    rewrite (IH (set_chBufferPosn (Ring.hasGot (_chBufferPosn s1)) s1) fuel);
      [| st_simpl; rewrite Hr1; unfold Ring.hasGot; cbn [count]; rewrite Hn; reflexivity
       | lia | exact Hp1 | exact Hwf2].
    rewrite Hb2. rewrite Hr1. rewrite Hfr.
    destruct (writes_unpaused_pause_fields
                (buffered (set_chBufferPosn (Ring.hasGot (_chBufferPosn s)) s))
                s1 Hp1) as (_ & Hb3 & _ & Ht3 & _).
    destruct (writes _ s1) as [s2 e2]. cbn [fst snd] in *.
    rewrite <- Hb3, <- Ht3, <- set_ring_as_pause_data. reflexivity.
Qed.

Lemma handleLoggedDuringPause_unpaused s :
  _isPaused s = false -> ring_wf s ->
  handleLoggedDuringPause s
  = Some (set_chBufferPosn (drained (_chBufferPosn s))
            (fst (writes (buffered s) s)),
          snd (writes (buffered s) s)).
Proof.
  intros Hp Hwf. unfold handleLoggedDuringPause.
  now apply (drain_unpaused (count (_chBufferPosn s))).
Qed.

(** More iterations than buffered bytes change nothing. *)
Lemma handleLoggedDuringPause_fuel s fuel :
  _isPaused s = false -> ring_wf s ->
  count (_chBufferPosn s) <= fuel ->
  handleLoggedDuringPause_loop fuel s = handleLoggedDuringPause s.
Proof.
  intros Hp Hwf Hf. rewrite handleLoggedDuringPause_unpaused by assumption.
  now apply (drain_unpaused (count (_chBufferPosn s))).
Qed.

Lemma resume_paused s :
  _isPaused s = true -> ring_wf s ->
  resume s
  = Some (set_chBufferPosn (drained (_chBufferPosn s))
            (fst (writes (buffered s) (set_isPaused false s))),
          snd (writes (buffered s) (set_isPaused false s))).
Proof.
  intros Hp Hwf. unfold resume. rewrite Hp.
  now rewrite handleLoggedDuringPause_unpaused.
Qed.

(** ** The buffer invariant along the operations *)

Lemma ring_wf_ext s s' :
  _pChBuffer s' = _pChBuffer s -> _chBufferPosn s' = _chBufferPosn s ->
  ring_wf s -> ring_wf s'.
Proof. unfold ring_wf. intros -> ->. auto. Qed.

Lemma ring_wf_bounds s :
  ring_wf s -> 0 <= count (_chBufferPosn s) <= capacity (_chBufferPosn s).
Proof. intros (_ & H & _). lia. Qed.

Lemma drained_wf s s' :
  _pChBuffer s' = _pChBuffer s ->
  ring_wf s -> ring_wf (set_chBufferPosn (drained (_chBufferPosn s)) s').
Proof.
  intros Hb (Hlen & Hcnt & Hrc & Hwc). unfold ring_wf, drained. st_simpl.
  cbn [capacity count readCursor writeCursor]. rewrite Hb.
  assert (Hw : writeCursor (_chBufferPosn s) <= capacity (_chBufferPosn s) - 1).
  { rewrite Hwc. unfold slot.
    destruct (Nat.ltb_spec (readCursor (_chBufferPosn s) + count (_chBufferPosn s))
                (capacity (_chBufferPosn s))); lia. }
  repeat split; try lia.
  unfold slot. rewrite Nat.add_0_r.
  destruct (Nat.ltb_spec (writeCursor (_chBufferPosn s)) (capacity (_chBufferPosn s))); lia.
Qed.

Lemma write_wf ch s : ring_wf s -> ring_wf (fst (write ch s)).
Proof.
  intros Hwf. destruct (_isPaused s) eqn:Hp.
  - destruct (Nat.lt_ge_cases (count (_chBufferPosn s)) (capacity (_chBufferPosn s)))
      as [Hroom|Hfull].
    + destruct (write_paused_room ch s Hp Hwf Hroom) as (-> & Hwf' & _). exact Hwf'.
    + now rewrite write_paused_full.
  - destruct (write_unpaused_pause_fields ch s Hp) as (_ & Hb & Hr & _).
    now apply (ring_wf_ext s).
Qed.

Lemma writes_wf l : forall s, ring_wf s -> ring_wf (fst (writes l s)).
Proof.
  induction l as [|c l IH]; intros s Hwf; [exact Hwf|].
  cbn [writes]. pose proof (write_wf c s Hwf) as H1.
  destruct (write c s) as [s1 e1]. cbn [fst] in H1.
  specialize (IH s1 H1). destruct (writes l s1). exact IH.
Qed.

Lemma pause_wf now s : ring_wf s -> ring_wf (pause now s).
Proof. apply ring_wf_ext; reflexivity. Qed.

Lemma handleLoggedDuringPause_wf s :
  _isPaused s = false -> ring_wf s ->
  exists s' tr,
    handleLoggedDuringPause s = Some (s', tr)
    /\ ring_wf s' /\ _isPaused s' = false /\ count (_chBufferPosn s') = 0
    /\ _pauseTimeMs s' = _pauseTimeMs s.
Proof.
  intros Hp Hwf. rewrite handleLoggedDuringPause_unpaused by assumption.
  destruct (writes_unpaused_pause_fields (buffered s) s Hp) as (Hp' & Hb & _ & _ & Hd).
  eexists _, _. split; [reflexivity|]. st_simpl.
  split; [now apply drained_wf|]. auto.
Qed.

Lemma resume_wf s :
  ring_wf s ->
  exists s' tr, resume s = Some (s', tr) /\ ring_wf s'.
Proof.
  intros Hwf. unfold resume. destruct (_isPaused s) eqn:Hp.
  - destruct (handleLoggedDuringPause_wf (set_isPaused false s) eq_refl)
      as (s' & tr & H & Hwf' & _).
    + now apply (ring_wf_ext s).
    + eauto.
  - eauto.
Qed.

Lemma service_pump_frame s :
  exists w, fst (service_pump s) = set_wifiClient w s.
Proof.
  unfold service_pump.
  destruct (wc_connected (_wifiClient s)).
  - destruct (0 <? _); cbn [fst]; [eauto|].
    exists (_wifiClient s). destruct s; reflexivity.
  - exists (_wifiClient s). destruct s; reflexivity.
Qed.

Lemma service_wf c tp now s :
  ring_wf s ->
  exists s' tr, service c tp now s = Some (s', tr) /\ ring_wf s'.
Proof.
  intros Hwf. unfold service.
  destruct (service_pump_frame s) as (w & Hw).
  destruct (service_pump s) as [s1 e1]. cbn [fst] in Hw. subst s1.
  assert (Hwf1 : ring_wf (set_wifiClient w s)) by now apply (ring_wf_ext s).
  assert (Hstep : exists s2 e2,
             (if Ascii.eqb c ASCII_XOFF then Some (pause tp (set_wifiClient w s), [])
              else if Ascii.eqb c ASCII_XON then resume (set_wifiClient w s)
              else Some (set_wifiClient w s, [])) = Some (s2, e2) /\ ring_wf s2).
  { destruct (Ascii.eqb c ASCII_XOFF).
    - eexists _, _. split; [reflexivity|]. now apply pause_wf.
    - destruct (Ascii.eqb c ASCII_XON); [now apply resume_wf | eauto]. }
  destruct Hstep as (s2 & e2 & -> & Hwf2).
  destruct (_isPaused s2 && isTimeout now (_pauseStartedMs s2) (_pauseTimeMs s2)).
  - destruct (handleLoggedDuringPause_wf (set_isPaused false s2) eq_refl)
      as (s3 & e3 & -> & Hwf3 & _).
    + now apply (ring_wf_ext s2).
    + eauto.
  - eauto.
Qed.

(** ** Pause, burst, resume *)

Lemma pausedBurst_replay now burst s :
  _isPaused s = false -> ring_wf s -> count (_chBufferPosn s) = 0 ->
  exists buf r,
    pausedBurst now burst s
    = Some (with_pause_data now buf r
              (fst (writes (take (capacity (_chBufferPosn s)) burst) s)),
            snd (writes (take (capacity (_chBufferPosn s)) burst) s))
    /\ count r = 0 /\ capacity r = capacity (_chBufferPosn s).
Proof.
  intros Hp Hwf Hn. unfold pausedBurst.
  destruct (writes_paused burst (pause now s) eq_refl (pause_wf now s Hwf))
    as (buf & r & Hws & Hwf3 & Hcap & Hb).
  rewrite Hws.
  rewrite resume_paused; [|reflexivity|exact Hwf3].
  rewrite Hb.
  change (buffered (pause now s)) with (buffered s).
  rewrite (buffered_nil s Hn). cbn [app].
  change (_chBufferPosn (pause now s)) with (_chBufferPosn s).
  rewrite Hn, Nat.sub_0_r.
  replace (set_isPaused false (set_chBufferPosn r (set_pChBuffer buf (pause now s))))
    with (with_pause_data now buf r s)
    by (destruct s; cbn in Hp; subst; reflexivity).
  rewrite writes_frame by assumption. cbn [fst snd app].
  exists buf, (drained r). split; [reflexivity|].
  split; [reflexivity|exact Hcap].
Qed.

(** ** Decimal text of an [int] and back *)

Lemma digit_cases (d : Z) :
  (0 <= d < 10)%Z ->
  d = 0%Z \/ d = 1%Z \/ d = 2%Z \/ d = 3%Z \/ d = 4%Z \/ d = 5%Z
  \/ d = 6%Z \/ d = 7%Z \/ d = 8%Z \/ d = 9%Z.
Proof. lia. Qed.

Lemma digit_char_spec (d : Z) :
  (0 <= d < 10)%Z ->
  Str.is_digit (Str.digit_char d) = true
  /\ Str.digit_val (Str.digit_char d) = d
  /\ Str.is_space (Str.digit_char d) = false
  /\ Str.digit_char d <> "-"%char /\ Str.digit_char d <> "+"%char.
Proof.
  intros H. apply digit_cases in H.
  repeat (destruct H as [H|H]); subst d; repeat split; discriminate.
Qed.

Lemma parse_digit_cons (a d : Z) (s : string) :
  (0 <= d < 10)%Z ->
  Str.parse_digits a (String (Str.digit_char d) s)
  = Str.parse_digits (10 * a + d) s.
Proof.
  intros H. destruct (digit_char_spec d H) as (Hd & Hv & _).
  cbn [Str.parse_digits]. now rewrite Hd, Hv.
Qed.

Lemma parse_utoa (fuel : nat) :
  forall n acc a,
    (0 <= n < 2 ^ (Z.of_nat fuel + 1))%Z ->
    exists k, (0 <= k)%Z /\
      Str.parse_digits a (Str.utoa fuel n acc)
      = Str.parse_digits (a * 10 ^ k + n) acc.
Proof.
  induction fuel as [|fuel IH]; intros n acc a Hn.
  - exists 1%Z. split; [lia|]. cbn [Str.utoa].
    change (2 ^ (Z.of_nat 0 + 1))%Z with 2%Z in Hn.
    rewrite Z.mod_small by lia. rewrite parse_digit_cons by lia.
    f_equal. lia.
  - cbn [Str.utoa]. destruct (Z.ltb_spec n 10) as [Hlt|Hge].
    + exists 1%Z. split; [lia|].
      rewrite Z.mod_small by lia. rewrite parse_digit_cons by lia.
      f_equal. lia.
    + assert (Hdiv : (0 <= n / 10 < 2 ^ (Z.of_nat fuel + 1))%Z).
      { split; [apply Z.div_pos; lia|].
        apply Z.div_lt_upper_bound; [lia|].
        rewrite Nat2Z.inj_succ in Hn.
        replace (Z.succ (Z.of_nat fuel) + 1)%Z with (Z.succ (Z.of_nat fuel + 1)) in Hn by lia.
        rewrite Z.pow_succ_r in Hn by lia. lia. }
      destruct (IH (n / 10)%Z (String (Str.digit_char (n mod 10)) acc) a Hdiv)
        as (k & Hk & E).
      exists (k + 1)%Z. split; [lia|]. rewrite E.
      rewrite parse_digit_cons by (apply Z.mod_pos_bound; lia).
      f_equal. rewrite Z.pow_add_r by lia.
      pose proof (Z.div_mod n 10 ltac:(lia)). lia.
Qed.

Lemma utoa_head (fuel : nat) :
  forall n acc,
    (0 <= n)%Z ->
    exists d rest, (0 <= d < 10)%Z
                   /\ Str.utoa fuel n acc = String (Str.digit_char d) rest.
Proof.
  induction fuel as [|fuel IH]; intros n acc Hn; cbn [Str.utoa].
  - exists (n mod 10)%Z, acc. split; [apply Z.mod_pos_bound; lia | reflexivity].
  - destruct (n <? 10)%Z.
    + exists (n mod 10)%Z, acc. split; [apply Z.mod_pos_bound; lia | reflexivity].
    + apply IH. apply Z.div_pos; lia.
Qed.

Lemma log2_fuel (n : Z) :
  (0 <= n)%Z -> (0 <= n < 2 ^ (Z.of_nat (Z.to_nat (Z.log2 n)) + 1))%Z.
Proof.
  intros Hn. rewrite Z2Nat.id by apply Z.log2_nonneg.
  destruct (Z.eq_dec n 0%Z) as [->|Hz]; [cbn; lia|].
  pose proof (Z.log2_spec n ltac:(lia)). lia.
Qed.

Lemma parse_unsigned_text (n : Z) :
  (0 <= n)%Z ->
  Str.parse_digits 0 (Str.utoa (Z.to_nat (Z.log2 n)) n EmptyString) = n.
Proof.
  intros Hn.
  destruct (parse_utoa _ n EmptyString 0%Z (log2_fuel n Hn)) as (k & _ & E).
  rewrite E. cbn [Str.parse_digits]. lia.
Qed.

(** Reading back the decimal text of a number gives the number. *)
Lemma atoi_itoa (n : Z) : Str.atoi (Str.itoa n) = n.
Proof.
  unfold Str.atoi, Str.itoa. destruct (Z.ltb_spec n 0) as [Hneg|Hpos].
  - cbn [Str.skip_space]. change (Str.is_space "-") with false. cbv iota.
    cbn [Str.parse_signed]. rewrite parse_unsigned_text by lia. lia.
  - pose proof (parse_unsigned_text n Hpos) as E.
    destruct (utoa_head (Z.to_nat (Z.log2 n)) n EmptyString Hpos)
      as (d & rest & Hd & Hu).
    rewrite Hu in *.
    destruct (digit_char_spec d Hd) as (_ & _ & Hs & Hm & Hp).
    cbn [Str.skip_space]. rewrite Hs.
    apply digit_cases in Hd.
    repeat (destruct Hd as [Hd|Hd]); subst d; exact E.
Qed.

(** ** The service tick and the pause timeout *)

Lemma service_pump_pause_fields s :
  _isPaused (fst (service_pump s)) = _isPaused s
  /\ _pChBuffer (fst (service_pump s)) = _pChBuffer s
  /\ _chBufferPosn (fst (service_pump s)) = _chBufferPosn s
  /\ _pauseStartedMs (fst (service_pump s)) = _pauseStartedMs s
  /\ _pauseTimeMs (fst (service_pump s)) = _pauseTimeMs s.
Proof.
  destruct (service_pump_frame s) as (w & ->). repeat split; reflexivity.
Qed.

(** A tick that finds the pause timed out replays the buffer. The pause
    whose age is measured is the one in force at the check: the one just
    started when the control byte is XOFF, the pending one otherwise. *)
Lemma service_timeout c tp now s :
  ring_wf s -> _isPaused s = true ->
  isTimeout now (if Ascii.eqb c ASCII_XOFF then tp else _pauseStartedMs s)
    (_pauseTimeMs s) = true ->
  service c tp now s
  = Some (set_chBufferPosn (drained (_chBufferPosn s))
            (fst (writes (buffered s)
                    (set_pauseStartedMs
                       (if Ascii.eqb c ASCII_XOFF then tp else _pauseStartedMs s)
                       (set_isPaused false (fst (service_pump s)))))),
          snd (service_pump s)
            ++ snd (writes (buffered s)
                      (set_pauseStartedMs
                         (if Ascii.eqb c ASCII_XOFF then tp else _pauseStartedMs s)
                         (set_isPaused false (fst (service_pump s)))))).
Proof.
  intros Hwf Hp Ht. unfold service.
  destruct (service_pump_frame s) as (w & Hw).
  destruct (service_pump s) as [s1 e1]. cbn [fst snd] in *. subst s1.
  assert (Hwf1 : ring_wf (set_wifiClient w s)) by now apply (ring_wf_ext s).
  assert (Hs : forall t, t = _pauseStartedMs s ->
             set_pauseStartedMs t (set_isPaused false (set_wifiClient w s))
             = set_isPaused false (set_wifiClient w s)).
  { intros t ->. destruct s; reflexivity. }
  destruct (Ascii.eqb c ASCII_XOFF).
  - (* XOFF: the pause is restarted, then found timed out *)
    unfold pause. st_simpl. rewrite Ht. cbn [andb].
    rewrite handleLoggedDuringPause_unpaused;
      [| reflexivity | now apply (ring_wf_ext s)].
    reflexivity.
  - rewrite (Hs _ eq_refl).
    destruct (Ascii.eqb c ASCII_XON).
    + (* XON: explicit resume *)
      rewrite resume_paused by assumption.
      destruct (writes_unpaused_pause_fields (buffered (set_wifiClient w s))
                  (set_isPaused false (set_wifiClient w s)) eq_refl) as (Hp2 & _).
      st_simpl. rewrite Hp2. cbn [andb]. reflexivity.
    + st_simpl. rewrite Hp, Ht. cbn [andb].
      rewrite handleLoggedDuringPause_unpaused;
        [| reflexivity | now apply (ring_wf_ext s)].
      reflexivity.
Qed.

(** A tick without control byte that finds the pause still young leaves
    it as it is. *)
Lemma service_still_paused now s :
  _isPaused s = true ->
  isTimeout now (_pauseStartedMs s) (_pauseTimeMs s) = false ->
  service "000" now now s = Some (fst (service_pump s), snd (service_pump s)).
Proof.
  intros Hp Ht. unfold service.
  destruct (service_pump_pause_fields s) as (Hp1 & _ & _ & Hs1 & Hd1).
  destruct (service_pump s) as [s1 e1]. cbn [fst snd] in *.
  change (Ascii.eqb "000" ASCII_XOFF) with false.
  change (Ascii.eqb "000" ASCII_XON) with false. cbv iota.
  rewrite Hp1, Hs1, Hd1, Hp, Ht. cbn [andb]. now rewrite app_nil_r.
Qed.

Lemma service_unpaused now s :
  _isPaused s = false ->
  service "000" now now s = Some (fst (service_pump s), snd (service_pump s)).
Proof.
  intros Hp. unfold service.
  destruct (service_pump_pause_fields s) as (Hp1 & _).
  destruct (service_pump s) as [s1 e1]. cbn [fst snd] in *.
  change (Ascii.eqb "000" ASCII_XOFF) with false.
  change (Ascii.eqb "000" ASCII_XON) with false. cbv iota.
  rewrite Hp1, Hp. cbn [andb]. now rewrite app_nil_r.
Qed.

Lemma service_ticks_unpaused times :
  forall s,
    _isPaused s = false -> count (_chBufferPosn s) = 0 ->
    exists s' tr,
      service_ticks times s = Some (s', tr)
      /\ _isPaused s' = false /\ count (_chBufferPosn s') = 0.
Proof.
  induction times as [|now times IH]; intros s Hp Hn; [cbn; eauto|].
  cbn [service_ticks]. rewrite service_unpaused by assumption.
  destruct (service_pump_pause_fields s) as (Hp1 & _ & Hr1 & _).
  destruct (IH (fst (service_pump s))) as (s' & tr & -> & H); [congruence ..|].
  eauto.
Qed.

Lemma service_ticks_timeout times :
  forall s,
    ring_wf s -> _isPaused s = true ->
    Exists (fun now => isTimeout now (_pauseStartedMs s) (_pauseTimeMs s) = true)
      times ->
    exists s' tr,
      service_ticks times s = Some (s', tr)
      /\ _isPaused s' = false /\ count (_chBufferPosn s') = 0.
Proof.
  induction times as [|now times IH]; intros s Hwf Hp Hex.
  - inversion Hex.
  - cbn [service_ticks].
    destruct (isTimeout now (_pauseStartedMs s) (_pauseTimeMs s)) eqn:Ht.
    + rewrite (service_timeout "000" now now s Hwf Hp) by exact Ht.
      destruct (service_pump_pause_fields s) as (Hp1 & _).
      destruct (writes_unpaused_pause_fields (buffered s)
                  (set_pauseStartedMs (_pauseStartedMs s)
                     (set_isPaused false (fst (service_pump s)))) eq_refl)
        as (Hp2 & _).
      change (if Ascii.eqb "000" ASCII_XOFF then now else _pauseStartedMs s)
        with (_pauseStartedMs s).
      match goal with
      | |- context [service_ticks times ?x] =>
          destruct (service_ticks_unpaused times x) as (s' & tr & -> & H);
            [exact Hp2 | reflexivity | eauto]
      end.
    + rewrite service_still_paused by assumption.
      destruct (service_pump_pause_fields s) as (Hp1 & Hb1 & Hr1 & Hs1 & Hd1).
      destruct (IH (fst (service_pump s))) as (s' & tr & -> & H).
      * now apply (ring_wf_ext s).
      * congruence.
      * rewrite Hs1, Hd1. inversion Hex; subst; [congruence|assumption].
      * eauto.
Qed.

(** ** Configuration setters and the write-back *)

Lemma persistEvents_persist s : persistEvents (persist s) = persist s.
Proof. unfold persist. destruct (_pConfigBase s); reflexivity. Qed.

Lemma persistEvents_serialNote s t : persistEvents (serialNote s t) = [].
Proof. unfold serialNote. destruct (serialEnabled s); reflexivity. Qed.

Lemma persist_attached s s' :
  _pConfigBase s' = _pConfigBase s ->
  persist s' = match _pConfigBase s with
               | Some _ => writeBack s'
               | None => []
               end.
Proof. unfold persist. now intros ->. Qed.

Lemma setLogLevel_unchanged str s :
  (_loggingThreshold s
   =? levelOfChar (Str.toupper (Str.first_char str)))%Z = true
  <-> fst (setLogLevel str s) = s.
Proof.
  rewrite Z.eqb_eq. unfold setLogLevel. split.
  - intros E. rewrite <- E. rewrite Z.eqb_refl. destruct s; reflexivity.
  - intros E. apply (f_equal _loggingThreshold) in E.
    destruct (negb _); cbn [fst] in E; st_simpl_in E; congruence.
Qed.

Lemma setLogLevel_persists str s : persistsIffChanged s (setLogLevel str s).
Proof.
  pose proof (setLogLevel_unchanged str s) as Hiff.
  unfold persistsIffChanged, setLogLevel in *.
  destruct (_loggingThreshold s =? _)%Z; cbn [negb fst snd] in *; split; intros H.
  - apply persistEvents_serialNote.
  - exfalso. apply H, Hiff. reflexivity.
  - apply Hiff in H. discriminate.
  - unfold persistEvents. rewrite List.filter_app.
    fold (persistEvents (persist (set_loggingThreshold
            (levelOfChar (Str.toupper (Str.first_char str))) s))).
    rewrite persistEvents_persist.
    fold (persistEvents (serialNote (set_loggingThreshold
            (levelOfChar (Str.toupper (Str.first_char str))) s)
            ("NetLog: LogLevel set to "
               +:+ Str.itoa (_loggingThreshold (set_loggingThreshold
                     (levelOfChar (Str.toupper (Str.first_char str))) s))
               +:+ Str.of_char Str.nl))).
    rewrite persistEvents_serialNote, app_nil_r.
    now apply persist_attached.
Qed.

Lemma bool_eqb_true (a b : bool) : Bool.eqb a b = true <-> a = b.
Proof. destruct a, b; cbn; intuition congruence. Qed.

Lemma setMQTT_unchanged flag topic s :
  Bool.eqb (_logToMQTT s) flag && String.eqb (_mqttLogTopic s) topic = true
  <-> fst (setMQTT flag topic s) = s.
Proof.
  rewrite andb_true_iff, bool_eqb_true, String.eqb_eq. unfold setMQTT. split.
  - intros [<- <-]. destruct (_ || _); destruct s; reflexivity.
  - intros E. split.
    + apply (f_equal _logToMQTT) in E.
      destruct (_ || _); cbn [fst] in E; st_simpl_in E; congruence.
    + apply (f_equal _mqttLogTopic) in E.
      destruct (_ || _); cbn [fst] in E; st_simpl_in E; congruence.
Qed.

Lemma setMQTT_persists flag topic s : persistsIffChanged s (setMQTT flag topic s).
Proof.
  pose proof (setMQTT_unchanged flag topic s) as Hiff.
  unfold persistsIffChanged, setMQTT in *.
  destruct (Bool.eqb (_logToMQTT s) flag), (String.eqb (_mqttLogTopic s) topic);
    cbn [negb orb andb fst snd] in *; split; intros H;
    try reflexivity;
    try (exfalso; apply H, Hiff; reflexivity);
    try (apply Hiff in H; discriminate);
    (rewrite persistEvents_persist; now apply persist_attached).
Qed.

Lemma setCmdSerial_unchanged flag s :
  (_logToCommandSerial s =? int_of_bool flag)%Z = true
  <-> fst (setCmdSerial flag s) = s.
Proof.
  rewrite Z.eqb_eq. unfold setCmdSerial. split.
  - intros E. rewrite <- E. rewrite Z.eqb_refl. destruct s; reflexivity.
  - intros E. apply (f_equal _logToCommandSerial) in E.
    destruct (negb _); cbn [fst] in E; st_simpl_in E; congruence.
Qed.

Lemma setCmdSerial_persists flag s : persistsIffChanged s (setCmdSerial flag s).
Proof.
  pose proof (setCmdSerial_unchanged flag s) as Hiff.
  unfold persistsIffChanged, setCmdSerial in *.
  destruct (_logToCommandSerial s =? _)%Z; cbn [negb fst snd] in *; split; intros H;
    try reflexivity;
    try (exfalso; apply H, Hiff; reflexivity);
    try (apply Hiff in H; discriminate);
    (rewrite persistEvents_persist; now apply persist_attached).
Qed.

Lemma setHTTP_unchanged flag ip port url s :
  Bool.eqb (_logToHTTP s) flag
  && String.eqb (_httpLogUrl s) (httpLogUrlValidated url s)
  && String.eqb (_httpIpAddr s) (ipAddrValidated ip s)
  && (_httpPort s =? portValidated port s)%Z = true
  <-> fst (setHTTP flag ip port url s) = s.
Proof.
  rewrite !andb_true_iff, bool_eqb_true, !String.eqb_eq, Z.eqb_eq.
  unfold setHTTP. split.
  - intros [[[<- <-] <-] <-]. destruct (_ || _); destruct s; reflexivity.
  - intros E. repeat split.
    + apply (f_equal _logToHTTP) in E.
      destruct (_ || _); cbn [fst] in E; st_simpl_in E; congruence.
    + apply (f_equal _httpLogUrl) in E.
      destruct (_ || _); cbn [fst] in E; st_simpl_in E; congruence.
    + apply (f_equal _httpIpAddr) in E.
      destruct (_ || _); cbn [fst] in E; st_simpl_in E; congruence.
    + apply (f_equal _httpPort) in E.
      destruct (_ || _); cbn [fst] in E; st_simpl_in E; congruence.
Qed.

Lemma setHTTP_persists flag ip port url s :
  persistsIffChanged s (setHTTP flag ip port url s).
Proof.
  pose proof (setHTTP_unchanged flag ip port url s) as Hiff.
  unfold persistsIffChanged, setHTTP in *.
  destruct (Bool.eqb (_logToHTTP s) flag),
    (String.eqb (_httpLogUrl s) (httpLogUrlValidated url s)),
    (String.eqb (_httpIpAddr s) (ipAddrValidated ip s)),
    (_httpPort s =? portValidated port s)%Z;
    cbn [negb orb andb fst snd] in *; split; intros H;
    try apply persistEvents_serialNote;
    try (exfalso; apply H, Hiff; reflexivity);
    try (apply Hiff in H; discriminate);
    (rewrite persistEvents_persist; now apply persist_attached).
Qed.

(** [setSerial] compares the port as text, so only one direction holds
    in general. *)
Lemma setSerial_changed flag portStr s :
  fst (setSerial flag portStr s) <> s ->
  persistEvents (snd (setSerial flag portStr s))
  = match _pConfigBase s with
    | Some _ => writeBack (fst (setSerial flag portStr s))
    | None => []
    end.
Proof.
  unfold setSerial. intros Hne.
  destruct (Z.eqb_spec (_logToSerial s) (int_of_bool flag)) as [E1|N1];
    [destruct (String.eqb_spec (Str.itoa (_serialPort s)) portStr) as [E2|N2]|];
    cbn [negb orb fst snd] in *.
  - exfalso. apply Hne. rewrite <- E1, <- E2, atoi_itoa. destruct s; reflexivity.
  - rewrite persistEvents_persist. now apply persist_attached.
  - rewrite persistEvents_persist. now apply persist_attached.
Qed.

Lemma setSerial_canonical flag s :
  _logToSerial s = int_of_bool flag ->
  fst (setSerial flag (Str.itoa (_serialPort s)) s) = s
  /\ persistEvents (snd (setSerial flag (Str.itoa (_serialPort s)) s)) = [].
Proof.
  intros E. unfold setSerial. rewrite <- E, Z.eqb_refl, String.eqb_refl.
  cbn [negb orb fst snd]. rewrite atoi_itoa. split; [destruct s|]; reflexivity.
Qed.

(** ** After a whole line *)

Lemma option_map_snd_some {A B : Type} (o : option (A * B)) (a : A) (b : B) :
  o = Some (a, b) -> option_map snd o = Some b.
Proof. intros ->. reflexivity. Qed.

Lemma write_http_wifi s : exists w, fst (write_http s) = set_wifiClient w s.
Proof.
  unfold write_http. destruct (_logToHTTP s); cbn [fst]; [eauto|].
  exists (_wifiClient s). destruct s; reflexivity.
Qed.

(** Once a line is complete the assembler is back at a line start, with
    the configuration as it was. *)
Lemma writes_line_after s body :
  _isPaused s = false ->
  _firstChOnLine s = true -> _collectLineForLog s = false ->
  Str.nl ∉ body ->
  let s' := fst (writes (body ++ [Str.nl]) s) in
  _isPaused s' = false /\ _firstChOnLine s' = true
  /\ _collectLineForLog s' = false
  /\ _logToMQTT s' = _logToMQTT s
  /\ _logToCommandSerial s' = _logToCommandSerial s
  /\ _logToHTTP s' = _logToHTTP s
  /\ _loggingThreshold s' = _loggingThreshold s.
Proof.
  intros Hp Hf Hc Hnl. cbv zeta. destruct (anyNetSink s) eqn:Hn.
  - rewrite writes_line by assumption. cbv zeta.
    destruct (_ <=? _)%Z; cbn [fst]; [|now repeat split].
    destruct (write_http_wifi
                (dispatchState (levelOfChar (hd Str.nl (body ++ [Str.nl])))
                   (lineText (body ++ [Str.nl])) s)) as (w & ->).
    unfold dispatchState. st_simpl. now repeat split.
  - rewrite writes_no_sink by assumption. now repeat split.
Qed.

(** The line feed always brings the assembler back to a line start, when
    the byte is accepted for line assembly. *)
Lemma write_newline_resets s :
  _isPaused s = false -> anyNetSink s = true ->
  _firstChOnLine (fst (write Str.nl s)) = true
  /\ _collectLineForLog (fst (write Str.nl s)) = false.
Proof.
  intros Hp Hn. rewrite write_unpaused by assumption.
  change (Ascii.eqb Str.nl Str.nl) with true. cbv iota. cbn [fst].
  generalize (write_collect Str.nl s). intros s1.
  unfold write_eol. st_simpl.
  destruct (_collectLineForLog s1); [|split; reflexivity].
  destruct (0 <? String.length (_msgToLog s1)); [|split; reflexivity].
  match goal with
  | |- context [write_http ?x] => destruct (write_http_wifi x) as (w & Hw);
                                   destruct (write_http x) as [s5 e5]
  end.
  cbn [fst] in Hw. subst s5. split; reflexivity.
Qed.

(** Nothing [write] does is a call on [_output]. *)
Lemma write_never_reaches_output ch s : outputEvents (snd (write ch s)) = [].
Proof.
  destruct (_isPaused s) eqn:Hp.
  - unfold write. rewrite Hp. destruct (Ring.canPut _); reflexivity.
  - destruct (anyNetSink s) eqn:Hn.
    + rewrite write_unpaused by assumption. unfold outputEvents.
      destruct (Ascii.eqb ch Str.nl); cbn [snd];
        [|now apply filter_serialEcho].
      rewrite List.filter_app, filter_serialEcho by reflexivity. cbn [app].
      generalize (write_collect ch s). intros s1.
      unfold write_eol. st_simpl.
      destruct (_collectLineForLog s1); [|reflexivity].
      destruct (0 <? String.length (_msgToLog s1)); [|reflexivity].
      match goal with
      | |- context [write_http ?x] =>
          pose proof (filter_write_http isOutput ltac:(reflexivity)
                        ltac:(reflexivity) ltac:(reflexivity)
                        ltac:(reflexivity) x) as Hh;
            destruct (write_http x) as [s5 e5]
      end.
      cbn [snd] in *. rewrite List.filter_app, Hh, app_nil_r.
      unfold write_structured. st_simpl.
      destruct (_logToMQTT s1), (bool_of_int (_logToCommandSerial s1)); reflexivity.
    + rewrite write_unpaused_no_sink by assumption.
      now apply filter_serialEcho.
Qed.

(** * The claims *)

(** ** C1 *)

(** C1. For every threshold T and every complete line fed from a line
    start, with first byte of severity S: the line reaches the MQTT sink
    if and only if S <= T and the MQTT flag is set, and the command
    serial sink if and only if S <= T and the command-serial flag is set;
    each sink gets the record once, and switching the other structured
    sink on or off changes nothing for it. *)
Theorem C1_structured_delivery (s : NetLog) (body : list ascii) :
  _isPaused s = false ->
  _firstChOnLine s = true -> _collectLineForLog s = false ->
  Str.nl ∉ body ->
  let line := body ++ [Str.nl] in
  let S := levelOfChar (hd Str.nl line) in
  let T := _loggingThreshold s in
  let tr := snd (writes line s) in
  mqttEvents tr
  = (if (S <=? T)%Z && _logToMQTT s
     then [MqttReportSilent (logStr S (lineText line))] else [])
  /\ cmdSerialEvents tr
     = (if (S <=? T)%Z && bool_of_int (_logToCommandSerial s)
        then [CmdSerialLogMessage (logStr S (lineText line))] else [])
  /\ ((exists p, In (MqttReportSilent p) tr)
      <-> ((S <= T)%Z /\ _logToMQTT s = true))
  /\ ((exists p, In (CmdSerialLogMessage p) tr)
      <-> ((S <= T)%Z /\ _logToCommandSerial s <> 0%Z))
  /\ (forall v, mqttEvents (snd (writes line (set_logToCommandSerial v s)))
                = mqttEvents tr)
  /\ (forall b, cmdSerialEvents (snd (writes line (set_logToMQTT b s)))
                = cmdSerialEvents tr).
Proof.
  intros Hp Hf Hc Hnl line S T tr.
  pose proof (line_mqttEvents s body Hp Hf Hc Hnl) as Hm.
  pose proof (line_cmdSerialEvents s body Hp Hf Hc Hnl) as Hk.
  fold line S T tr in Hm, Hk.
  split; [exact Hm|]. split; [exact Hk|]. split; [|split; [|split]].
  - split.
    + intros (p & Hin). apply in_mqttEvents in Hin. rewrite Hm in Hin.
      destruct (Z.leb_spec S T), (_logToMQTT s); cbn in Hin; tauto.
    + intros (Hle & Hflag). exists (logStr S (lineText line)).
      apply in_mqttEvents. rewrite Hm, Hflag.
      apply Z.leb_le in Hle. rewrite Hle. now left.
  - split.
    + intros (p & Hin). apply in_cmdSerialEvents in Hin. rewrite Hk in Hin.
      unfold bool_of_int in Hin.
      destruct (Z.leb_spec S T), (Z.eqb_spec (_logToCommandSerial s) 0);
        cbn in Hin; tauto.
    + intros (Hle & Hflag). exists (logStr S (lineText line)).
      apply in_cmdSerialEvents. rewrite Hk. unfold bool_of_int.
      apply Z.leb_le in Hle. rewrite Hle.
      destruct (Z.eqb_spec (_logToCommandSerial s) 0); [tauto|now left].
  - intros v. rewrite Hm. unfold line.
    now rewrite (line_mqttEvents (set_logToCommandSerial v s) body).
  - intros b. rewrite Hk. unfold line.
    now rewrite (line_cmdSerialEvents (set_logToMQTT b s) body).
Qed.

Lemma C1_structured_delivery_witness :
  mqttEvents (snd (writes (bytes "Wabc" ++ [Str.nl]) mqttAtNotice))
  = [MqttReportSilent (logStr 3 "Wabc")]
  /\ mqttEvents (snd (writes (bytes "Vabc" ++ [Str.nl]) mqttAtNotice)) = [].
Proof.
  split.
  - apply (C1_structured_delivery mqttAtNotice (bytes "Wabc"));
      try reflexivity.
    intros H. repeat (apply elem_of_cons in H as [H|H]; [discriminate|]).
    inversion H.
  - apply (C1_structured_delivery mqttAtNotice (bytes "Vabc"));
      try reflexivity.
    intros H. repeat (apply elem_of_cons in H as [H|H]; [discriminate|]).
    inversion H.
Defined.

(** ** C2 *)

(** C2, as stated, fails: at threshold NOTICE a line starting with [X]
    (severity SILENT) is collected and sent to the MQTT sink with
    logLevel 0; and the byte 1, which is none of the six letters, maps
    to FATAL. *)
Lemma C2_counterexample :
  levelOfChar "X" = LOG_LEVEL_SILENT
  /\ _loggingThreshold mqttAtNotice = LOG_LEVEL_NOTICE
  /\ structuredEvents (snd (writes (bytes "Xyz" ++ [Str.nl]) mqttAtNotice))
     = [MqttReportSilent (logStr 0 "Xyz")]
  /\ structuredEvents (snd (writes (bytes "Xyz" ++ [Str.nl]) mqttAtNotice)) <> []
  /\ levelOfChar "001" = LOG_LEVEL_FATAL
  /\ levelOfChar "001" <> LOG_LEVEL_SILENT.
Proof. repeat split; try reflexivity; discriminate. Qed.

(** C2, amended. The severity of a line is fixed by its first byte: F or
    byte 1 is FATAL, E or 2 ERROR, W or 3 WARNING, N or 4 NOTICE, T or 5
    TRACE, V or 6 VERBOSE, anything else SILENT (0). A line is collected
    exactly when its severity is at most the threshold. So a SILENT line
    is collected and dispatched with level 0 at every threshold from
    SILENT to VERBOSE; only below a negative threshold is it discarded,
    and then, as for any line above the threshold, nothing reaches a
    structured sink and the state after the terminator is the state
    before the line. *)
Theorem C2_severity_and_collection (s : NetLog) (body : list ascii) :
  _isPaused s = false ->
  _firstChOnLine s = true -> _collectLineForLog s = false ->
  Str.nl ∉ body ->
  let line := body ++ [Str.nl] in
  let S := levelOfChar (hd Str.nl line) in
  let T := _loggingThreshold s in
  let tr := snd (writes line s) in
  (levelOfChar "F" = LOG_LEVEL_FATAL /\ levelOfChar "001" = LOG_LEVEL_FATAL
   /\ levelOfChar "E" = LOG_LEVEL_ERROR /\ levelOfChar "002" = LOG_LEVEL_ERROR
   /\ levelOfChar "W" = LOG_LEVEL_WARNING /\ levelOfChar "003" = LOG_LEVEL_WARNING
   /\ levelOfChar "N" = LOG_LEVEL_NOTICE /\ levelOfChar "004" = LOG_LEVEL_NOTICE
   /\ levelOfChar "T" = LOG_LEVEL_TRACE /\ levelOfChar "005" = LOG_LEVEL_TRACE
   /\ levelOfChar "V" = LOG_LEVEL_VERBOSE /\ levelOfChar "006" = LOG_LEVEL_VERBOSE
   /\ forall ch : ascii,
        ch ∉ ["F"; "E"; "W"; "N"; "T"; "V";
              "001"; "002"; "003"; "004"; "005"; "006"]%char ->
        levelOfChar ch = LOG_LEVEL_SILENT)
  /\ ((T < S)%Z -> structuredEvents tr = [] /\ fst (writes line s) = s)
  /\ ((S <= T)%Z ->
      mqttEvents tr
      = (if _logToMQTT s
         then [MqttReportSilent (logStr S (lineText line))] else [])
      /\ cmdSerialEvents tr
         = (if bool_of_int (_logToCommandSerial s)
            then [CmdSerialLogMessage (logStr S (lineText line))] else []))
  /\ (S = LOG_LEVEL_SILENT -> (0 <= T)%Z ->
      mqttEvents tr
      = (if _logToMQTT s
         then [MqttReportSilent (logStr 0 (lineText line))] else [])
      /\ cmdSerialEvents tr
         = (if bool_of_int (_logToCommandSerial s)
            then [CmdSerialLogMessage (logStr 0 (lineText line))] else [])).
Proof.
  intros Hp Hf Hc Hnl line S T tr.
  pose proof (line_mqttEvents s body Hp Hf Hc Hnl) as Hm.
  pose proof (line_cmdSerialEvents s body Hp Hf Hc Hnl) as Hk.
  fold line S T tr in Hm, Hk.
  assert (Hle : (S <= T)%Z ->
                mqttEvents tr
                = (if _logToMQTT s
                   then [MqttReportSilent (logStr S (lineText line))] else [])
                /\ cmdSerialEvents tr
                   = (if bool_of_int (_logToCommandSerial s)
                      then [CmdSerialLogMessage (logStr S (lineText line))]
                      else [])).
  { intros H. apply Z.leb_le in H. rewrite Hm, Hk, H. split; reflexivity. }
  split; [|split; [|split]].
  - repeat (split; [reflexivity|]).
    intros ch Hch. unfold levelOfChar.
    repeat match goal with
           | |- context [Ascii.eqb ch ?c] =>
               destruct (Ascii.eqb_spec ch c) as [->|_];
               [exfalso; apply Hch; apply list_elem_of_In; cbn; tauto|]
           end.
    reflexivity.
  - intros Hlt. apply Z.leb_gt in Hlt. split.
    + unfold structuredEvents, tr, line.
      rewrite filter_line by (assumption || reflexivity).
      fold line S T. rewrite Hlt. now rewrite andb_false_r.
    + destruct (anyNetSink s) eqn:Hn.
      * unfold line. rewrite writes_line by assumption. cbv zeta.
        fold line S T. now rewrite Hlt.
      * now rewrite writes_no_sink.
  - exact Hle.
  - intros HS HT.
    assert (H : (S <= T)%Z) by (rewrite HS; exact HT).
    destruct (Hle H) as [A B]. rewrite A, B, HS. split; reflexivity.
Qed.

Lemma C2_severity_and_collection_witness :
  structuredEvents (snd (writes (bytes "Vabc" ++ [Str.nl]) mqttAtNotice)) = []
  /\ fst (writes (bytes "Vabc" ++ [Str.nl]) mqttAtNotice) = mqttAtNotice.
Proof.
  apply (C2_severity_and_collection mqttAtNotice (bytes "Vabc"));
    try reflexivity.
  intros H. repeat (apply elem_of_cons in H as [H|H]; [discriminate|]).
  inversion H.
Defined.

(** ** C3 *)

(** C3 fails on the code: with the serial flag cleared by
    [setSerial(false, "0")], an accepted byte produces no call at all,
    so nothing is forwarded to any output; and [write] never calls
    [_output], whatever the state. *)
Theorem C3_primary_output_not_written :
  let s := fst (setSerial false "0" (NetLog_new [] 1000 15000)) in
  _isPaused s = false
  /\ snd (write "A" s) = []
  /\ (forall ch s', outputEvents (snd (write ch s')) = []).
Proof.
  cbv zeta. split; [reflexivity|]. split; [reflexivity|].
  apply write_never_reaches_output.
Qed.

(** ** C6 *)

(** C6 fails on the code: a line feed arriving as the first byte of a
    line is itself taken as the text of a SILENT line, the emptiness
    test is made before the line feed is stripped, and a record with an
    empty message goes to the MQTT sink. *)
Theorem C6_empty_line_is_dispatched :
  let s := fst (setMQTT true "log" (NetLog_new [] 1000 15000)) in
  _isPaused s = false /\ _firstChOnLine s = true
  /\ _loggingThreshold s = LOG_LEVEL_SILENT
  /\ snd (write Str.nl s)
     = [SerialWrite Str.nl; MqttReportSilent (logStr 0 "")]
  /\ _firstChOnLine (fst (write Str.nl s)) = true
  /\ _collectLineForLog (fst (write Str.nl s)) = false.
Proof. cbv zeta. repeat split; reflexivity. Qed.

(** ** C10 *)

(** C10. While not paused and with the MQTT, HTTP and command-serial
    sinks all disabled, [write] returns the state it was given: the
    line-assembly fields and the pause buffer are untouched, and the
    only call made is the copy to [Serial], if enabled. *)
Theorem C10_no_sink_frame (ch : ascii) (s : NetLog) :
  _isPaused s = false ->
  _logToMQTT s = false -> _logToHTTP s = false ->
  _logToCommandSerial s = 0%Z ->
  fst (write ch s) = s
  /\ snd (write ch s) = serialEcho s [ch]
  /\ _firstChOnLine (fst (write ch s)) = _firstChOnLine s
  /\ _collectLineForLog (fst (write ch s)) = _collectLineForLog s
  /\ _msgToLog (fst (write ch s)) = _msgToLog s
  /\ _curMsgLogLevel (fst (write ch s)) = _curMsgLogLevel s
  /\ _pChBuffer (fst (write ch s)) = _pChBuffer s
  /\ _chBufferPosn (fst (write ch s)) = _chBufferPosn s.
Proof.
  intros Hp Hm Hh Hc.
  assert (Hn : anyNetSink s = false).
  { unfold anyNetSink. now rewrite Hm, Hh, Hc. }
  rewrite write_unpaused_no_sink by assumption. now repeat split.
Qed.

Lemma C10_no_sink_frame_witness :
  fst (write "W" (NetLog_new [] 16 15000)) = NetLog_new [] 16 15000.
Proof.
  apply (C10_no_sink_frame "W" (NetLog_new [] 16 15000)); reflexivity.
Defined.

(** ** C9 *)

(** C9, as stated, fails: carriage returns are collected and then
    stripped, so a line of 300 bytes other than the line feed, one of
    whose first 250 is a carriage return, is dispatched with 249
    characters.  A NUL among the first 250 bytes shortens the text as
    well: the record is built from the line buffer read as a C string,
    so 'W' followed by 299 NUL bytes is dispatched as the text "W". *)
Lemma C9_counterexample :
  let s := fst (setLogLevel "V" (fst (setMQTT true "log" (NetLog_new [] 16 15000)))) in
  let body := ("W" :: Str.cr :: replicate 298 "a")%char in
  let text := string_of_list_ascii ("W"%char :: replicate 248 "a"%char) in
  let body0 := ("W" :: replicate 299 "000")%char in
  length body = 300
  /\ forallb (fun c => negb (Ascii.eqb c Str.nl)) body = true
  /\ mqttEvents (snd (writes (body ++ [Str.nl]) s))
     = [MqttReportSilent (logStr 3 text)]
  /\ String.length text = 249
  /\ String.length text <> 250
  /\ length body0 = 300
  /\ forallb (fun c => negb (Ascii.eqb c Str.nl) && negb (Ascii.eqb c Str.cr))
       body0 = true
  /\ mqttEvents (snd (writes (body0 ++ [Str.nl]) s))
     = [MqttReportSilent (logStr 3 "W")].
Proof.
  cbv zeta.
  repeat split; try (vm_compute; reflexivity). vm_compute. discriminate.
Qed.

Lemma lineText_long body :
  LOG_LINE_MAXLEN <= length body ->
  "000"%char ∉ body -> Str.nl ∉ body -> Str.cr ∉ body ->
  lineText (body ++ [Str.nl])
  = string_of_list_ascii (take LOG_LINE_MAXLEN body)
  /\ String.length (string_of_list_ascii (take LOG_LINE_MAXLEN body))
     = LOG_LINE_MAXLEN.
Proof.
  intros Hlen H0 Hnl Hcr. unfold lineText.
  assert (Hsub : forall c, c ∉ body -> c ∉ take LOG_LINE_MAXLEN body).
  { intros c Hc Hin. apply Hc.
    apply elem_of_take in Hin as (i & Hi & _).
    apply list_elem_of_lookup. eauto. }
  assert (Hbuf : lineBuffer (body ++ [Str.nl])
                 = string_of_list_ascii (take LOG_LINE_MAXLEN body)).
  { destruct body as [|c rest] eqn:Eb; [cbn in Hlen; unfold LOG_LINE_MAXLEN in Hlen; lia|].
    change ((c :: rest) ++ [Str.nl]) with (c :: (rest ++ [Str.nl])).
    rewrite lineBuffer_take
      by (intros ->; apply H0, list_elem_of_here).
    change (c :: rest ++ [Str.nl]) with ((c :: rest) ++ [Str.nl]).
    now rewrite take_app_le by exact Hlen. }
  rewrite Hbuf.
  rewrite (replace_absent Str.nl) by auto.
  rewrite (replace_absent Str.cr) by auto.
  split; [reflexivity|].
  rewrite string_of_list_length, length_take. lia.
Qed.

(** C9, amended. For every line of 300 bytes, none of them a line feed,
    a carriage return or a NUL, followed by the line feed, fed from a
    line start with a severity within the threshold: each enabled
    structured sink receives one record whose text is the first 250
    bytes of the line, exactly 250 characters; the bytes after the 250th
    are dropped, and the line buffer is empty again afterwards. *)
Theorem C9_line_cap (s : NetLog) (body : list ascii) :
  _isPaused s = false ->
  _firstChOnLine s = true -> _collectLineForLog s = false ->
  length body = 300 ->
  Str.nl ∉ body -> Str.cr ∉ body -> "000"%char ∉ body ->
  (levelOfChar (hd Str.nl body) <= _loggingThreshold s)%Z ->
  let S := levelOfChar (hd Str.nl body) in
  let text := string_of_list_ascii (take 250 body) in
  let tr := snd (writes (body ++ [Str.nl]) s) in
  String.length text = 250
  /\ mqttEvents tr
     = (if _logToMQTT s then [MqttReportSilent (logStr S text)] else [])
  /\ cmdSerialEvents tr
     = (if bool_of_int (_logToCommandSerial s)
        then [CmdSerialLogMessage (logStr S text)] else [])
  /\ (anyNetSink s = true ->
      _msgToLog (fst (writes (body ++ [Str.nl]) s)) = EmptyString).
Proof.
  intros Hp Hf Hc Hlen Hnl Hcr H0 Hle S text tr.
  assert (Hlong : LOG_LINE_MAXLEN <= length body).
  { rewrite Hlen. unfold LOG_LINE_MAXLEN. lia. }
  destruct (lineText_long body Hlong H0 Hnl Hcr) as (Htext & Hl).
  assert (Hhd : hd Str.nl (body ++ [Str.nl]) = hd Str.nl body).
  { destruct body; [discriminate Hlen | reflexivity]. }
  pose proof (line_mqttEvents s body Hp Hf Hc Hnl) as Hm.
  pose proof (line_cmdSerialEvents s body Hp Hf Hc Hnl) as Hk.
  rewrite Hhd, Htext in Hm, Hk. apply Z.leb_le in Hle.
  rewrite Hle in Hm, Hk.
  split; [exact Hl|]. split; [exact Hm|]. split; [exact Hk|].
  intros Hn. rewrite writes_line by assumption. cbv zeta.
  rewrite Hhd, Hle. reflexivity.
Qed.

Lemma C9_line_cap_witness :
  let s := fst (setLogLevel "V" (fst (setMQTT true "log" (NetLog_new [] 16 15000)))) in
  let body := ("W" :: replicate 299 "a")%char in
  String.length (string_of_list_ascii (take 250 body)) = 250
  /\ mqttEvents (snd (writes (body ++ [Str.nl]) s))
     = [MqttReportSilent
          (logStr 3 (string_of_list_ascii (take 250 body)))].
Proof.
  cbv zeta.
  assert (Hno : forall c : ascii,
             c <> "W"%char -> c <> "a"%char ->
             c ∉ ("W" :: replicate 299 "a")%char).
  { intros c H1 H2 Hin. apply elem_of_cons in Hin as [Hin|Hin]; [congruence|].
    apply elem_of_replicate in Hin as [Hin _]. congruence. }
  pose proof (C9_line_cap
                (fst (setLogLevel "V" (fst (setMQTT true "log" (NetLog_new [] 16 15000)))))
                ("W" :: replicate 299 "a")%char
                eq_refl eq_refl eq_refl eq_refl
                (Hno Str.nl ltac:(discriminate) ltac:(discriminate))
                (Hno Str.cr ltac:(discriminate) ltac:(discriminate))
                (Hno "000"%char ltac:(discriminate) ltac:(discriminate))
                ltac:(vm_compute; discriminate)) as (H1 & H2 & _).
  split; [exact H1 | exact H2].
Defined.

(** ** C4 *)

(** C4. With a pause buffer of at least 10 bytes, empty at the start:
    feeding [Wabc\n] live, pausing, feeding [Edef\n] and resuming makes
    exactly the calls that feeding [Wabc\nEdef\n] live would make, in
    the same order (no byte lost, none doubled), ends not paused with an
    empty buffer and with the state live feeding would reach but for the
    pause bookkeeping; and when both lines are within the threshold and
    the MQTT sink is enabled, the WARNING record comes before the ERROR
    record. *)
Theorem C4_pause_resume_fifo (s : NetLog) (now : Z) :
  _isPaused s = false -> ring_wf s ->
  count (_chBufferPosn s) = 0 -> 10 <= capacity (_chBufferPosn s) ->
  let live := bytes "Wabc" ++ [Str.nl] in
  let held := bytes "Edef" ++ [Str.nl] in
  let s1 := fst (writes live s) in
  exists buf r,
    pausedBurst now held s1
    = Some (with_pause_data now buf r (fst (writes (live ++ held) s)),
            snd (writes held s1))
    /\ snd (writes live s) ++ snd (writes held s1)
       = snd (writes (live ++ held) s)
    /\ count r = 0
    /\ _isPaused (with_pause_data now buf r (fst (writes (live ++ held) s)))
       = false
    /\ (_firstChOnLine s = true -> _collectLineForLog s = false ->
        _logToMQTT s = true ->
        (LOG_LEVEL_WARNING <= _loggingThreshold s)%Z ->
        mqttEvents (snd (writes live s) ++ snd (writes held s1))
        = [MqttReportSilent (logStr LOG_LEVEL_WARNING "Wabc");
           MqttReportSilent (logStr LOG_LEVEL_ERROR "Edef")]).
Proof.
  intros Hp Hwf Hn Hcap live held s1.
  destruct (writes_unpaused_pause_fields live s Hp) as (Hp1 & Hb1 & Hr1 & _).
  fold s1 in Hp1, Hb1, Hr1.
  assert (Hwf1 : ring_wf s1) by now apply (ring_wf_ext s).
  assert (Hn1 : count (_chBufferPosn s1) = 0) by congruence.
  destruct (pausedBurst_replay now held s1 Hp1 Hwf1 Hn1)
    as (buf & r & Hrun & Hr0 & _).
  assert (Htake : take (capacity (_chBufferPosn s1)) held = held).
  { apply take_ge. rewrite Hr1. cbn. lia. }
  rewrite Htake in Hrun.
  exists buf, r. rewrite writes_app. fold s1. cbn [fst snd].
  split; [exact Hrun|]. split; [reflexivity|]. split; [exact Hr0|].
  split.
  - destruct (writes_unpaused_pause_fields held s1 Hp1) as (Hp2 & _).
    exact Hp2.
  - intros Hf Hc Hm Hle.
    assert (Hnl1 : Str.nl ∉ bytes "Wabc").
    { intros H. repeat (apply elem_of_cons in H as [H|H]; [discriminate|]).
      inversion H. }
    assert (Hnl2 : Str.nl ∉ bytes "Edef").
    { intros H. repeat (apply elem_of_cons in H as [H|H]; [discriminate|]).
      inversion H. }
    destruct (writes_line_after s (bytes "Wabc") Hp Hf Hc Hnl1)
      as (_ & Hf1 & Hc1 & Hm1 & _ & _ & Ht1).
    fold live s1 in Hf1, Hc1, Hm1, Ht1.
    unfold mqttEvents. rewrite List.filter_app.
    fold (mqttEvents (snd (writes live s))).
    fold (mqttEvents (snd (writes held s1))).
    unfold live, held.
    rewrite (line_mqttEvents s (bytes "Wabc")) by assumption.
    rewrite (line_mqttEvents s1 (bytes "Edef")) by assumption.
    rewrite Hm1, Ht1, Hm.
    change (levelOfChar (hd Str.nl (bytes "Wabc" ++ [Str.nl])))
      with LOG_LEVEL_WARNING.
    change (levelOfChar (hd Str.nl (bytes "Edef" ++ [Str.nl])))
      with LOG_LEVEL_ERROR.
    assert (H3 : (LOG_LEVEL_WARNING <=? _loggingThreshold s)%Z = true)
      by now apply Z.leb_le.
    assert (H2 : (LOG_LEVEL_ERROR <=? _loggingThreshold s)%Z = true).
    { apply Z.leb_le. unfold LOG_LEVEL_ERROR, LOG_LEVEL_WARNING in *. lia. }
    rewrite H3, H2. reflexivity.
Qed.

Lemma C4_pause_resume_fifo_witness :
  let s1 := fst (writes (bytes "Wabc" ++ [Str.nl]) mqttAtNotice) in
  mqttEvents (snd (writes (bytes "Wabc" ++ [Str.nl]) mqttAtNotice)
                ++ snd (writes (bytes "Edef" ++ [Str.nl]) s1))
  = [MqttReportSilent (logStr LOG_LEVEL_WARNING "Wabc");
     MqttReportSilent (logStr LOG_LEVEL_ERROR "Edef")]
  /\ option_map snd (pausedBurst 7 (bytes "Edef" ++ [Str.nl]) s1)
     = Some (snd (writes (bytes "Edef" ++ [Str.nl]) s1)).
Proof.
  cbv zeta.
  destruct (C4_pause_resume_fifo mqttAtNotice 7 eq_refl
              (ring_wf_new [] 16 15000) eq_refl
              ltac:(vm_compute; lia))
    as (buf & r & Hrun & _ & _ & _ & Hord).
  split.
  - apply Hord; try reflexivity. vm_compute. discriminate.
  - exact (option_map_snd_some _ _ _ Hrun).
Defined.

(** ** C5 *)

Lemma setters_keep_ring s :
  (forall str, ring_wf s -> ring_wf (fst (setLogLevel str s)))
  /\ (forall f t, ring_wf s -> ring_wf (fst (setMQTT f t s)))
  /\ (forall f p, ring_wf s -> ring_wf (fst (setSerial f p s)))
  /\ (forall f, ring_wf s -> ring_wf (fst (setCmdSerial f s)))
  /\ (forall f i p u, ring_wf s -> ring_wf (fst (setHTTP f i p u s)))
  /\ (forall c n, ring_wf s -> ring_wf (fst (setup c n s))).
Proof.
  split; [|split; [|split; [|split; [|split]]]]; intros;
    (apply (ring_wf_ext s); [| |assumption]);
    unfold setLogLevel, setMQTT, setSerial, setCmdSerial, setHTTP, setup;
    repeat match goal with
           | |- context [if ?b then _ else _] => destruct b
           | |- context [match ?c with Some _ => _ | None => _ end] => destruct c
           end;
    reflexivity.
Qed.

(** C5. The pause buffer keeps 0 <= count <= capacity: the invariant
    holds after construction and is kept by [write], [pause], [resume],
    [service] and the setters ([resume] and [service] do return). A byte
    written while paused with count = capacity leaves the whole state,
    buffer included, as it was. And after [pause], a burst of any length
    and [resume], the calls made are those of feeding the first
    [capacity] bytes of the burst, in order: the retained oldest bytes,
    none of the dropped ones; the buffer is empty again. *)
Theorem C5_pause_buffer_bounded :
  (forall net n t, ring_wf (NetLog_new net n t))
  /\ forall s : NetLog,
      ring_wf s ->
      (0 <= count (_chBufferPosn s) <= capacity (_chBufferPosn s))
      /\ (forall ch, ring_wf (fst (write ch s)))
      /\ (forall now, ring_wf (pause now s))
      /\ (exists s' tr, resume s = Some (s', tr) /\ ring_wf s')
      /\ (forall c tp now,
             exists s' tr, service c tp now s = Some (s', tr) /\ ring_wf s')
      /\ (forall str f t p i u cfg name,
             ring_wf (fst (setLogLevel str s))
             /\ ring_wf (fst (setMQTT f t s))
             /\ ring_wf (fst (setSerial f p s))
             /\ ring_wf (fst (setCmdSerial f s))
             /\ ring_wf (fst (setHTTP f i p u s))
             /\ ring_wf (fst (setup cfg name s)))
      /\ (forall ch,
             _isPaused s = true ->
             count (_chBufferPosn s) = capacity (_chBufferPosn s) ->
             write ch s = (s, []))
      /\ (forall now burst,
             _isPaused s = false -> count (_chBufferPosn s) = 0 ->
             let kept := take (capacity (_chBufferPosn s)) burst in
             exists buf r,
               pausedBurst now burst s
               = Some (with_pause_data now buf r (fst (writes kept s)),
                       snd (writes kept s))
               /\ count r = 0).
Proof.
  split; [apply ring_wf_new|]. intros s Hwf.
  split; [now apply ring_wf_bounds|].
  split; [intros; now apply write_wf|].
  split; [intros; now apply pause_wf|].
  split; [now apply resume_wf|].
  split; [intros; now apply service_wf|].
  split.
  { intros. destruct (setters_keep_ring s) as (H1 & H2 & H3 & H4 & H5 & H6).
    split; [now apply H1|]. split; [now apply H2|]. split; [now apply H3|].
    split; [now apply H4|]. split; [now apply H5|]. now apply H6. }
  split.
  - intros ch Hp Hfull. apply write_paused_full; [exact Hp | lia].
  - intros now burst Hp Hn kept.
    destruct (pausedBurst_replay now burst s Hp Hwf Hn) as (buf & r & H & Hr & _).
    eauto.
Qed.

Lemma C5_pause_buffer_bounded_witness :
  let s := pause 7 (NetLog_new [] 3 15000) in
  let full := fst (writes (bytes "abcde") s) in
  count (_chBufferPosn full) = 3
  /\ write "f" full = (full, [])
  /\ option_map snd (pausedBurst 7 (bytes "abcde") (NetLog_new [] 3 15000))
     = Some (snd (writes (bytes "abc") (NetLog_new [] 3 15000))).
Proof.
  cbv zeta.
  destruct C5_pause_buffer_bounded as [Hnew Hinv].
  split; [reflexivity|]. split.
  - destruct (Hinv (fst (writes (bytes "abcde") (pause 7 (NetLog_new [] 3 15000)))))
      as (_ & _ & _ & _ & _ & _ & Hfull & _).
    + apply writes_wf, pause_wf, Hnew.
    + apply Hfull; reflexivity.
  - destruct (Hinv (NetLog_new [] 3 15000) (Hnew [] 3 15000%Z))
      as (_ & _ & _ & _ & _ & _ & _ & Hburst).
    destruct (Hburst 7%Z (bytes "abcde") eq_refl eq_refl)
      as (buf & r & Hrun & _).
    exact (option_map_snd_some _ _ _ Hrun).
Defined.

(** ** C7 *)

(** C7. While paused, a service tick at which the time elapsed since
    the pause started exceeds the pause duration returns, not paused,
    with the pause buffer empty, having replayed the buffered bytes
    through [write] after pumping the socket; the pause measured is the
    one in force at the check (a tick carrying XOFF restarts it first).
    Hence a run of plain ticks one of which comes after the pause
    duration ends not paused, with the buffer drained. *)
Theorem C7_pause_timeout (s : NetLog) :
  ring_wf s -> _isPaused s = true ->
  (forall c tp now,
      let started := if Ascii.eqb c ASCII_XOFF then tp else _pauseStartedMs s in
      (_pauseTimeMs s < elapsedMs now started)%Z ->
      exists s',
        service c tp now s
        = Some (s', snd (service_pump s)
                      ++ snd (writes (buffered s)
                                (set_pauseStartedMs started
                                   (set_isPaused false (fst (service_pump s))))))
        /\ _isPaused s' = false /\ count (_chBufferPosn s') = 0)
  /\ (forall times,
         Exists (fun now =>
                   (_pauseTimeMs s < elapsedMs now (_pauseStartedMs s))%Z) times ->
         exists s' tr,
           service_ticks times s = Some (s', tr)
           /\ _isPaused s' = false /\ count (_chBufferPosn s') = 0).
Proof.
  intros Hwf Hp. split.
  - intros c tp now started Hlate.
    assert (Ht : isTimeout now started (_pauseTimeMs s) = true).
    { unfold isTimeout. now apply Z.ltb_lt. }
    rewrite (service_timeout c tp now s Hwf Hp Ht). fold started.
    eexists. split; [reflexivity|].
    destruct (writes_unpaused_pause_fields (buffered s)
                (set_pauseStartedMs started
                   (set_isPaused false (fst (service_pump s)))) eq_refl)
      as (Hp2 & _).
    st_simpl. split; [exact Hp2 | reflexivity].
  - intros times Hex. apply service_ticks_timeout; try assumption.
    eapply Exists_impl; [exact Hex|].
    intros now Hlate. unfold isTimeout. now apply Z.ltb_lt.
Qed.

Lemma C7_pause_timeout_witness :
  let s := fst (writes (bytes "Edef" ++ [Str.nl]) (pause 1000 mqttAtNotice)) in
  option_map snd (service "000" 0 16001 s)
  = Some [SerialWrite "E"; SerialWrite "d"; SerialWrite "e"; SerialWrite "f";
          SerialWrite Str.nl; MqttReportSilent (logStr 2 "Edef")]
  /\ exists s' tr,
       service_ticks [2000; 9000; 16001; 17000]%Z s = Some (s', tr)
       /\ _isPaused s' = false /\ count (_chBufferPosn s') = 0.
Proof.
  cbv zeta.
  assert (Hwf : ring_wf (fst (writes (bytes "Edef" ++ [Str.nl])
                                (pause 1000 mqttAtNotice)))).
  { apply writes_wf, pause_wf. apply (ring_wf_new [] 16 15000). }
  destruct (C7_pause_timeout _ Hwf eq_refl) as [Htick Hrun].
  split.
  - destruct (Htick "000"%char 0%Z 16001%Z ltac:(vm_compute; reflexivity))
      as (s' & Hs & _).
    rewrite Hs. reflexivity.
  - apply Hrun. right. right. left. vm_compute. reflexivity.
Defined.

(** ** C8 *)

(** C8, as stated, fails: without a configuration object attached (no
    [setup] yet, or [setup(NULL, ...)]) a setter that changes the
    configuration makes no call to the persistence collaborator. *)
Lemma C8_counterexample :
  let s := NetLog_new [] 1000 15000 in
  _logToCommandSerial s = 0%Z
  /\ _logToCommandSerial (fst (setCmdSerial true s)) = 1%Z
  /\ fst (setCmdSerial true s) <> s
  /\ persistEvents (snd (setCmdSerial true s)) = []
  /\ persistEvents (snd (setCmdSerial true s))
     <> writeBack (fst (setCmdSerial true s)).
Proof. cbv zeta. repeat split; try reflexivity; discriminate. Qed.

(** The decimal text is compared, not the number: [setSerial(true, "00")]
    on port 0 writes the configuration back although nothing changed. *)
Lemma setSerial_noncanonical_port :
  let s := fst (setup (Some (mkConfigBase "" (fun _ d => d) (fun _ d => d)))
                  "robot" (NetLog_new [] 1000 15000)) in
  fst (setSerial true "00" s) = s
  /\ persistEvents (snd (setSerial true "00" s)) = writeBack s.
Proof. cbv zeta. split; vm_compute; reflexivity. Qed.

Lemma persistEvents_detached s' :
  _pConfigBase s' = None -> persistEvents (persist s') = [].
Proof. unfold persist. now intros ->. Qed.

(** C8, amended. With a configuration object attached, the log-level,
    MQTT, command-serial and HTTP setters write the configuration back
    exactly once ([setConfigData] of the new canonical text, then
    [writeConfig]) when the call changes the configuration, and make no
    persistence call when it leaves it as it is; without a configuration
    object no setter ever makes a persistence call. [setSerial] writes
    back exactly once whenever it changes the configuration, and makes no
    persistence call when the flag is the current one and the port
    argument is the decimal text of the current port. *)
Theorem C8_write_back_on_change (s : NetLog) :
  (forall str, persistsIffChanged s (setLogLevel str s))
  /\ (forall flag topic, persistsIffChanged s (setMQTT flag topic s))
  /\ (forall flag, persistsIffChanged s (setCmdSerial flag s))
  /\ (forall flag ip port url, persistsIffChanged s (setHTTP flag ip port url s))
  /\ (forall flag portStr,
         fst (setSerial flag portStr s) <> s ->
         persistEvents (snd (setSerial flag portStr s))
         = match _pConfigBase s with
           | Some _ => writeBack (fst (setSerial flag portStr s))
           | None => []
           end)
  /\ (forall flag,
         _logToSerial s = int_of_bool flag ->
         fst (setSerial flag (Str.itoa (_serialPort s)) s) = s
         /\ persistEvents (snd (setSerial flag (Str.itoa (_serialPort s)) s)) = [])
  /\ (_pConfigBase s = None ->
      forall str flag topic port ip url,
        persistEvents (snd (setLogLevel str s)) = []
        /\ persistEvents (snd (setMQTT flag topic s)) = []
        /\ persistEvents (snd (setSerial flag port s)) = []
        /\ persistEvents (snd (setCmdSerial flag s)) = []
        /\ persistEvents (snd (setHTTP flag ip port url s)) = []).
Proof.
  split; [intros; apply setLogLevel_persists|].
  split; [intros; apply setMQTT_persists|].
  split; [intros; apply setCmdSerial_persists|].
  split; [intros; apply setHTTP_persists|].
  split; [intros; now apply setSerial_changed|].
  split; [intros; now apply setSerial_canonical|].
  intros Hnone str flag topic port ip url.
  repeat split.
  - unfold setLogLevel. destruct (negb _); cbn [snd].
    + unfold persistEvents. rewrite List.filter_app.
      apply app_nil. split.
      * apply persistEvents_detached. exact Hnone.
      * apply persistEvents_serialNote.
    + apply persistEvents_serialNote.
  - unfold setMQTT. destruct (_ || _); cbn [snd]; [|reflexivity].
    apply persistEvents_detached. exact Hnone.
  - unfold setSerial. destruct (_ || _); cbn [snd]; [|reflexivity].
    apply persistEvents_detached. exact Hnone.
  - unfold setCmdSerial. destruct (negb _); cbn [snd]; [|reflexivity].
    apply persistEvents_detached. exact Hnone.
  - unfold setHTTP. destruct (_ || _); cbn [snd].
    + apply persistEvents_detached. exact Hnone.
    + apply persistEvents_serialNote.
Qed.

Lemma C8_write_back_on_change_witness :
  let s := fst (setup (Some (mkConfigBase "" (fun _ d => d) (fun _ d => d)))
                  "robot" (NetLog_new [] 1000 15000)) in
  persistEvents (snd (setSerial false "7" s))
  = writeBack (fst (setSerial false "7" s))
  /\ persistEvents (snd (setSerial true "0" s)) = []
  /\ persistEvents (snd (setCmdSerial true (NetLog_new [] 1000 15000))) = [].
Proof.
  cbv zeta.
  destruct (C8_write_back_on_change
              (fst (setup (Some (mkConfigBase "" (fun _ d => d) (fun _ d => d)))
                      "robot" (NetLog_new [] 1000 15000))))
    as (_ & _ & _ & _ & Hchanged & Hsame & _).
  destruct (C8_write_back_on_change (NetLog_new [] 1000 15000))
    as (_ & _ & _ & _ & _ & _ & Hnone).
  split; [|split].
  - apply (Hchanged false "7").
    intros H. apply (f_equal _serialPort) in H. vm_compute in H. discriminate H.
  - apply (Hsame true eq_refl).
  - apply (Hnone eq_refl "N" true "t" "1" "h" "u").
Defined.

(** * Further properties of the code *)

(** ** Properties kept by every operation *)

Section Invariants.

Variable P : NetLog -> Prop.
Hypothesis P_write : forall ch s, P s -> P (fst (write ch s)).
Hypothesis P_ring : forall r s, P s -> P (set_chBufferPosn r s).
Hypothesis P_paused : forall b s, P s -> P (set_isPaused b s).
Hypothesis P_started : forall t s, P s -> P (set_pauseStartedMs t s).
Hypothesis P_wifi : forall w s, P s -> P (set_wifiClient w s).

Lemma writes_keeps l : forall s, P s -> P (fst (writes l s)).
Proof.
  induction l as [|c l IH]; intros s H; [exact H|].
  cbn [writes]. pose proof (P_write c s H) as H1.
  destruct (write c s) as [s1 e1]. cbn [fst] in H1.
  specialize (IH s1 H1). destruct (writes l s1). exact IH.
Qed.

Lemma loop_keeps fuel :
  forall s s' tr,
    P s -> handleLoggedDuringPause_loop fuel s = Some (s', tr) -> P s'.
Proof.
  induction fuel as [|fuel IH]; intros s s' tr H E; cbn [handleLoggedDuringPause_loop] in E.
  - destruct (Ring.canGet (_chBufferPosn s)); [discriminate|].
    injection E as <- _. exact H.
  - destruct (Ring.canGet (_chBufferPosn s)).
    + pose proof (P_write (default "000"%char
                             (_pChBuffer s !! Ring.posToGet (_chBufferPosn s))) s H) as H1.
      destruct (write _ s) as [s1 e1]. cbn [fst] in H1.
      destruct (handleLoggedDuringPause_loop fuel _) as [[s3 e3]|] eqn:E3;
        [|discriminate].
      injection E as <- _. eapply IH; [|exact E3]. now apply P_ring.
    + injection E as <- _. exact H.
Qed.

Lemma resume_keeps s s' tr : P s -> resume s = Some (s', tr) -> P s'.
Proof.
  unfold resume, handleLoggedDuringPause. intros H E.
  destruct (_isPaused s).
  - eapply loop_keeps; [|exact E]. now apply P_paused.
  - injection E as <- _. exact H.
Qed.

Lemma service_keeps c tp now s s' tr :
  P s -> service c tp now s = Some (s', tr) -> P s'.
Proof.
  unfold service. intros H E.
  destruct (service_pump_frame s) as (w & Hw).
  destruct (service_pump s) as [s1 e1]. cbn [fst] in Hw. subst s1.
  assert (H1 : P (set_wifiClient w s)) by now apply P_wifi.
  destruct (if Ascii.eqb c ASCII_XOFF then _ else _) as [[s2 e2]|] eqn:E2;
    [|discriminate].
  assert (H2 : P s2).
  { destruct (Ascii.eqb c ASCII_XOFF).
    - injection E2 as <- _. unfold pause. now apply P_started, P_paused.
    - destruct (Ascii.eqb c ASCII_XON).
      + eapply resume_keeps; [exact H1|exact E2].
      + injection E2 as <- _. exact H1. }
  destruct (_isPaused s2 && _).
  - unfold handleLoggedDuringPause in E.
    destruct (handleLoggedDuringPause_loop _ _) as [[s3 e3]|] eqn:E3;
      [|discriminate].
    injection E as <- _. eapply loop_keeps; [|exact E3]. now apply P_paused.
  - injection E as <- _. exact H2.
Qed.

End Invariants.

(** ** The line assembler *)

Lemma line_inv_ext s s' :
  _firstChOnLine s' = _firstChOnLine s ->
  _collectLineForLog s' = _collectLineForLog s ->
  _msgToLog s' = _msgToLog s ->
  _curMsgLogLevel s' = _curMsgLogLevel s ->
  line_inv s -> line_inv s'.
Proof. unfold line_inv. intros -> -> -> ->. auto. Qed.

Lemma write_collect_line_inv ch s : line_inv s -> line_inv (write_collect ch s).
Proof.
  intros (H1 & H2 & H3 & H4). unfold write_collect, line_inv.
  destruct (_firstChOnLine s) eqn:Hf.
  - st_simpl. destruct (_ <=? _)%Z; st_simpl.
    + repeat split; try discriminate.
      * pose proof (from_char_length ch). unfold LOG_LINE_MAXLEN. lia.
      * apply levelOfChar_range.
      * apply levelOfChar_range.
    + repeat split; try discriminate; auto; lia.
  - destruct (_collectLineForLog s) eqn:Hc.
    + destruct (Nat.ltb_spec (String.length (_msgToLog s)) LOG_LINE_MAXLEN);
        st_simpl; rewrite ?Hf, ?Hc; repeat split; try discriminate; try lia.
      rewrite string_length_app. cbn. lia.
    + rewrite ?Hf, ?Hc. repeat split; auto; try discriminate; lia.
Qed.

Lemma write_eol_line_inv s : line_inv s -> line_inv (fst (write_eol s)).
Proof.
  intros (H1 & H2 & H3 & H4). unfold write_eol. st_simpl.
  destruct (_collectLineForLog s) eqn:Hc.
  - destruct (0 <? String.length (_msgToLog s)).
    + match goal with
      | |- context [write_http ?x] =>
          destruct (write_http_wifi x) as (w & Hw);
            destruct (write_http x) as [s5 e5]
      end.
      cbn [fst] in Hw. subst s5. unfold line_inv. st_simpl.
      repeat split; try lia. cbn. lia.
    + unfold line_inv. st_simpl. repeat split; try lia. cbn. lia.
  - unfold line_inv. st_simpl.
    repeat split; auto; lia.
Qed.

Lemma write_line_inv ch s : line_inv s -> line_inv (fst (write ch s)).
Proof.
  intros H. unfold write. destruct (_isPaused s).
  - destruct (Ring.canPut _); cbn [fst]; [|exact H].
    revert H. apply line_inv_ext; reflexivity.
  - destruct (negb (anyNetSink s)); cbn [fst]; [exact H|].
    pose proof (write_collect_line_inv ch s H) as Hc.
    destruct (Ascii.eqb ch Str.nl); [|exact Hc].
    pose proof (write_eol_line_inv _ Hc) as He.
    destruct (write_eol _). exact He.
Qed.

Lemma setters_frame s :
  forall str f t p i u cfg name s',
    s' = fst (setLogLevel str s) \/ s' = fst (setMQTT f t s)
    \/ s' = fst (setSerial f p s) \/ s' = fst (setCmdSerial f s)
    \/ s' = fst (setHTTP f i p u s) \/ s' = fst (setup cfg name s) ->
    _firstChOnLine s' = _firstChOnLine s
    /\ _collectLineForLog s' = _collectLineForLog s
    /\ _msgToLog s' = _msgToLog s
    /\ _curMsgLogLevel s' = _curMsgLogLevel s
    /\ _isPaused s' = _isPaused s
    /\ _pauseStartedMs s' = _pauseStartedMs s
    /\ _pauseTimeMs s' = _pauseTimeMs s
    /\ _pChBuffer s' = _pChBuffer s
    /\ _chBufferPosn s' = _chBufferPosn s
    /\ _wifiClient s' = _wifiClient s.
Proof.
  intros str f t p i u cfg name s' H.
  repeat (destruct H as [H|H]); subst s';
    unfold setLogLevel, setMQTT, setSerial, setCmdSerial, setHTTP, setup;
    repeat match goal with
           | |- context [if ?b then _ else _] => destruct b
           | |- context [match ?c with Some _ => _ | None => _ end] => destruct c
           end;
    repeat split; reflexivity.
Qed.

Lemma write_isPaused ch s : _isPaused (fst (write ch s)) = _isPaused s.
Proof.
  destruct (_isPaused s) eqn:Hp.
  - unfold write. rewrite Hp. destruct (Ring.canPut _); cbn [fst]; st_simpl; exact Hp.
  - now destruct (write_unpaused_pause_fields ch s Hp) as (-> & _).
Qed.

(** X1. The line assembler stays coherent: after construction, and after
    any sequence of bytes, pause, resume, service tick or setter call, a
    line start never coincides with a line being collected, the line
    buffer is empty unless a line is being collected, it holds at most
    250 characters, and the recorded severity is between 0 and 6. *)
Theorem X1_line_assembler_invariant :
  (forall net n t, line_inv (NetLog_new net n t))
  /\ forall s : NetLog,
      line_inv s ->
      (forall ch, line_inv (fst (write ch s)))
      /\ (forall l, line_inv (fst (writes l s)))
      /\ (forall now, line_inv (pause now s))
      /\ (ring_wf s -> exists s' tr, resume s = Some (s', tr) /\ line_inv s')
      /\ (ring_wf s -> forall c tp now,
             exists s' tr, service c tp now s = Some (s', tr) /\ line_inv s')
      /\ (forall str f t p i u cfg name,
             line_inv (fst (setLogLevel str s))
             /\ line_inv (fst (setMQTT f t s))
             /\ line_inv (fst (setSerial f p s))
             /\ line_inv (fst (setCmdSerial f s))
             /\ line_inv (fst (setHTTP f i p u s))
             /\ line_inv (fst (setup cfg name s))).
Proof.
  split.
  { intros net n t. unfold line_inv, NetLog_new. st_simpl.
    unfold LOG_LEVEL_SILENT, LOG_LEVEL_VERBOSE. repeat split; auto; try lia.
    cbn. lia. }
  intros s H.
  assert (Hr : forall r x, line_inv x -> line_inv (set_chBufferPosn r x))
    by (intros r x; apply line_inv_ext; reflexivity).
  assert (Hb : forall b x, line_inv x -> line_inv (set_isPaused b x))
    by (intros b x; apply line_inv_ext; reflexivity).
  assert (Ht : forall t x, line_inv x -> line_inv (set_pauseStartedMs t x))
    by (intros t x; apply line_inv_ext; reflexivity).
  assert (Hw : forall w x, line_inv x -> line_inv (set_wifiClient w x))
    by (intros w x; apply line_inv_ext; reflexivity).
  split; [intros; now apply write_line_inv|].
  split; [intros; apply (writes_keeps line_inv write_line_inv); exact H|].
  split; [intros; revert H; apply line_inv_ext; reflexivity|].
  split.
  { intros Hwf. destruct (resume_wf s Hwf) as (s' & tr & E & _).
    exists s', tr. split; [exact E|].
    exact (resume_keeps line_inv write_line_inv Hr Hb s s' tr H E). }
  split.
  { intros Hwf c tp now. destruct (service_wf c tp now s Hwf) as (s' & tr & E & _).
    exists s', tr. split; [exact E|].
    exact (service_keeps line_inv write_line_inv Hr Hb Ht Hw c tp now s s' tr H E). }
  intros str f t p i u cfg name.
  assert (Hs : forall s', 
             s' = fst (setLogLevel str s) \/ s' = fst (setMQTT f t s)
             \/ s' = fst (setSerial f p s) \/ s' = fst (setCmdSerial f s)
             \/ s' = fst (setHTTP f i p u s) \/ s' = fst (setup cfg name s) ->
             line_inv s').
  { intros s' Hs'.
    destruct (setters_frame s str f t p i u cfg name s' Hs')
      as (E1 & E2 & E3 & E4 & _).
    now apply (line_inv_ext s). }
  split; [apply Hs; tauto|]. split; [apply Hs; tauto|].
  split; [apply Hs; tauto|]. split; [apply Hs; tauto|].
  split; apply Hs; tauto.
Qed.

Lemma X1_line_assembler_invariant_witness :
  line_inv (fst (writes (bytes "Wabc") (NetLog_new [] 16 15000)))
  /\ String.length
       (_msgToLog (fst (writes (replicate 400 "W"%char) mqttAtNotice))) <= 250.
Proof.
  destruct X1_line_assembler_invariant as [Hnew Hkeep].
  split.
  - apply (Hkeep (NetLog_new [] 16 15000) (Hnew [] 16 15000%Z)).
  - destruct (Hkeep (NetLog_new [] 16 15000) (Hnew [] 16 15000%Z))
      as (_ & _ & _ & _ & _ & Hset).
    destruct (Hset "N" true "log" "" "" "" None "") as (_ & Hm & _).
    destruct (Hkeep _ Hm) as (_ & _ & _ & _ & _ & Hset2).
    destruct (Hset2 "N" true "log" "" "" "" None "") as (Hl & _).
    destruct (Hkeep _ Hl) as (_ & Hws & _).
    apply (Hws (replicate 400 "W"%char)).
Defined.

(** ** The pause buffer is empty whenever the object is not paused *)

Lemma buffer_idle_ext s s' :
  _pChBuffer s' = _pChBuffer s -> _chBufferPosn s' = _chBufferPosn s ->
  _isPaused s' = _isPaused s ->
  buffer_idle s -> buffer_idle s'.
Proof.
  unfold buffer_idle. intros Hb Hr Hp [Hwf Hidle]. split.
  - now apply (ring_wf_ext s).
  - rewrite Hr, Hp. exact Hidle.
Qed.

Lemma write_idle ch s : buffer_idle s -> buffer_idle (fst (write ch s)).
Proof.
  intros [Hwf Hidle]. split; [now apply write_wf|].
  rewrite write_isPaused. intros Hp.
  destruct (write_unpaused_pause_fields ch s Hp) as (_ & _ & -> & _). auto.
Qed.

Lemma writes_idle l : forall s, buffer_idle s -> buffer_idle (fst (writes l s)).
Proof.
  induction l as [|c l IH]; intros s H; [exact H|].
  cbn [writes]. pose proof (write_idle c s H) as H1.
  destruct (write c s) as [s1 e1]. cbn [fst] in H1.
  specialize (IH s1 H1). destruct (writes l s1). exact IH.
Qed.

Lemma resume_idle s :
  buffer_idle s ->
  exists s' tr, resume s = Some (s', tr) /\ buffer_idle s' /\ _isPaused s' = false.
Proof.
  intros [Hwf Hidle]. unfold resume. destruct (_isPaused s) eqn:Hp.
  - destruct (handleLoggedDuringPause_wf (set_isPaused false s) eq_refl)
      as (s' & tr & E & Hwf' & Hp' & Hn & _).
    + now apply (ring_wf_ext s).
    + exists s', tr. split; [exact E|]. split; [|exact Hp'].
      split; [exact Hwf'|]. intros _. exact Hn.
  - exists s, []. split; [reflexivity|]. split; [|exact Hp].
    split; [exact Hwf | intros _; exact (Hidle eq_refl)].
Qed.

Lemma service_idle c tp now s :
  buffer_idle s ->
  exists s' tr, service c tp now s = Some (s', tr) /\ buffer_idle s'.
Proof.
  intros Hidle. unfold service.
  destruct (service_pump_frame s) as (w & Hw).
  destruct (service_pump s) as [s1 e1]. cbn [fst] in Hw. subst s1.
  assert (H1 : buffer_idle (set_wifiClient w s))
    by (revert Hidle; apply buffer_idle_ext; reflexivity).
  assert (Hstep : exists s2 e2,
             (if Ascii.eqb c ASCII_XOFF then Some (pause tp (set_wifiClient w s), [])
              else if Ascii.eqb c ASCII_XON then resume (set_wifiClient w s)
              else Some (set_wifiClient w s, [])) = Some (s2, e2) /\ buffer_idle s2).
  { destruct (Ascii.eqb c ASCII_XOFF).
    - eexists _, _. split; [reflexivity|]. destruct H1 as [Hwf1 _]. split.
      + now apply pause_wf.
      + unfold pause. st_simpl. discriminate.
    - destruct (Ascii.eqb c ASCII_XON).
      + destruct (resume_idle _ H1) as (s2 & e2 & E & H2 & _). eauto.
      + eauto. }
  destruct Hstep as (s2 & e2 & -> & H2).
  destruct (_isPaused s2 && isTimeout now (_pauseStartedMs s2) (_pauseTimeMs s2)).
  - destruct H2 as [Hwf2 _].
    destruct (handleLoggedDuringPause_wf (set_isPaused false s2) eq_refl)
      as (s3 & e3 & -> & Hwf3 & Hp3 & Hn3 & _).
    + now apply (ring_wf_ext s2).
    + eexists _, _. split; [reflexivity|]. split; [exact Hwf3|]. intros _. exact Hn3.
  - eauto.
Qed.

(** X2. The pause buffer is consistent, and empty whenever the object
    is not paused: this holds after construction and is kept by [write],
    [pause], [resume], [service] (which both return) and the setters; so
    bytes are only ever held back while paused, and [resume] leaves
    nothing behind. *)
Theorem X2_buffer_empty_when_not_paused :
  (forall net n t, buffer_idle (NetLog_new net n t))
  /\ forall s : NetLog,
      buffer_idle s ->
      (forall l, buffer_idle (fst (writes l s)))
      /\ (forall now, buffer_idle (pause now s))
      /\ (exists s' tr,
             resume s = Some (s', tr) /\ buffer_idle s' /\ _isPaused s' = false)
      /\ (forall c tp now,
             exists s' tr, service c tp now s = Some (s', tr) /\ buffer_idle s')
      /\ (forall str f t p i u cfg name,
             buffer_idle (fst (setLogLevel str s))
             /\ buffer_idle (fst (setMQTT f t s))
             /\ buffer_idle (fst (setSerial f p s))
             /\ buffer_idle (fst (setCmdSerial f s))
             /\ buffer_idle (fst (setHTTP f i p u s))
             /\ buffer_idle (fst (setup cfg name s))).
Proof.
  split.
  { intros net n t. split; [apply ring_wf_new|]. reflexivity. }
  intros s H.
  split; [intros; now apply writes_idle|].
  split.
  { intros now. destruct H as [Hwf _]. split; [now apply pause_wf|].
    unfold pause. st_simpl. discriminate. }
  split; [now apply resume_idle|].
  split; [intros; now apply service_idle|].
  intros str f t p i u cfg name.
  assert (Hs : forall s',
             s' = fst (setLogLevel str s) \/ s' = fst (setMQTT f t s)
             \/ s' = fst (setSerial f p s) \/ s' = fst (setCmdSerial f s)
             \/ s' = fst (setHTTP f i p u s) \/ s' = fst (setup cfg name s) ->
             buffer_idle s').
  { intros s' Hs'.
    destruct (setters_frame s str f t p i u cfg name s' Hs')
      as (_ & _ & _ & _ & E5 & _ & _ & E8 & E9 & _).
    now apply (buffer_idle_ext s). }
  split; [apply Hs; tauto|]. split; [apply Hs; tauto|].
  split; [apply Hs; tauto|]. split; [apply Hs; tauto|].
  split; apply Hs; tauto.
Qed.

Lemma X2_buffer_empty_when_not_paused_witness :
  exists s' tr,
    resume (fst (writes (bytes "Edef") (pause 5 (NetLog_new [] 16 15000))))
    = Some (s', tr)
    /\ buffer_idle s' /\ _isPaused s' = false.
Proof.
  destruct X2_buffer_empty_when_not_paused as [Hnew Hkeep].
  destruct (Hkeep (NetLog_new [] 16 15000) (Hnew [] 16 15000%Z))
    as (_ & Hpause & _).
  destruct (Hkeep _ (Hpause 5%Z)) as (Hws & _).
  destruct (Hkeep _ (Hws (bytes "Edef"))) as (_ & _ & Hres & _).
  exact Hres.
Defined.

(** ** Ingestion and the configuration *)

Lemma same_config_refl s : same_config s s.
Proof. unfold same_config. repeat split; reflexivity. Qed.

Lemma same_config_trans s1 s2 s3 :
  same_config s1 s2 -> same_config s2 s3 -> same_config s1 s3.
Proof. unfold same_config. intuition congruence. Qed.

Lemma write_collect_same_config ch s : same_config s (write_collect ch s).
Proof.
  unfold write_collect, same_config.
  repeat match goal with |- context [if ?c then _ else _] => destruct c end;
    repeat split; reflexivity.
Qed.

Lemma write_eol_same_config s : same_config s (fst (write_eol s)).
Proof.
  unfold write_eol. st_simpl.
  destruct (_collectLineForLog s);
    [|unfold same_config; st_simpl; repeat split; reflexivity].
  destruct (0 <? String.length (_msgToLog s));
    [|unfold same_config; st_simpl; repeat split; reflexivity].
  match goal with
  | |- context [write_http ?x] =>
      destruct (write_http_wifi x) as (w & Hw);
        destruct (write_http x) as [s5 e5]
  end.
  cbn [fst] in Hw. subst s5.
  unfold same_config; st_simpl; repeat split; reflexivity.
Qed.

Lemma write_same_config ch s : same_config s (fst (write ch s)).
Proof.
  unfold write. destruct (_isPaused s).
  - destruct (Ring.canPut _);
      unfold same_config; st_simpl; repeat split; reflexivity.
  - destruct (negb (anyNetSink s)); [apply same_config_refl|].
    pose proof (write_collect_same_config ch s) as H1.
    destruct (Ascii.eqb ch Str.nl); [|exact H1].
    pose proof (write_eol_same_config (write_collect ch s)) as H2.
    destruct (write_eol _). cbn [fst] in *.
    exact (same_config_trans _ _ _ H1 H2).
Qed.

Lemma writes_same_config l : forall s, same_config s (fst (writes l s)).
Proof.
  induction l as [|c l IH]; intros s; [apply same_config_refl|].
  cbn [writes]. pose proof (write_same_config c s) as H1.
  destruct (write c s) as [s1 e1]. cbn [fst] in H1.
  specialize (IH s1). destruct (writes l s1). cbn [fst] in *.
  exact (same_config_trans _ _ _ H1 IH).
Qed.

(** X3. Ingestion never changes the configuration: after any sequence
    of bytes, paused or not, the threshold, the sink flags and
    destinations, the serial settings, the attached configuration
    object, the system name and the pause duration are what they
    were. *)
Theorem X3_ingestion_keeps_configuration (l : list ascii) (s : NetLog) :
  same_config s (fst (writes l s))
  /\ formConfigStr (fst (writes l s)) = formConfigStr s.
Proof.
  pose proof (writes_same_config l s) as H. split; [exact H|].
  destruct H as (H1 & H2 & H3 & H4 & H5 & H6 & H7 & H8 & H9 & H10 & _).
  unfold formConfigStr.
  now rewrite H1, H2, H3, H4, H5, H6, H7, H8, H9, H10.
Qed.

(** ** While paused *)

Lemma writes_paused_silent l :
  forall s,
    _isPaused s = true ->
    snd (writes l s) = []
    /\ exists buf r, fst (writes l s) = set_chBufferPosn r (set_pChBuffer buf s).
Proof.
  induction l as [|c l IH]; intros s Hp.
  - split; [reflexivity|]. exists (_pChBuffer s), (_chBufferPosn s).
    destruct s; reflexivity.
  - cbn [writes]. unfold write. rewrite Hp.
    destruct (Ring.canPut (_chBufferPosn s)).
    + match goal with
      | |- context [writes l ?x] => destruct (IH x Hp) as (He & buf & r & Hs)
      end.
      destruct (writes l _) as [s2 e2]. cbn [fst snd] in *. subst.
      split; [reflexivity|]. exists buf, r. reflexivity.
    + destruct (IH s Hp) as (He & buf & r & Hs).
      destruct (writes l s) as [s2 e2]. cbn [fst snd] in *. subst.
      split; [reflexivity|]. eauto.
Qed.

(** X4. While paused, ingestion is silent: whatever bytes are written,
    no call is made to any collaborator (not even the copy to [Serial]),
    and nothing changes but the pause buffer's array and position
    tracker; in particular the object stays paused and the line
    assembler does not advance. *)
Theorem X4_paused_ingestion_is_silent (l : list ascii) (s : NetLog) :
  _isPaused s = true ->
  snd (writes l s) = []
  /\ (exists buf r, fst (writes l s) = set_chBufferPosn r (set_pChBuffer buf s))
  /\ _isPaused (fst (writes l s)) = true
  /\ _firstChOnLine (fst (writes l s)) = _firstChOnLine s
  /\ _collectLineForLog (fst (writes l s)) = _collectLineForLog s
  /\ _msgToLog (fst (writes l s)) = _msgToLog s.
Proof.
  intros Hp. destruct (writes_paused_silent l s Hp) as (He & buf & r & Hs).
  split; [exact He|]. split; [eauto|]. rewrite Hs. st_simpl.
  repeat split; auto.
Qed.

Lemma X4_paused_ingestion_is_silent_witness :
  snd (writes (bytes "Fatal!" ++ [Str.nl]) (pause 3 mqttAtNotice)) = [].
Proof.
  apply (X4_paused_ingestion_is_silent (bytes "Fatal!" ++ [Str.nl])
           (pause 3 mqttAtNotice) eq_refl).
Defined.

(** ** The copy to [Serial] *)

Lemma serialWrites_structured s : List.filter isSerialWrite (write_structured s) = [].
Proof.
  unfold write_structured.
  destruct (_logToMQTT s), (bool_of_int (_logToCommandSerial s)); reflexivity.
Qed.

Lemma serialWrites_http s : List.filter isSerialWrite (snd (write_http s)) = [].
Proof.
  unfold write_http. destruct (_logToHTTP s); [|reflexivity]. cbn [snd].
  destruct (wc_connected (_wifiClient s)),
    (hd false (wc_connectOk (_wifiClient s))), (serialEnabled s); reflexivity.
Qed.

Lemma serialWrites_eol s : List.filter isSerialWrite (snd (write_eol s)) = [].
Proof.
  unfold write_eol. st_simpl.
  destruct (_collectLineForLog s); [|reflexivity].
  destruct (0 <? String.length (_msgToLog s)); [|reflexivity].
  match goal with
  | |- context [write_http ?x] =>
      pose proof (serialWrites_http x) as Hh; destruct (write_http x) as [s5 e5]
  end.
  cbn [snd] in *. now rewrite List.filter_app, serialWrites_structured, Hh.
Qed.

Lemma serialWrites_echo s l :
  List.filter isSerialWrite (serialEcho s l) = serialEcho s l.
Proof.
  unfold serialEcho. destruct (serialEnabled s); [|reflexivity].
  induction l as [|c l IH]; [reflexivity|]. cbn. now rewrite IH.
Qed.

Lemma serialWrites_write ch s :
  _isPaused s = false ->
  List.filter isSerialWrite (snd (write ch s)) = serialEcho s [ch].
Proof.
  intros Hp. destruct (anyNetSink s) eqn:Hn.
  - rewrite write_unpaused by assumption.
    destruct (Ascii.eqb ch Str.nl); cbn [snd].
    + now rewrite List.filter_app, serialWrites_echo, serialWrites_eol, app_nil_r.
    + apply serialWrites_echo.
  - rewrite write_unpaused_no_sink by assumption. apply serialWrites_echo.
Qed.

Lemma serialEnabled_same_config s s' :
  same_config s s' -> serialEnabled s' = serialEnabled s.
Proof.
  intros (_ & _ & _ & _ & _ & _ & _ & H8 & H9 & _).
  unfold serialEnabled. now rewrite H8, H9.
Qed.

(** X5. While not paused, the bytes copied to [Serial] are exactly the
    bytes written, in order, when the serial flag is set and the serial
    port is 0, and none at all otherwise: whatever the threshold, the
    sinks enabled, the content of the lines or the fate of the HTTP
    connection. *)
Theorem X5_serial_copy_is_the_input (l : list ascii) (s : NetLog) :
  _isPaused s = false ->
  List.filter isSerialWrite (snd (writes l s))
  = if bool_of_int (_logToSerial s) && (_serialPort s =? 0)%Z
    then map SerialWrite l else [].
Proof.
  change (if bool_of_int (_logToSerial s) && (_serialPort s =? 0)%Z
          then map SerialWrite l else []) with (serialEcho s l).
  revert s. induction l as [|c l IH]; intros s Hp.
  - unfold serialEcho. destruct (serialEnabled s); reflexivity.
  - cbn [writes].
    pose proof (serialWrites_write c s Hp) as H1.
    pose proof (write_same_config c s) as Hc.
    destruct (write_unpaused_pause_fields c s Hp) as (Hp1 & _).
    destruct (write c s) as [s1 e1]. cbn [fst snd] in *.
    specialize (IH s1 Hp1).
    destruct (writes l s1) as [s2 e2]. cbn [fst snd] in *.
    rewrite List.filter_app, H1, IH.
    unfold serialEcho. rewrite (serialEnabled_same_config s s1 Hc).
    destruct (serialEnabled s); reflexivity.
Qed.

Lemma X5_serial_copy_is_the_input_witness :
  List.filter isSerialWrite (snd (writes (bytes "Vx" ++ [Str.nl]) mqttAtNotice))
  = [SerialWrite "V"; SerialWrite "x"; SerialWrite Str.nl].
Proof.
  apply (X5_serial_copy_is_the_input (bytes "Vx" ++ [Str.nl]) mqttAtNotice eq_refl).
Defined.

(** ** The HTTP sink and the structured sinks *)

(** X6. What a line sends to the MQTT and command-serial sinks does not
    depend on the HTTP sink: switching the HTTP flag, or putting the TCP
    client in any state (connected or not, with any outcome for the next
    connection attempts), leaves the records of both sinks unchanged; a
    refused connection costs the structured sinks nothing. *)
Theorem X6_structured_sinks_ignore_http (s : NetLog) (body : list ascii)
    (httpFlag : bool) (w : WiFiClient) :
  _isPaused s = false ->
  _firstChOnLine s = true -> _collectLineForLog s = false ->
  Str.nl ∉ body ->
  let s' := set_wifiClient w (set_logToHTTP httpFlag s) in
  mqttEvents (snd (writes (body ++ [Str.nl]) s'))
  = mqttEvents (snd (writes (body ++ [Str.nl]) s))
  /\ cmdSerialEvents (snd (writes (body ++ [Str.nl]) s'))
     = cmdSerialEvents (snd (writes (body ++ [Str.nl]) s)).
Proof.
  intros Hp Hf Hc Hnl s'. split.
  - rewrite (line_mqttEvents s' body), (line_mqttEvents s body) by assumption.
    reflexivity.
  - rewrite (line_cmdSerialEvents s' body), (line_cmdSerialEvents s body)
      by assumption.
    reflexivity.
Qed.

Lemma X6_structured_sinks_ignore_http_witness :
  mqttEvents
    (snd (writes (bytes "Eoops" ++ [Str.nl])
            (set_wifiClient (mkWiFiClient true 7 [false])
               (set_logToHTTP true mqttAtNotice))))
  = mqttEvents (snd (writes (bytes "Eoops" ++ [Str.nl]) mqttAtNotice)).
Proof.
  apply (X6_structured_sinks_ignore_http mqttAtNotice (bytes "Eoops") true
           (mkWiFiClient true 7 [false]));
    try reflexivity.
  intros H. repeat (apply elem_of_cons in H as [H|H]; [discriminate|]).
  inversion H.
Defined.





(** ** Several lines *)

Lemma mqttRecord_same s s' body :
  _loggingThreshold s' = _loggingThreshold s -> _logToMQTT s' = _logToMQTT s ->
  mqttRecord s' body = mqttRecord s body.
Proof. unfold mqttRecord. now intros -> ->. Qed.

(** X8. Lines are delivered in the order they arrive, one record per
    line: for a stream of complete lines fed from a line start, the
    calls made on the MQTT sink are, in order, the records of those
    lines whose severity is within the threshold (none when the MQTT
    flag is clear), and the assembler is back at a line start at the
    end. *)
Theorem X8_lines_are_delivered_in_order (lines : list (list ascii)) :
  forall s : NetLog,
    _isPaused s = false ->
    _firstChOnLine s = true -> _collectLineForLog s = false ->
    Forall (fun body => Str.nl ∉ body) lines ->
    mqttEvents (snd (writes (stream lines) s)) = flat_map (mqttRecord s) lines
    /\ _firstChOnLine (fst (writes (stream lines) s)) = true
    /\ _collectLineForLog (fst (writes (stream lines) s)) = false.
Proof.
  induction lines as [|body lines IH]; intros s Hp Hf Hc Hall.
  - cbn. auto.
  - apply Forall_cons in Hall as [Hnl Hall].
    change (stream (body :: lines)) with ((body ++ [Str.nl]) ++ stream lines).
    rewrite writes_app. cbn [fst snd flat_map].
    destruct (writes_line_after s body Hp Hf Hc Hnl)
      as (Hp1 & Hf1 & Hc1 & Hm1 & _ & _ & Ht1).
    destruct (IH _ Hp1 Hf1 Hc1 Hall) as (IH1 & IH2 & IH3).
    split; [|split; assumption].
    unfold mqttEvents in *. rewrite List.filter_app, IH1.
    fold (mqttEvents (snd (writes (body ++ [Str.nl]) s))).
    rewrite (line_mqttEvents s body) by assumption.
    f_equal. apply flat_map_ext. intros b.
    now apply mqttRecord_same.
Qed.

Lemma X8_lines_are_delivered_in_order_witness :
  mqttEvents
    (snd (writes (stream [bytes "Wone"; bytes "Vtwo"; bytes "Ethree"])
            mqttAtNotice))
  = [MqttReportSilent (logStr 3 "Wone"); MqttReportSilent (logStr 2 "Ethree")].
Proof.
  apply (X8_lines_are_delivered_in_order
           [bytes "Wone"; bytes "Vtwo"; bytes "Ethree"] mqttAtNotice);
    try reflexivity.
  repeat (apply Forall_cons; split;
          [intros H;
           repeat (apply elem_of_cons in H as [H|H]; [discriminate|]);
           inversion H|]).
  apply Forall_nil. exact I.
Defined.

(** ** The text of a record *)

Lemma accumulate_length txt l :
  String.length txt <= LOG_LINE_MAXLEN ->
  String.length (accumulate txt l) <= LOG_LINE_MAXLEN.
Proof.
  intros H. rewrite accumulate_take, string_length_app.
  rewrite string_of_list_length, length_take. lia.
Qed.

Lemma lineBuffer_length line : String.length (lineBuffer line) <= LOG_LINE_MAXLEN.
Proof.
  destruct line as [|c rest]; cbn [lineBuffer].
  - cbn. lia.
  - apply accumulate_length. pose proof (from_char_length c).
    unfold LOG_LINE_MAXLEN. lia.
Qed.

Lemma lineText_clean line :
  (Str.nl ∉ list_ascii_of_string (lineText line))
  /\ (Str.cr ∉ list_ascii_of_string (lineText line))
  /\ String.length (lineText line) <= LOG_LINE_MAXLEN.
Proof.
  unfold lineText. split; [|split].
  - apply replace_keeps_absent, replace_gone.
  - apply replace_gone.
  - etransitivity; [apply replace_length|].
    etransitivity; [apply replace_length|].
    apply lineBuffer_length.
Qed.

(** X9. Whatever the line (any length, any bytes), a record handed to
    the MQTT or command-serial sink is [logStr] of the line's severity
    and a text that contains no line feed and no carriage return and has
    at most 250 characters; the payload as a whole contains no line
    feed. *)
Theorem X9_record_text_is_clean (s : NetLog) (body : list ascii) (p : string) :
  _isPaused s = false ->
  _firstChOnLine s = true -> _collectLineForLog s = false ->
  Str.nl ∉ body ->
  In (MqttReportSilent p) (snd (writes (body ++ [Str.nl]) s))
  \/ In (CmdSerialLogMessage p) (snd (writes (body ++ [Str.nl]) s)) ->
  exists text,
    p = logStr (levelOfChar (hd Str.nl (body ++ [Str.nl]))) text
    /\ (Str.nl ∉ list_ascii_of_string text)
    /\ (Str.cr ∉ list_ascii_of_string text)
    /\ String.length text <= 250
    /\ (Str.nl ∉ list_ascii_of_string p).
Proof.
  intros Hp Hf Hc Hnl Hin.
  assert (E : p = logStr (levelOfChar (hd Str.nl (body ++ [Str.nl])))
                    (lineText (body ++ [Str.nl]))).
  { destruct Hin as [Hin|Hin].
    - apply in_mqttEvents in Hin.
      rewrite (line_mqttEvents s body) in Hin by assumption.
      destruct (_ && _); [|destruct Hin].
      destruct Hin as [Hin|[]]. now injection Hin.
    - apply in_cmdSerialEvents in Hin.
      rewrite (line_cmdSerialEvents s body) in Hin by assumption.
      destruct (_ && _); [|destruct Hin].
      destruct Hin as [Hin|[]]. now injection Hin. }
  exists (lineText (body ++ [Str.nl])).
  destruct (lineText_clean (body ++ [Str.nl])) as (H1 & H2 & H3).
  split; [exact E|]. split; [exact H1|]. split; [exact H2|].
  split; [exact H3|]. rewrite E. unfold logStr. apply replace_gone.
Qed.

Lemma X9_record_text_is_clean_witness :
  exists text,
    logStr 3 "Wab" = logStr 3 text
    /\ (Str.nl ∉ list_ascii_of_string text)
    /\ (Str.cr ∉ list_ascii_of_string text)
    /\ String.length text <= 250
    /\ (Str.nl ∉ list_ascii_of_string (logStr 3 "Wab")).
Proof.
  apply (X9_record_text_is_clean mqttAtNotice
           ("W" :: "a" :: Str.cr :: "b" :: Str.cr :: [])%char
           (logStr 3 "Wab")); try reflexivity.
  - intros H. repeat (apply elem_of_cons in H as [H|H]; [discriminate|]).
    inversion H.
  - left. apply in_mqttEvents. vm_compute. left. reflexivity.
Defined.

(** ** Setters: defaults and malformed input *)



(** X11. [setup] with a configuration object in which every key is
    missing resets the whole configuration to the constructor's
    defaults, whatever it was before: threshold SILENT, MQTT off with an
    empty topic, HTTP off with an empty address and URL and port 5076,
    serial on at port 0, command serial off; the object and the system
    name are recorded. With no object at all ([NULL]) only the system
    name and the (absent) object are recorded and nothing is printed. *)
Theorem X11_setup_defaults (cfg : ConfigBase) (name : string) (s : NetLog) :
  (forall key d, getLong cfg key d = d) ->
  (forall key d, getString cfg key d = d) ->
  let s' := fst (setup (Some cfg) name s) in
  _loggingThreshold s' = LOG_LEVEL_SILENT
  /\ _logToMQTT s' = false /\ _mqttLogTopic s' = EmptyString
  /\ _logToHTTP s' = false /\ _httpIpAddr s' = EmptyString
  /\ _httpPort s' = 5076%Z /\ _httpLogUrl s' = EmptyString
  /\ _logToSerial s' = 1%Z /\ _serialPort s' = 0%Z
  /\ _logToCommandSerial s' = 0%Z
  /\ _pConfigBase s' = Some cfg /\ _systemName s' = name
  /\ formConfigStr s' = formConfigStr (NetLog_new [] 0 0)
  /\ setup None name s = (set_pConfigBase None (set_systemName name s), []).
Proof.
  intros HL HS s'. unfold s', setup. cbn [fst]. st_simpl.
  unfold formConfigStr. st_simpl. rewrite !HL, !HS.
  repeat split; reflexivity.
Qed.

Lemma X11_setup_defaults_witness :
  formConfigStr (fst (setup (Some emptyStore) "robot" mqttAtNotice))
  = formConfigStr (NetLog_new [] 0 0).
Proof.
  apply (X11_setup_defaults emptyStore "robot" mqttAtNotice);
    intros; reflexivity.
Defined.

(** X12. The canonical text survives a restart: if the configuration
    object answers each of the ten keys with the value that [s] holds
    for it, and the two [int] flags of [s] are 0 or 1, then [setup]
    rebuilds a configuration whose canonical text is that of [s],
    whatever the object being set up held before. *)
Theorem X12_setup_restores_configuration
    (cfg : ConfigBase) (name : string) (s s0 : NetLog) :
  flags_01 s ->
  getLong cfg "LogLevel" LOG_LEVEL_SILENT = _loggingThreshold s ->
  getLong cfg "MQTTFlag" 0 = int_of_bool (_logToMQTT s) ->
  getString cfg "MQTTTopic" "" = _mqttLogTopic s ->
  getLong cfg "HTTPFlag" 0 = int_of_bool (_logToHTTP s) ->
  getString cfg "HTTPAddr" "" = _httpIpAddr s ->
  getLong cfg "HTTPPort" 5076 = _httpPort s ->
  getString cfg "HTTPUrl" "" = _httpLogUrl s ->
  getLong cfg "SerialFlag" 1 = _logToSerial s ->
  getLong cfg "SerialPort" 0 = _serialPort s ->
  getLong cfg "CmdSerial" 0 = _logToCommandSerial s ->
  let s' := fst (setup (Some cfg) name s0) in
  formConfigStr s' = formConfigStr s
  /\ _loggingThreshold s' = _loggingThreshold s
  /\ _logToMQTT s' = _logToMQTT s /\ _mqttLogTopic s' = _mqttLogTopic s
  /\ _logToHTTP s' = _logToHTTP s /\ _httpIpAddr s' = _httpIpAddr s
  /\ _httpPort s' = _httpPort s /\ _httpLogUrl s' = _httpLogUrl s
  /\ _logToSerial s' = _logToSerial s /\ _serialPort s' = _serialPort s
  /\ _logToCommandSerial s' = _logToCommandSerial s.
Proof.
  intros [Hser Hcmd] H1 H2 H3 H4 H5 H6 H7 H8 H9 H10 s'.
  assert (Hb : forall b, bool_of_int (int_of_bool b) = b) by (intros []; reflexivity).
  assert (Hi : forall x, (x = 0 \/ x = 1)%Z -> int_of_bool (bool_of_int x) = x)
    by (intros x [->| ->]; reflexivity).
  assert (E : _loggingThreshold s' = _loggingThreshold s
              /\ _logToMQTT s' = _logToMQTT s /\ _mqttLogTopic s' = _mqttLogTopic s
              /\ _logToHTTP s' = _logToHTTP s /\ _httpIpAddr s' = _httpIpAddr s
              /\ _httpPort s' = _httpPort s /\ _httpLogUrl s' = _httpLogUrl s
              /\ _logToSerial s' = _logToSerial s /\ _serialPort s' = _serialPort s
              /\ _logToCommandSerial s' = _logToCommandSerial s).
  { unfold s', setup. cbn [fst]. st_simpl.
    rewrite H1, H2, H3, H4, H5, H6, H7, H8, H9, H10, !Hb, !Hi by assumption.
    repeat split; reflexivity. }
  split; [|exact E].
  destruct E as (E1 & E2 & E3 & E4 & E5 & E6 & E7 & E8 & E9 & E10).
  unfold formConfigStr.
  now rewrite E1, E2, E3, E4, E5, E6, E7, E8, E9, E10.
Qed.

Lemma X12_setup_restores_configuration_witness :
  formConfigStr (fst (setup (Some (storeOf mqttAtNotice)) "robot"
                        (NetLog_new [] 8 100)))
  = formConfigStr mqttAtNotice.
Proof.
  apply (X12_setup_restores_configuration (storeOf mqttAtNotice) "robot"
           mqttAtNotice (NetLog_new [] 8 100));
    try reflexivity.
  split; [right|left]; reflexivity.
Defined.

(** ** The service tick: control bytes and the socket pump *)

Lemma resume_unpauses s s' tr : resume s = Some (s', tr) -> _isPaused s' = false.
Proof.
  unfold resume, handleLoggedDuringPause. intros E.
  destruct (_isPaused s) eqn:Hp.
  - refine (loop_keeps (fun x => _isPaused x = false) _ _ _ _ s' tr _ E).
    + intros ch x Hx. now rewrite write_isPaused.
    + intros r x Hx. exact Hx.
    + reflexivity.
  - injection E as <- _. exact Hp.
Qed.

(** X13. What a control byte does to a tick. A tick carrying XON is the
    socket pump followed by [resume()]: same state, same calls; whenever
    it returns the object is not paused afterwards, and on a consistent
    pause buffer it does return, leaves the buffer consistent and, if
    the object was paused, empty, the calls being the pump's followed by
    those of the buffered bytes written in order. A tick carrying XOFF
    is the socket pump followed by [pause()], nothing being replayed,
    unless the pause just started is already older than the pause
    duration: the object is then paused, with the pause stamped at this
    tick. A tick carrying any other byte, on an object that is not
    paused, is the socket pump alone. *)
Theorem X13_service_control_bytes (s : NetLog) (tp now : Z) :
  (service ASCII_XON tp now s
   = match resume (fst (service_pump s)) with
     | Some (s', tr) => Some (s', snd (service_pump s) ++ tr)
     | None => None
     end)
  /\ (forall s' tr,
         service ASCII_XON tp now s = Some (s', tr) -> _isPaused s' = false)
  /\ (ring_wf s ->
      exists s' tr,
        service ASCII_XON tp now s = Some (s', tr)
        /\ _isPaused s' = false
        /\ ring_wf s'
        /\ (_isPaused s = true ->
            count (_chBufferPosn s') = 0
            /\ tr = snd (service_pump s)
                      ++ snd (writes (buffered s)
                                (set_isPaused false (fst (service_pump s))))))
  /\ (isTimeout now tp (_pauseTimeMs s) = false ->
      service ASCII_XOFF tp now s
      = Some (pause tp (fst (service_pump s)), snd (service_pump s))
      /\ _isPaused (pause tp (fst (service_pump s))) = true
      /\ _pauseStartedMs (pause tp (fst (service_pump s))) = tp
      /\ _chBufferPosn (pause tp (fst (service_pump s))) = _chBufferPosn s
      /\ _pChBuffer (pause tp (fst (service_pump s))) = _pChBuffer s)
  /\ (forall c, c <> ASCII_XON -> c <> ASCII_XOFF -> _isPaused s = false ->
                service c tp now s
                = Some (fst (service_pump s), snd (service_pump s))).
Proof.
  destruct (service_pump_pause_fields s) as (Hp1 & Hb1 & Hr1 & Hs1 & Hd1).
  assert (Hon : service ASCII_XON tp now s
                = match resume (fst (service_pump s)) with
                  | Some (s', tr) => Some (s', snd (service_pump s) ++ tr)
                  | None => None
                  end).
  { unfold service. destruct (service_pump s) as [s1 e1]. cbn [fst snd].
    change (Ascii.eqb ASCII_XON ASCII_XOFF) with false.
    change (Ascii.eqb ASCII_XON ASCII_XON) with true. cbv iota.
    destruct (resume s1) as [[s2 e2]|] eqn:E; [|reflexivity].
    now rewrite (resume_unpauses s1 s2 e2 E). }
  split; [exact Hon|]. split; [|split; [|split]].
  - intros s' tr E. rewrite Hon in E.
    destruct (resume (fst (service_pump s))) as [[s2 e2]|] eqn:E2;
      [|discriminate].
    injection E as <- _. exact (resume_unpauses _ _ _ E2).
  - intros Hwf.
    assert (Hwf1 : ring_wf (fst (service_pump s)))
      by (apply (ring_wf_ext s); assumption).
    destruct (resume_wf _ Hwf1) as (s' & tr & E & Hwf').
    exists s', (snd (service_pump s) ++ tr).
    split; [now rewrite Hon, E|].
    split; [exact (resume_unpauses _ _ _ E)|].
    split; [exact Hwf'|].
    intros Hp. rewrite resume_paused in E by (rewrite ?Hp1; assumption).
    injection E as <- <-. split; [reflexivity|].
    unfold buffered. now rewrite Hb1, Hr1.
  - intros Ht. split; [|split; [reflexivity|split; [reflexivity|split]]].
    + unfold service. destruct (service_pump s) as [s1 e1].
      cbn [fst snd] in *.
      change (Ascii.eqb ASCII_XOFF ASCII_XOFF) with true. cbv iota.
      unfold pause at 1 2 3. st_simpl. rewrite Hd1, Ht. cbn [andb].
      now rewrite app_nil_r.
    + exact Hr1.
    + exact Hb1.
  - intros c Hcon Hcoff Hp. unfold service. destruct (service_pump s) as [s1 e1].
    cbn [fst snd] in *.
    apply ascii_eqb_neq in Hcon, Hcoff. rewrite Hcon, Hcoff.
    rewrite Hp1, Hp. cbn [andb]. now rewrite app_nil_r.
Qed.

Lemma X13_service_control_bytes_witness :
  let s := fst (writes ["W"; "x"; Str.nl]%char (pause 40 mqttAtNotice)) in
  (exists s' tr,
      service ASCII_XON 50 41 s = Some (s', tr)
      /\ _isPaused s' = false
      /\ ring_wf s'
      /\ (_isPaused s = true ->
          count (_chBufferPosn s') = 0
          /\ tr = snd (service_pump s)
                    ++ snd (writes (buffered s)
                              (set_isPaused false (fst (service_pump s))))))
  /\ service ASCII_XOFF 40 41 mqttAtNotice = Some (pause 40 mqttAtNotice, [])
  /\ service "A" 40 41 mqttAtNotice = Some (mqttAtNotice, []).
Proof.
  cbv zeta. split; [|split].
  - destruct (X13_service_control_bytes
                (fst (writes ["W"; "x"; Str.nl]%char (pause 40 mqttAtNotice)))
                50 41) as (_ & _ & Hon & _).
    apply Hon. apply writes_wf, pause_wf.
    unfold ring_wf. vm_compute. repeat split; repeat constructor.
  - destruct (X13_service_control_bytes mqttAtNotice 40 41)
      as (_ & _ & _ & Hoff & _).
    apply Hoff. reflexivity.
  - destruct (X13_service_control_bytes mqttAtNotice 40 41)
      as (_ & _ & _ & _ & Hany).
    apply (Hany "A"%char); [discriminate | discriminate | reflexivity].
Defined.

Lemma wifiRead_write ch s : List.filter isWifiRead (snd (write ch s)) = [].
Proof.
  destruct (_isPaused s) eqn:Hp.
  - unfold write. rewrite Hp. destruct (Ring.canPut _); reflexivity.
  - destruct (anyNetSink s) eqn:Hn.
    + rewrite write_unpaused by assumption.
      destruct (Ascii.eqb ch Str.nl); cbn [snd];
        [|now apply filter_serialEcho].
      rewrite List.filter_app, filter_serialEcho by reflexivity. cbn [app].
      generalize (write_collect ch s). intros s1.
      unfold write_eol. st_simpl.
      destruct (_collectLineForLog s1); [|reflexivity].
      destruct (0 <? String.length (_msgToLog s1)); [|reflexivity].
      match goal with
      | |- context [write_http ?x] =>
          pose proof (filter_write_http isWifiRead ltac:(reflexivity)
                        ltac:(reflexivity) ltac:(reflexivity)
                        ltac:(reflexivity) x) as Hh;
            destruct (write_http x) as [s5 e5]
      end.
      cbn [snd] in *. rewrite List.filter_app, Hh, app_nil_r.
      unfold write_structured. st_simpl.
      destruct (_logToMQTT s1), (bool_of_int (_logToCommandSerial s1)); reflexivity.
    + rewrite write_unpaused_no_sink by assumption.
      now apply filter_serialEcho.
Qed.

Lemma wifiRead_loop fuel :
  forall s s' tr,
    handleLoggedDuringPause_loop fuel s = Some (s', tr) ->
    List.filter isWifiRead tr = [].
Proof.
  induction fuel as [|fuel IH]; intros s s' tr E;
    cbn [handleLoggedDuringPause_loop] in E.
  - destruct (Ring.canGet (_chBufferPosn s)); [discriminate|].
    now injection E as _ <-.
  - destruct (Ring.canGet (_chBufferPosn s)); [|now injection E as _ <-].
    pose proof (wifiRead_write
                  (default "000"%char
                     (_pChBuffer s !! Ring.posToGet (_chBufferPosn s))) s) as H1.
    destruct (write _ s) as [s1 e1]. cbn [snd] in H1.
    destruct (handleLoggedDuringPause_loop fuel _) as [[s3 e3]|] eqn:E3;
      [|discriminate].
    injection E as _ <-. rewrite List.filter_app, H1. cbn [app].
    eapply IH. exact E3.
Qed.

(** X14. A tick reads from the TCP socket only when the client is
    connected and bytes are pending, and then once, at most
    [MAX_RX_BUFFER_SIZE] = 100 bytes: the [read] calls of a tick are
    none, or one of min(100, available) bytes; nothing else a tick does
    (pause, resume, replay of buffered bytes) reads from the socket. *)
Theorem X14_socket_pump_is_capped (c : ascii) (tp now : Z) (s s' : NetLog)
    (tr : list Event) :
  service c tp now s = Some (s', tr) ->
  List.filter isWifiRead tr
  = (if wc_connected (_wifiClient s) && (0 <? wc_available (_wifiClient s))
     then [WifiRead (Nat.min MAX_RX_BUFFER_SIZE (wc_available (_wifiClient s)))]
     else [])
  /\ forall n, In (WifiRead n) tr -> 0 < n <= 100.
Proof.
  intros E.
  assert (Hpump : List.filter isWifiRead (snd (service_pump s))
                  = if wc_connected (_wifiClient s)
                       && (0 <? wc_available (_wifiClient s))
                    then [WifiRead (Nat.min MAX_RX_BUFFER_SIZE
                                      (wc_available (_wifiClient s)))]
                    else []).
  { unfold service_pump. destruct (wc_connected (_wifiClient s)); [|reflexivity].
    cbn [andb].
    destruct (Nat.ltb_spec MAX_RX_BUFFER_SIZE (wc_available (_wifiClient s)))
      as [Hbig|Hsmall].
    - assert (H0 : (0 <? wc_available (_wifiClient s)) = true)
        by (apply Nat.ltb_lt; unfold MAX_RX_BUFFER_SIZE in *; lia).
      rewrite H0. change (0 <? MAX_RX_BUFFER_SIZE) with true. cbv iota.
      cbn [snd List.filter isWifiRead]. do 2 f_equal.
      unfold MAX_RX_BUFFER_SIZE in *. lia.
    - destruct (0 <? wc_available (_wifiClient s)); [|reflexivity].
      cbn [snd List.filter isWifiRead]. do 2 f_equal.
      unfold MAX_RX_BUFFER_SIZE in *. lia. }
  assert (Hall : List.filter isWifiRead tr
                 = List.filter isWifiRead (snd (service_pump s))).
  { unfold service in E. destruct (service_pump s) as [s1 e1]. cbn [snd].
    destruct (if Ascii.eqb c ASCII_XOFF then _ else _) as [[s2 e2]|] eqn:E2;
      [|discriminate].
    assert (H2 : List.filter isWifiRead e2 = []).
    { destruct (Ascii.eqb c ASCII_XOFF); [now injection E2 as _ <-|].
      destruct (Ascii.eqb c ASCII_XON); [|now injection E2 as _ <-].
      unfold resume, handleLoggedDuringPause in E2.
      destruct (_isPaused s1); [|now injection E2 as _ <-].
      eapply wifiRead_loop. exact E2. }
    destruct (_isPaused s2 && _).
    - unfold handleLoggedDuringPause in E.
      destruct (handleLoggedDuringPause_loop _ _) as [[s3 e3]|] eqn:E3;
        [|discriminate].
      injection E as _ <-.
      rewrite !List.filter_app, H2, (wifiRead_loop _ _ _ _ E3).
      now rewrite !app_nil_r.
    - injection E as _ <-. rewrite List.filter_app, H2. now rewrite app_nil_r. }
  rewrite Hall, Hpump. split; [reflexivity|].
  intros n Hin.
  assert (Hin' : In (WifiRead n) (List.filter isWifiRead tr))
    by (apply List.filter_In; split; [exact Hin | reflexivity]).
  rewrite Hall, Hpump in Hin'.
  destruct (wc_connected (_wifiClient s)); [|destruct Hin'].
  destruct (Nat.ltb_spec 0 (wc_available (_wifiClient s))) as [Hpos|];
    [|destruct Hin'].
  assert (Hm : 0 < Nat.min MAX_RX_BUFFER_SIZE (wc_available (_wifiClient s)) <= 100)
    by (unfold MAX_RX_BUFFER_SIZE; lia).
  revert Hin' Hm.
  generalize (Nat.min MAX_RX_BUFFER_SIZE (wc_available (_wifiClient s))).
  intros m Hin' Hm. destruct Hin' as [Hin'|[]]. now injection Hin' as <-.
Qed.

Lemma X14_socket_pump_is_capped_witness :
  List.filter isWifiRead
    (snd (service_pump (set_wifiClient (mkWiFiClient true 250 []) mqttAtNotice)))
  = [WifiRead 100]
  /\ forall n,
      In (WifiRead n)
        (snd (service_pump (set_wifiClient (mkWiFiClient true 250 []) mqttAtNotice))) ->
      0 < n <= 100.
Proof.
  apply (X14_socket_pump_is_capped "000"%char 0 0
           (set_wifiClient (mkWiFiClient true 250 []) mqttAtNotice)
           (fst (service_pump (set_wifiClient (mkWiFiClient true 250 []) mqttAtNotice)))
           (snd (service_pump (set_wifiClient (mkWiFiClient true 250 []) mqttAtNotice)))).
  vm_compute. reflexivity.
Defined.

(** ** [setLogLevel]: what it accepts *)

Lemma toupper_idem c : Str.toupper (Str.toupper c) = Str.toupper c.
Proof. destruct c as [[] [] [] [] [] [] [] []]; reflexivity. Qed.

Lemma setLogLevel_range s str :
  (LOG_LEVEL_SILENT <= _loggingThreshold (fst (setLogLevel str s))
   <= LOG_LEVEL_VERBOSE)%Z.
Proof.
  unfold setLogLevel. destruct (negb _); cbn [fst]; st_simpl;
    apply levelOfChar_range.
Qed.

Lemma setLogLevel_threshold str s :
  _loggingThreshold (fst (setLogLevel str s))
  = levelOfChar (Str.toupper (Str.first_char str)).
Proof. unfold setLogLevel. destruct (negb _); reflexivity. Qed.

(** The characters that select a level other than SILENT. *)
Lemma toupper_level_silent c :
  c ∉ ["F"; "f"; "E"; "e"; "W"; "w"; "N"; "n"; "T"; "t"; "V"; "v";
       "001"; "002"; "003"; "004"; "005"; "006"]%char ->
  levelOfChar (Str.toupper c) = LOG_LEVEL_SILENT.
Proof.
  intros H. destruct c as [[] [] [] [] [] [] [] []];
    first [ reflexivity
          | exfalso; apply H; apply list_elem_of_In; cbn; tauto ].
Qed.

(** X15. [setLogLevel] looks at the first character only, in either
    case: the threshold it stores is always one of the seven levels; an
    empty text stores SILENT, and so does every text whose first
    character is none of the six letters, in either case, and none of
    the bytes 1..6, whatever follows; the six letters, in either case,
    and the bytes 1..6 store FATAL, ERROR, WARNING, NOTICE, TRACE and
    VERBOSE; the rest of the text and the case of the letter make no
    difference to the state reached or to the calls made; and nothing
    but the threshold changes. *)
Theorem X15_setLogLevel_input (s : NetLog) :
  (forall str,
      (LOG_LEVEL_SILENT <= _loggingThreshold (fst (setLogLevel str s))
       <= LOG_LEVEL_VERBOSE)%Z
      /\ fst (setLogLevel str s)
         = set_loggingThreshold (_loggingThreshold (fst (setLogLevel str s))) s)
  /\ _loggingThreshold (fst (setLogLevel "" s)) = LOG_LEVEL_SILENT
  /\ _loggingThreshold (fst (setLogLevel "warning" s)) = LOG_LEVEL_WARNING
  /\ _loggingThreshold (fst (setLogLevel "3" s)) = LOG_LEVEL_SILENT
  /\ (forall c rest rest',
         setLogLevel (String c rest) s = setLogLevel (String c rest') s)
  /\ (forall c rest,
         setLogLevel (String (Str.toupper c) rest) s
         = setLogLevel (String c rest) s)
  /\ (forall c rest,
         c ∉ ["F"; "f"; "E"; "e"; "W"; "w"; "N"; "n"; "T"; "t"; "V"; "v";
              "001"; "002"; "003"; "004"; "005"; "006"]%char ->
         _loggingThreshold (fst (setLogLevel (String c rest) s))
         = LOG_LEVEL_SILENT)
  /\ (forall c rest,
         let T := _loggingThreshold (fst (setLogLevel (String c rest) s)) in
         (c ∈ ["F"; "f"; "001"]%char -> T = LOG_LEVEL_FATAL)
         /\ (c ∈ ["E"; "e"; "002"]%char -> T = LOG_LEVEL_ERROR)
         /\ (c ∈ ["W"; "w"; "003"]%char -> T = LOG_LEVEL_WARNING)
         /\ (c ∈ ["N"; "n"; "004"]%char -> T = LOG_LEVEL_NOTICE)
         /\ (c ∈ ["T"; "t"; "005"]%char -> T = LOG_LEVEL_TRACE)
         /\ (c ∈ ["V"; "v"; "006"]%char -> T = LOG_LEVEL_VERBOSE)).
Proof.
  split; [|split; [|split; [|split; [|split; [|split; [|split]]]]]].
  - intros str. unfold setLogLevel.
    destruct (negb _); cbn [fst]; st_simpl;
      (split; [apply levelOfChar_range | reflexivity]).
  - unfold setLogLevel. destruct (negb _); reflexivity.
  - unfold setLogLevel. destruct (negb _); reflexivity.
  - unfold setLogLevel. destruct (negb _); reflexivity.
  - intros c rest rest'. reflexivity.
  - intros c rest. unfold setLogLevel. cbn [Str.first_char].
    now rewrite toupper_idem.
  - intros c rest H. rewrite setLogLevel_threshold. cbn [Str.first_char].
    now apply toupper_level_silent.
  - intros c rest T. subst T. rewrite setLogLevel_threshold.
    cbn [Str.first_char].
    repeat split; intros H;
      repeat (apply elem_of_cons in H as [->|H]; [reflexivity|]);
      inversion H.
Qed.

Lemma X15_setLogLevel_input_witness :
  _loggingThreshold (fst (setLogLevel "30" mqttAtNotice)) = LOG_LEVEL_SILENT
  /\ _loggingThreshold (fst (setLogLevel "eRROR" mqttAtNotice)) = LOG_LEVEL_ERROR.
Proof.
  destruct (X15_setLogLevel_input mqttAtNotice)
    as (_ & _ & _ & _ & _ & _ & Hsilent & Hlevel).
  split.
  - apply (Hsilent "3"%char "0"). intros H.
    repeat (apply elem_of_cons in H as [H|H]; [discriminate|]).
    inversion H.
  - destruct (Hlevel "e"%char "RROR") as (_ & He & _).
    apply He. apply list_elem_of_In. cbn. tauto.
Defined.

(** ** The [int] flags *)

Lemma flags_01_ext s s' :
  _logToSerial s' = _logToSerial s ->
  _logToCommandSerial s' = _logToCommandSerial s ->
  flags_01 s -> flags_01 s'.
Proof. unfold flags_01. now intros -> ->. Qed.

Lemma write_flags_01 ch s : flags_01 s -> flags_01 (fst (write ch s)).
Proof.
  destruct (write_same_config ch s) as (_ & _ & _ & _ & _ & _ & _ & H8 & _ & H10 & _).
  now apply flags_01_ext.
Qed.

Lemma int_of_bool_01 b : (int_of_bool b = 0 \/ int_of_bool b = 1)%Z.
Proof. destruct b; [right|left]; reflexivity. Qed.

(** X16. The two flags kept as [int], serial and command serial, only
    ever hold 0 or 1: this holds after construction and is kept by every
    operation, so the canonical text prints them as 0 or 1 and [setup]
    reads them back unchanged. *)
Theorem X16_int_flags_are_0_or_1 :
  (forall net n t, flags_01 (NetLog_new net n t))
  /\ forall s : NetLog,
      (forall f p, flags_01 s -> flags_01 (fst (setSerial f p s)))
      /\ (forall f, flags_01 s -> flags_01 (fst (setCmdSerial f s)))
      /\ (forall cfg name, flags_01 s -> flags_01 (fst (setup cfg name s)))
      /\ (forall str f t i p u,
             flags_01 s ->
             flags_01 (fst (setLogLevel str s))
             /\ flags_01 (fst (setMQTT f t s))
             /\ flags_01 (fst (setHTTP f i p u s)))
      /\ (forall l now, flags_01 s ->
                        flags_01 (fst (writes l s)) /\ flags_01 (pause now s))
      /\ (flags_01 s -> ring_wf s ->
          exists s' tr, resume s = Some (s', tr) /\ flags_01 s')
      /\ (forall c tp now, flags_01 s -> ring_wf s ->
             exists s' tr, service c tp now s = Some (s', tr) /\ flags_01 s').
Proof.
  split.
  { intros net n t. split; [right|left]; reflexivity. }
  intros s.
  assert (Hr : forall r x, flags_01 x -> flags_01 (set_chBufferPosn r x))
    by (intros r x; apply flags_01_ext; reflexivity).
  assert (Hb : forall b x, flags_01 x -> flags_01 (set_isPaused b x))
    by (intros b x; apply flags_01_ext; reflexivity).
  assert (Ht : forall t x, flags_01 x -> flags_01 (set_pauseStartedMs t x))
    by (intros t x; apply flags_01_ext; reflexivity).
  assert (Hw : forall w x, flags_01 x -> flags_01 (set_wifiClient w x))
    by (intros w x; apply flags_01_ext; reflexivity).
  split; [|split; [|split; [|split; [|split; [|split]]]]].
  - intros f p [_ Hc]. unfold setSerial.
    destruct (_ || _); cbn [fst]; (split; [apply int_of_bool_01 | exact Hc]).
  - intros f [Hs _]. unfold setCmdSerial.
    destruct (negb _); cbn [fst]; (split; [exact Hs | apply int_of_bool_01]).
  - intros cfg name H. unfold setup. destruct cfg as [cfg|]; cbn [fst].
    + split; apply int_of_bool_01.
    + exact H.
  - intros str f t i p u H. unfold setLogLevel, setMQTT, setHTTP.
    repeat match goal with
           | |- context [if ?b then _ else _] => destruct b
           end; cbn [fst]; repeat split; apply H.
  - intros l now H. split.
    + apply (writes_keeps flags_01 write_flags_01). exact H.
    + exact H.
  - intros H Hwf. destruct (resume_wf s Hwf) as (s' & tr & E & _).
    exists s', tr. split; [exact E|].
    exact (resume_keeps flags_01 write_flags_01 Hr Hb s s' tr H E).
  - intros c tp now H Hwf.
    destruct (service_wf c tp now s Hwf) as (s' & tr & E & _).
    exists s', tr. split; [exact E|].
    exact (service_keeps flags_01 write_flags_01 Hr Hb Ht Hw c tp now s s' tr H E).
Qed.

Lemma X16_int_flags_are_0_or_1_witness :
  flags_01 (fst (setSerial false "2" (fst (setCmdSerial true (NetLog_new [] 4 10))))).
Proof.
  destruct X16_int_flags_are_0_or_1 as [Hnew Hkeep].
  destruct (Hkeep (NetLog_new [] 4 10)) as (_ & Hcmd & _).
  destruct (Hkeep (fst (setCmdSerial true (NetLog_new [] 4 10)))) as (Hser & _).
  apply Hser, Hcmd, Hnew.
Defined.

(** ** No level silences an unprefixed line *)

(** X17. No threshold that [setLogLevel] can store keeps an unprefixed
    line from the structured sinks: after [setLogLevel] with any
    argument, even one asking for SILENT, a complete line whose first
    byte is none of the level letters or codes is delivered to the MQTT
    sink, when that sink is enabled, as a record of level 0; and with
    the threshold at VERBOSE every line is delivered. *)
Theorem X17_no_level_silences_unprefixed_lines
    (s : NetLog) (str : string) (body : list ascii) :
  _isPaused s = false ->
  _firstChOnLine s = true -> _collectLineForLog s = false ->
  Str.nl ∉ body ->
  _logToMQTT s = true ->
  let line := body ++ [Str.nl] in
  (levelOfChar (hd Str.nl line) = LOG_LEVEL_SILENT ->
   mqttEvents (snd (writes line (fst (setLogLevel str s))))
   = [MqttReportSilent (logStr 0 (lineText line))])
  /\ mqttEvents (snd (writes line (fst (setLogLevel "V" s))))
     = [MqttReportSilent (logStr (levelOfChar (hd Str.nl line)) (lineText line))].
Proof.
  intros Hp Hf Hc Hnl Hm line.
  assert (Hfr : forall x,
             _isPaused (fst (setLogLevel x s)) = false
             /\ _firstChOnLine (fst (setLogLevel x s)) = true
             /\ _collectLineForLog (fst (setLogLevel x s)) = false
             /\ _logToMQTT (fst (setLogLevel x s)) = true).
  { intros x. unfold setLogLevel. destruct (negb _); cbn [fst]; st_simpl; auto. }
  split.
  - intros HS. destruct (Hfr str) as (Hp' & Hf' & Hc' & Hm').
    unfold line. rewrite line_mqttEvents by assumption. fold line.
    rewrite HS, Hm'.
    destruct (setLogLevel_range s str) as [Hlo _].
    apply Z.leb_le in Hlo. unfold LOG_LEVEL_SILENT in *. now rewrite Hlo.
  - destruct (Hfr "V") as (Hp' & Hf' & Hc' & Hm').
    unfold line. rewrite line_mqttEvents by assumption. fold line.
    rewrite Hm'.
    assert (HT : _loggingThreshold (fst (setLogLevel "V" s)) = LOG_LEVEL_VERBOSE).
    { unfold setLogLevel. destruct (negb _); reflexivity. }
    rewrite HT.
    destruct (levelOfChar_range (hd Str.nl line)) as [_ Hhi].
    apply Z.leb_le in Hhi. now rewrite Hhi.
Qed.

Lemma X17_no_level_silences_unprefixed_lines_witness :
  mqttEvents
    (snd (writes (bytes "boot ok" ++ [Str.nl]) (fst (setLogLevel "S" mqttAtNotice))))
  = [MqttReportSilent (logStr 0 "boot ok")].
Proof.
  apply (X17_no_level_silences_unprefixed_lines mqttAtNotice "S" (bytes "boot ok"));
    try reflexivity.
  intros H. repeat (apply elem_of_cons in H as [H|H]; [discriminate|]).
  inversion H.
Defined.
